(** * Security Radar Server: a shallow embedding and its verified properties

    The development follows [server1.py] (the [SecurityRadarServer] with
    motion detection and zones), [server.py] (the plain
    [ScreenCaptureServer]) and the receive loop of the viewer clients
    ([main.py], [main1.py]).

    Conventions.
    - A Python [int] is a [Z].
    - A Python [float] is the rational value [Q] of a binary64 number.  The
      float operations whose result the code can round (the division and
      the product of the motion percentage, the subtraction of two clock
      readings, the resize ratio, [round(x, 2)]) round in the model too, to
      the nearest binary64 value with ties to even ([Py.round64]); overflow
      to infinity is out of reach of the values involved and is not
      modelled.  The thresholds [5.0 * (11 - s) / 10] and the ratio of two
      history counts are kept exact: the former are multiples of [0.5] for
      the sensitivities the code stores, the latter is only compared with
      [0.5], which rounding to nearest cannot cross.
    - A Python [str] is a Rocq [string] whose characters are read as code
      points below 256; a Python [bytes] object is a [list ascii].  The
      command dispatcher is also given over all code points
      ([Unicode._process_command]), with the tables of the Unicode database
      as parameters.
    - A [dict] whose iteration order matters is an association list in
      insertion order; a [deque(maxlen=n)] is a list, oldest entry first.
    - Methods that mutate [self] return the new object next to their
      result; an exception caught by the enclosing [try] is an [option] or a
      dedicated outcome, with the [except] branch written out. *)

From Stdlib Require Import ZArith QArith Qround Lqa List String Ascii Bool Lia.
From Stdlib Require Import DecimalString DecimalZ DecimalN DecimalPos DecimalFacts.
Import ListNotations.

Local Open Scope Z_scope.
Local Open Scope list_scope.

(* ================================================================== *)
(** * Python primitives used by the servers *)
(* ================================================================== *)

Module Py.

(** [a > b] on floats. *)
Definition Qgtb (a b : Q) : bool := negb (Qle_bool a b).

(** ** Binary64 arithmetic

    [round64 x] is the binary64 number nearest to the rational [x], ties
    to the even significand: 53 bits of significand, exponents down to the
    subnormal step [2 ^ -1074].  A float operation of the code is the exact
    operation followed by [round64]. *)
Definition pow2 (k : Z) : Q :=
  if 0 <=? k then inject_Z (2 ^ k) else 1 # Z.to_pos (2 ^ (- k)).

(** The integer part of the binary logarithm of a positive rational. *)
Definition ilog2 (x : Q) : Z :=
  let k := Z.log2 (Qnum x) - Z.log2 (Z.pos (Qden x)) in
  if Qle_bool (pow2 k) x then k else k - 1.

Definition round_half_even (y : Q) : Z :=
  let f := Qfloor y in
  match (y - inject_Z f ?= 1 # 2)%Q with
  | Lt => f
  | Gt => f + 1
  | Eq => if Z.even f then f else f + 1
  end.

Definition round64_pos (x : Q) : Q :=
  let e := Z.max (ilog2 x - 52) (-1074) in
  (inject_Z (round_half_even (x / pow2 e)) * pow2 e)%Q.

Definition round64 (x : Q) : Q :=
  let r := Qred x in
  match Qnum r with
  | 0 => 0%Q
  | Z.pos _ => Qred (round64_pos r)
  | Z.neg _ => Qred (- round64_pos (- r))
  end.

(** [a / b], [a * b] and [a - b] on floats; an [int] operand below
    [2 ^ 53] converts exactly. *)
Definition fdiv (a b : Q) : Q := round64 (a / b).
Definition fmul (a b : Q) : Q := round64 (a * b).
Definition fsub (a b : Q) : Q := round64 (a - b).

(** [collections.deque(maxlen=n).append(x)]: append on the right and drop
    from the left whatever exceeds [maxlen]. *)
Definition deque_append {A : Type} (maxlen : nat) (d : list A) (x : A) : list A :=
  skipn (List.length (d ++ [x]) - maxlen)%nat (d ++ [x]).

(** ** Strings *)

Definition is_digit (c : ascii) : bool :=
  let n := N_of_ascii c in ((48 <=? n) && (n <=? 57))%N.

Definition digit_value (c : ascii) : Z := Z.of_N (N_of_ascii c) - 48.

(** Unicode white space among the code points below 256, as recognised by
    [str.strip]: TAB..CR, FS..US, SPACE, NEL and NBSP. *)
Definition is_space (c : ascii) : bool :=
  let n := N_of_ascii c in
  (((9 <=? n) && (n <=? 13)) || ((28 <=? n) && (n <=? 32))
   || (n =? 133) || (n =? 160))%N.

Fixpoint lstrip (s : string) : string :=
  match s with
  | String c r => if is_space c then lstrip r else s
  | EmptyString => EmptyString
  end.

(** [rstrip], by structural recursion: a character is dropped when it is
    white space and everything after it has been dropped. *)
Fixpoint rstrip (s : string) : string :=
  match s with
  | String c r =>
      match rstrip r with
      | EmptyString => if is_space c then EmptyString else String c EmptyString
      | r' => String c r'
      end
  | EmptyString => EmptyString
  end.

Definition strip (s : string) : string := rstrip (lstrip s).

(** [s.startswith(p)]. *)
Definition startswith (s p : string) : bool := String.prefix p s.

(** [s.split(sep)] for a one-character separator: the pieces between the
    separators, never an empty list. *)
Fixpoint split_aux (sep : ascii) (cur : string) (s : string) : list string :=
  match s with
  | EmptyString => [cur]
  | String c r =>
      if Ascii.eqb c sep then cur :: split_aux sep EmptyString r
      else split_aux sep (cur ++ String c EmptyString)%string r
  end.

Definition split (sep : ascii) (s : string) : list string :=
  split_aux sep EmptyString s.

(** [s.lower()]: the capital letters below 256 are A..Z and the Latin-1
    capitals 192..222 without the multiplication sign 215. *)
Definition lower_char (c : ascii) : ascii :=
  let n := N_of_ascii c in
  if (((65 <=? n) && (n <=? 90))
      || ((192 <=? n) && (n <=? 222) && negb (n =? 215)))%N
  then ascii_of_N (n + 32) else c.

Fixpoint lower (s : string) : string :=
  match s with
  | String c r => String (lower_char c) (lower r)
  | EmptyString => EmptyString
  end.

(** ** [int(s)]

    The interpreter first rewrites the text into ASCII.  An ASCII text is
    taken as it is.  In any other text a code point below 127 stays, white
    space from 127 on (NEL and NBSP below 256) becomes a space, and a code
    point that is neither (there is no decimal digit from 127 to 255)
    becomes a question mark, where the rewriting stops; the parser rejects
    the question mark.  The parser then skips the white space of the C
    locale (TAB..CR and SPACE, not FS..US) on both sides of an optional
    sign followed by decimal digits, in which single underscores may
    separate digits.  [None] is the [ValueError].  (The limit that recent
    interpreters put on the number of digits, 4300 unless configured, is
    not modelled here; [Unicode.int] has it.) *)
Definition is_c_space (c : ascii) : bool :=
  let n := N_of_ascii c in
  (((9 <=? n) && (n <=? 13)) || (n =? 32))%N.

Fixpoint isascii (s : string) : bool :=
  match s with
  | String c r => (N_of_ascii c <? 128)%N && isascii r
  | EmptyString => true
  end.

Definition int_char (c : ascii) : ascii :=
  let n := N_of_ascii c in
  if (n <? 127)%N then c
  else if ((n =? 133) || (n =? 160))%N then " "%char
  else "?"%char.

Fixpoint int_chars (s : string) : string :=
  match s with
  | String c r => String (int_char c) (int_chars r)
  | EmptyString => EmptyString
  end.

Definition int_text (s : string) : string :=
  if isascii s then s else int_chars s.

Fixpoint int_lstrip (s : string) : string :=
  match s with
  | String c r => if is_c_space c then int_lstrip r else s
  | EmptyString => EmptyString
  end.

Fixpoint int_rstrip (s : string) : string :=
  match s with
  | String c r =>
      match int_rstrip r with
      | EmptyString => if is_c_space c then EmptyString else String c EmptyString
      | r' => String c r'
      end
  | EmptyString => EmptyString
  end.

Fixpoint int_digits (s : string) (acc : Z) (after_underscore : bool) : option Z :=
  match s with
  | EmptyString => if after_underscore then None else Some acc
  | String c r =>
      if is_digit c then int_digits r (10 * acc + digit_value c) false
      else if Ascii.eqb c "_" then
             if after_underscore then None else int_digits r acc true
      else None
  end.

Definition int_unsigned (s : string) : option Z :=
  match s with
  | String c r => if is_digit c then int_digits r (digit_value c) false else None
  | EmptyString => None
  end.

(** The parser, on the ASCII text. *)
Definition int_parse (text : string) : option Z :=
  match int_rstrip (int_lstrip text) with
  | String "-" r => option_map Z.opp (int_unsigned r)
  | String "+" r => int_unsigned r
  | t => int_unsigned t
  end.

Definition int (s : string) : option Z := int_parse (int_text s).

(** [str(n)] for an integer. *)
Definition str (n : Z) : string := NilZero.string_of_int (Z.to_int n).

(** [int(x)] on a float: truncation toward zero. *)
Definition trunc (x : Q) : Z := Z.quot (Qnum x) (Z.pos (Qden x)).

(** [round(x, 2)]: the float nearest to the nearest multiple of 1/100 of
    the exact value of [x], ties to even. *)
Definition round2 (x : Q) : Q :=
  round64 (inject_Z (round_half_even (x * 100)) / 100).

(** ** [str.encode('utf-8')] and [bytes.decode('utf-8')] on code points
    below 256: one byte below 128, two bytes from 128 on. *)
Fixpoint encode_utf8 (s : string) : list ascii :=
  match s with
  | EmptyString => []
  | String c r =>
      let n := N_of_ascii c in
      if (n <? 128)%N then c :: encode_utf8 r
      else ascii_of_N (192 + n / 64) :: ascii_of_N (128 + n mod 64) :: encode_utf8 r
  end.

(** [None] is the [UnicodeDecodeError]; a sequence that decodes to a code
    point from 256 on is outside the modelled strings. *)
Fixpoint decode_utf8 (b : list ascii) : option string :=
  match b with
  | [] => Some EmptyString
  | c :: r =>
      let n := N_of_ascii c in
      if (n <? 128)%N then option_map (String c) (decode_utf8 r)
      else if ((194 <=? n) && (n <=? 195))%N then
        match r with
        | c2 :: r2 =>
            let m := N_of_ascii c2 in
            if ((128 <=? m) && (m <? 192))%N then
              option_map (String (ascii_of_N ((n - 192) * 64 + (m - 128))))
                         (decode_utf8 r2)
            else None
        | [] => None
        end
      else None
  end.

(** [len(s)] of a [str]. *)
Definition len (s : string) : Z := Z.of_nat (String.length s).

(** [str(b)] for a boolean, as an f-string formats it. *)
Definition str_bool (b : bool) : string := if b then "True" else "False".

End Py.

(* ================================================================== *)
(** * server1.py: configuration *)
(* ================================================================== *)

Module ServerConfig.
Definition MAX_CLIENTS : Z := 10.
Definition DEFAULT_FPS : Z := 10.
Definition DEFAULT_QUALITY : Z := 60.
Definition DEFAULT_MONITOR : Z := 1.
Definition MAX_WIDTH : Z := 1280.
Definition MOTION_DETECTION : bool := true.
Definition MOTION_THRESHOLD : Q := 5.
Definition MOTION_SENSITIVITY : Z := 3.
Definition ALERT_COOLDOWN : Q := 3.
Definition ZONES_ENABLED : bool := true.
Definition MAX_ZONES : Z := 10.
End ServerConfig.

(* ================================================================== *)
(** * server1.py: class MonitoringZone *)
(* ================================================================== *)

Module MonitoringZone.

Record t : Type := mk {
  zone_id : Z;
  name : string;
  x : Z;
  y : Z;
  width : Z;
  height : Z;
  sensitivity : Z;
  enabled : bool;
  motion_detected : bool;
  last_alert_time : Q;
  motion_history : list bool
}.

(** [__init__(zone_id, name, x, y, width, height, sensitivity=5)]. *)
Definition init (zone_id : Z) (name : string) (x y width height sensitivity : Z) : t :=
  {| zone_id := zone_id; name := name; x := x; y := y;
     width := width; height := height; sensitivity := sensitivity;
     enabled := true; motion_detected := false; last_alert_time := 0;
     motion_history := [] |}.

Definition get_bounds (z : t) : Z * Z * Z * Z :=
  (x z, y z, x z + width z, y z + height z).

(** [check_motion(diff_percentage)]: the updated zone and the returned
    flag. *)
Definition check_motion (z : t) (diff_percentage : Q) : t * bool :=
  let threshold :=
    (ServerConfig.MOTION_THRESHOLD * inject_Z (11 - sensitivity z) / 10)%Q in
  let md := Py.Qgtb diff_percentage threshold in
  ({| zone_id := zone_id z; name := name z; x := x z; y := y z;
      width := width z; height := height z; sensitivity := sensitivity z;
      enabled := enabled z;
      motion_detected := md;
      last_alert_time := last_alert_time z;
      motion_history := Py.deque_append 10 (motion_history z) md |},
   md).

(** [should_alert()], with the value of [time.time()] as an argument.  The
    difference of the two floats is a float subtraction. *)
Definition should_alert (z : t) (current_time : Q) : t * bool :=
  if Py.Qgtb (Py.fsub current_time (last_alert_time z)) ServerConfig.ALERT_COOLDOWN then
    ({| zone_id := zone_id z; name := name z; x := x z; y := y z;
        width := width z; height := height z; sensitivity := sensitivity z;
        enabled := enabled z;
        motion_detected := motion_detected z;
        last_alert_time := current_time;
        motion_history := motion_history z |},
     true)
  else (z, false).

End MonitoringZone.

(* ================================================================== *)
(** * Frames and the PIL operations of the detector *)
(* ================================================================== *)

Module PIL.

(** An RGB image: its rows of pixels. *)
Definition Image : Type := list (list (Z * Z * Z)).

(** A single-band ('L') image. *)
Definition Gray : Type := list (list Z).

Definition height {A : Type} (img : list (list A)) : Z := Z.of_nat (List.length img).

Definition width {A : Type} (img : list (list A)) : Z :=
  match img with
  | [] => 0
  | row :: _ => Z.of_nat (List.length row)
  end.

(** [img.convert('L')]: the ITU-R 601-2 luma transform in PIL's fixed
    point form. *)
Definition luma (p : Z * Z * Z) : Z :=
  let '(r, g, b) := p in
  Z.shiftr (r * 19595 + g * 38470 + b * 7471 + 32768) 16.

Definition convert_L (img : Image) : Gray := map (map luma) img.

(** [ImageChops.difference(a, b)]: the absolute difference pixel by
    pixel, over the common extent of the two images. *)
Definition difference (a b : Gray) : Gray :=
  map (fun rows => map (fun p => Z.abs (fst p - snd p)) (combine (fst rows) (snd rows)))
      (combine a b).

Definition pixel_count (g : Gray) : Z :=
  fold_right (fun row acc => Z.of_nat (List.length row) + acc) 0 g.

Definition pixel_sum (g : Gray) : Z :=
  fold_right (fun row acc => fold_right Z.add 0 row + acc) 0 g.

(** [ImageStat.Stat(g).mean]: one average per band, the float quotient of
    the sum of the pixels by their number; [None] is the
    [ZeroDivisionError] of an image without pixels. *)
Definition stat_mean (g : Gray) : option (list Q) :=
  if pixel_count g =? 0 then None
  else Some [Py.fdiv (inject_Z (pixel_sum g)) (inject_Z (pixel_count g))].

End PIL.

(* ================================================================== *)
(** * server1.py: class MotionDetector *)
(* ================================================================== *)

Module MotionDetector.

Record t : Type := mk {
  previous_frame : option PIL.Gray;
  enabled : bool;
  motion_detected : bool;
  motion_percentage : Q;
  sensitivity : Z;
  detection_history : list bool
}.

Definition init : t :=
  {| previous_frame := None; enabled := true; motion_detected := false;
     motion_percentage := 0; sensitivity := ServerConfig.MOTION_SENSITIVITY;
     detection_history := [] |}.

(** [sum(stat.mean) / len(stat.mean) / 255.0 * 100.0] on the difference
    image, each division and the product rounding as floats do; the sum
    adds the one band average to the integer 0, which is exact.  [None]
    when the [try] block raises. *)
Definition diff_percentage (current_gray previous : PIL.Gray) : option Q :=
  let diff := PIL.difference current_gray previous in
  match PIL.stat_mean diff with
  | None => None
  | Some mean =>
      if (List.length mean =? 0)%nat then None
      else Some (Py.fmul
                   (Py.fdiv
                      (Py.fdiv (fold_right Qplus 0%Q mean)
                               (inject_Z (Z.of_nat (List.length mean))))
                      255%Q)
                   100%Q)
  end.

(** [detect_motion(current_frame)]: the updated detector and the returned
    pair. *)
Definition detect_motion (d : t) (current_frame : PIL.Image) : t * (bool * Q) :=
  if negb (enabled d) then (d, (false, 0%Q))
  else
    let current_gray := PIL.convert_L current_frame in
    match previous_frame d with
    | None =>
        ({| previous_frame := Some current_gray; enabled := enabled d;
            motion_detected := motion_detected d;
            motion_percentage := motion_percentage d;
            sensitivity := sensitivity d;
            detection_history := detection_history d |},
         (false, 0%Q))
    | Some previous =>
        match diff_percentage current_gray previous with
        | None => (d, (false, 0%Q))
        | Some p =>
            let threshold :=
              (ServerConfig.MOTION_THRESHOLD * inject_Z (11 - sensitivity d) / 10)%Q in
            let md := Py.Qgtb p threshold in
            ({| previous_frame := Some current_gray; enabled := enabled d;
                motion_detected := md;
                motion_percentage := p;
                sensitivity := sensitivity d;
                detection_history := Py.deque_append 30 (detection_history d) md |},
             (md, p))
        end
    end.

Definition reset (d : t) : t :=
  {| previous_frame := None; enabled := enabled d;
     motion_detected := false; motion_percentage := 0;
     sensitivity := sensitivity d;
     detection_history := detection_history d |}.

End MotionDetector.

(* ================================================================== *)
(** * Sockets, client records and packets *)
(* ================================================================== *)

(** What [socket.sendall] does for one client during a broadcast: it
    returns, or raises one of the errors the broadcast catches (every error
    of a socket is an [OSError]). *)
Inductive SendResult : Type :=
| Sent
| BrokenPipeError
| ConnectionResetError
| OSError.

Definition raises (r : SendResult) : bool :=
  match r with
  | Sent => false
  | _ => true
  end.

(** The [client_info] dictionary.  The socket object is represented by its
    identity: two sockets are equal only when they are the same object. *)
Module ClientInfo.

Record t : Type := mk {
  socket : nat;
  address : string * Z;
  connected_at : Q;
  motion_enabled : bool;
  alerts_enabled : bool
}.

(** [==] on two such dictionaries. *)
Definition eqb (a b : t) : bool :=
  Nat.eqb (socket a) (socket b)
  && String.eqb (fst (address a)) (fst (address b))
  && Z.eqb (snd (address a)) (snd (address b))
  && Qeq_bool (connected_at a) (connected_at b)
  && Bool.eqb (motion_enabled a) (motion_enabled b)
  && Bool.eqb (alerts_enabled a) (alerts_enabled b).

Definition set_motion_enabled (v : bool) (c : t) : t :=
  {| socket := socket c; address := address c; connected_at := connected_at c;
     motion_enabled := v; alerts_enabled := alerts_enabled c |}.

Definition set_alerts_enabled (v : bool) (c : t) : t :=
  {| socket := socket c; address := address c; connected_at := connected_at c;
     motion_enabled := motion_enabled c; alerts_enabled := v |}.

(** [x in xs] for a list of client dictionaries. *)
Definition mem (c : t) (l : list t) : bool := existsb (eqb c) l.

(** [xs.remove(x)]: drops the first element equal to [x]. *)
Fixpoint remove (c : t) (l : list t) : list t :=
  match l with
  | [] => []
  | d :: r => if eqb c d then r else d :: remove c r
  end.

(** The registry holds references: a change made through one reference
    to a dictionary is seen through the registry entry for the same
    connection. *)
Definition write_through (c : t) (l : list t) : list t :=
  map (fun d => if Nat.eqb (socket d) (socket c) then c else d) l.

End ClientInfo.

(** The packet dictionary built by the capture loop of [server1.py]. *)
Module Packet.

Record t : Type := mk {
  type : string;
  timestamp : Q;
  width : Z;
  height : Z;
  data : string;
  motion_detected : bool;
  motion_percentage : Q;
  threat_level : Z;
  zone : string
}.

End Packet.

(** The double quote character, for building JSON text. *)
Definition dq : string := String (ascii_of_N 34) EmptyString.

(* ================================================================== *)
(** * server1.py: class SecurityRadarServer *)
(* ================================================================== *)

Module SecurityRadarServer.

(** The attributes of the server object that its methods read or write
    ([host], [port], the listening socket and the lock carry no state of
    their own here). *)
Record t : Type := mk {
  clients : list ClientInfo.t;
  running : bool;
  capture_fps : Z;
  quality : Z;
  screen_monitor : Z;
  motion_detector : MotionDetector.t;
  motion_enabled : bool;
  alerts_enabled : bool;
  zones : list (Z * MonitoringZone.t);
  threat_level : Z;
  frames_sent : Z;
  total_bytes_sent : Z;
  motion_events : Z;
  alerts_sent : Z;
  start_time : option Q
}.

Definition set_clients (v : list ClientInfo.t) (s : t) : t :=
  mk v (running s) (capture_fps s) (quality s) (screen_monitor s)
     (motion_detector s) (motion_enabled s) (alerts_enabled s) (zones s)
     (threat_level s) (frames_sent s) (total_bytes_sent s) (motion_events s)
     (alerts_sent s) (start_time s).

Definition set_capture_fps (v : Z) (s : t) : t :=
  mk (clients s) (running s) v (quality s) (screen_monitor s)
     (motion_detector s) (motion_enabled s) (alerts_enabled s) (zones s)
     (threat_level s) (frames_sent s) (total_bytes_sent s) (motion_events s)
     (alerts_sent s) (start_time s).

Definition set_quality (v : Z) (s : t) : t :=
  mk (clients s) (running s) (capture_fps s) v (screen_monitor s)
     (motion_detector s) (motion_enabled s) (alerts_enabled s) (zones s)
     (threat_level s) (frames_sent s) (total_bytes_sent s) (motion_events s)
     (alerts_sent s) (start_time s).

Definition set_screen_monitor (v : Z) (s : t) : t :=
  mk (clients s) (running s) (capture_fps s) (quality s) v
     (motion_detector s) (motion_enabled s) (alerts_enabled s) (zones s)
     (threat_level s) (frames_sent s) (total_bytes_sent s) (motion_events s)
     (alerts_sent s) (start_time s).

Definition set_motion_detector (v : MotionDetector.t) (s : t) : t :=
  mk (clients s) (running s) (capture_fps s) (quality s) (screen_monitor s)
     v (motion_enabled s) (alerts_enabled s) (zones s)
     (threat_level s) (frames_sent s) (total_bytes_sent s) (motion_events s)
     (alerts_sent s) (start_time s).

Definition set_motion_enabled (v : bool) (s : t) : t :=
  mk (clients s) (running s) (capture_fps s) (quality s) (screen_monitor s)
     (motion_detector s) v (alerts_enabled s) (zones s)
     (threat_level s) (frames_sent s) (total_bytes_sent s) (motion_events s)
     (alerts_sent s) (start_time s).

Definition set_threat_level (v : Z) (s : t) : t :=
  mk (clients s) (running s) (capture_fps s) (quality s) (screen_monitor s)
     (motion_detector s) (motion_enabled s) (alerts_enabled s) (zones s)
     v (frames_sent s) (total_bytes_sent s) (motion_events s)
     (alerts_sent s) (start_time s).

Definition set_frames_sent (v : Z) (s : t) : t :=
  mk (clients s) (running s) (capture_fps s) (quality s) (screen_monitor s)
     (motion_detector s) (motion_enabled s) (alerts_enabled s) (zones s)
     (threat_level s) v (total_bytes_sent s) (motion_events s)
     (alerts_sent s) (start_time s).

Definition set_total_bytes_sent (v : Z) (s : t) : t :=
  mk (clients s) (running s) (capture_fps s) (quality s) (screen_monitor s)
     (motion_detector s) (motion_enabled s) (alerts_enabled s) (zones s)
     (threat_level s) (frames_sent s) v (motion_events s)
     (alerts_sent s) (start_time s).

Definition set_motion_events (v : Z) (s : t) : t :=
  mk (clients s) (running s) (capture_fps s) (quality s) (screen_monitor s)
     (motion_detector s) (motion_enabled s) (alerts_enabled s) (zones s)
     (threat_level s) (frames_sent s) (total_bytes_sent s) v
     (alerts_sent s) (start_time s).

Definition set_alerts_sent (v : Z) (s : t) : t :=
  mk (clients s) (running s) (capture_fps s) (quality s) (screen_monitor s)
     (motion_detector s) (motion_enabled s) (alerts_enabled s) (zones s)
     (threat_level s) (frames_sent s) (total_bytes_sent s) (motion_events s)
     v (start_time s).

Definition set_sensitivity (v : Z) (d : MotionDetector.t) : MotionDetector.t :=
  MotionDetector.mk (MotionDetector.previous_frame d) (MotionDetector.enabled d)
    (MotionDetector.motion_detected d) (MotionDetector.motion_percentage d)
    v (MotionDetector.detection_history d).

(** [_initialize_default_zones]: four insertions into the empty
    dictionary, in this order. *)
Definition default_zones : list (Z * MonitoringZone.t) :=
  [ (1, MonitoringZone.init 1 "Entry Point" 0 0 640 360 5);
    (2, MonitoringZone.init 2 "Perimeter" 640 0 640 360 4);
    (3, MonitoringZone.init 3 "Restricted Area" 0 360 640 360 7);
    (4, MonitoringZone.init 4 "Parking" 640 360 640 360 3) ].

(** [__init__]. *)
Definition init : t :=
  {| clients := [];
     running := false;
     capture_fps := ServerConfig.DEFAULT_FPS;
     quality := ServerConfig.DEFAULT_QUALITY;
     screen_monitor := ServerConfig.DEFAULT_MONITOR;
     motion_detector := MotionDetector.init;
     motion_enabled := ServerConfig.MOTION_DETECTION;
     alerts_enabled := true;
     zones := default_zones;
     threat_level := 0;
     frames_sent := 0;
     total_bytes_sent := 0;
     motion_events := 0;
     alerts_sent := 0;
     start_time := None |}.

(** ** Statistics *)

Record Stats : Type := mkStats {
  st_running : bool;
  st_clients : Z;
  st_fps : Z;
  st_quality : Z;
  st_frames_sent : Z;
  st_total_bytes_sent : Z;
  st_uptime : Z;
  st_motion_enabled : bool;
  st_motion_events : Z;
  st_alerts_sent : Z;
  st_threat_level : Z;
  st_zones : Z
}.

(** [_get_statistics], with the current time as an argument;
    [total_seconds()] is the float nearest to the difference of the two
    dates. *)
Definition _get_statistics (s : t) (now : Q) : Stats :=
  let client_count := Z.of_nat (List.length (clients s)) in
  let uptime := match start_time s with
                | Some t0 => Py.trunc (Py.fsub now t0)
                | None => 0
                end in
  {| st_running := running s;
     st_clients := client_count;
     st_fps := capture_fps s;
     st_quality := quality s;
     st_frames_sent := frames_sent s;
     st_total_bytes_sent := total_bytes_sent s;
     st_uptime := uptime;
     st_motion_enabled := motion_enabled s;
     st_motion_events := motion_events s;
     st_alerts_sent := alerts_sent s;
     st_threat_level := threat_level s;
     st_zones := Z.of_nat (List.length (zones s)) |}.

Definition json_bool (b : bool) : string := if b then "true" else "false".

Definition json_member (key value : string) : string :=
  (dq ++ key ++ dq ++ ": " ++ value)%string.

(** [json.dumps(stats)]: the members in insertion order, separated by a
    comma and a space. *)
Definition json_dumps_stats (st : Stats) : string :=
  ("{" ++ String.concat ", "
     [ json_member "running" (json_bool (st_running st));
       json_member "clients" (Py.str (st_clients st));
       json_member "fps" (Py.str (st_fps st));
       json_member "quality" (Py.str (st_quality st));
       json_member "frames_sent" (Py.str (st_frames_sent st));
       json_member "total_bytes_sent" (Py.str (st_total_bytes_sent st));
       json_member "uptime" (Py.str (st_uptime st));
       json_member "motion_enabled" (json_bool (st_motion_enabled st));
       json_member "motion_events" (Py.str (st_motion_events st));
       json_member "alerts_sent" (Py.str (st_alerts_sent st));
       json_member "threat_level" (Py.str (st_threat_level st));
       json_member "zones" (Py.str (st_zones st)) ]
   ++ "}")%string.

(** ** Commands of a client *)

(** The outcome of the [try] block of [_process_command]: the server, the
    client dictionary of the handler, and the messages handed to
    [client_socket.send], in order. *)
Definition Outcome : Type := (t * ClientInfo.t * list (list ascii))%type.

(** [command.split(':')[1]]; [None] is the [IndexError]. *)
Definition argument (command : string) : option string :=
  nth_error (Py.split ":" command) 1.

(** [int(command.split(':')[1])]; [None] when either step raises. *)
Definition int_argument (command : string) : option Z :=
  match argument command with
  | Some a => Py.int a
  | None => None
  end.

(** [_process_command(client_socket, client_info, command)].  The
    [except Exception] branch only prints, so an exception leaves the state
    as it was when it was raised.  The exceptions of parsing the argument
    are raised before any assignment or send, which gives the [None]
    branches below; a [send] is the last effect of its branch, and the
    outcome lists the message handed to it whether or not the socket
    accepts it. *)
Definition _process_command (s : t) (client_info : ClientInfo.t)
           (command : string) (now : Q) : Outcome :=
  if String.eqb command "PING" then
    (s, client_info, [Py.encode_utf8 "PONG"])
  else if Py.startswith command "SET_FPS:" then
    match int_argument command with
    | Some fps =>
        let s' := set_capture_fps (Z.max 1 (Z.min 30 fps)) s in
        (s', client_info,
         [Py.encode_utf8 ("FPS_SET:" ++ Py.str (capture_fps s'))%string])
    | None => (s, client_info, [])
    end
  else if Py.startswith command "SET_QUALITY:" then
    match int_argument command with
    | Some q =>
        let s' := set_quality (Z.max 10 (Z.min 100 q)) s in
        (s', client_info,
         [Py.encode_utf8 ("QUALITY_SET:" ++ Py.str (quality s'))%string])
    | None => (s, client_info, [])
    end
  else if Py.startswith command "ENABLE_MOTION:" then
    match argument command with
    | Some a =>
        let enabled := String.eqb (Py.lower a) "true" in
        let c' := ClientInfo.set_motion_enabled enabled client_info in
        (set_clients (ClientInfo.write_through c' (clients s)) s, c', [])
    | None => (s, client_info, [])
    end
  else if Py.startswith command "ENABLE_ALERTS:" then
    match argument command with
    | Some a =>
        let enabled := String.eqb (Py.lower a) "true" in
        let c' := ClientInfo.set_alerts_enabled enabled client_info in
        (set_clients (ClientInfo.write_through c' (clients s)) s, c', [])
    | None => (s, client_info, [])
    end
  else if String.eqb command "MANUAL_ALERT" then
    (set_alerts_sent (alerts_sent s + 1) s, client_info, [])
  else if Py.startswith command "SET_SENSITIVITY:" then
    match int_argument command with
    | Some sensitivity =>
        (set_motion_detector
           (set_sensitivity (Z.max 1 (Z.min 10 sensitivity)) (motion_detector s)) s,
         client_info, [])
    | None => (s, client_info, [])
    end
  else if String.eqb command "GET_STATS" then
    (s, client_info, [Py.encode_utf8 (json_dumps_stats (_get_statistics s now))])
  else (s, client_info, []).

(** [_remove_client(client_info)]. *)
Definition _remove_client (s : t) (client_info : ClientInfo.t) : t :=
  if ClientInfo.mem client_info (clients s)
  then set_clients (ClientInfo.remove client_info (clients s)) s
  else s.

(** ** Threat level *)

(** [_process_motion_event(motion_percentage)]. *)
Definition _process_motion_event (s : t) (motion_percentage : Q) : t :=
  if Py.Qgtb motion_percentage 20 then set_threat_level 3 s
  else if Py.Qgtb motion_percentage 10 then set_threat_level 2 s
  else set_threat_level 1 s.

(** [_get_active_zone()]: the first zone, in the order of
    [self.zones.values()], whose flag is set. *)
Fixpoint first_flagged (zs : list (Z * MonitoringZone.t)) : string :=
  match zs with
  | [] => "Unknown"
  | (_, zone) :: r =>
      if MonitoringZone.motion_detected zone then MonitoringZone.name zone
      else first_flagged r
  end.

Definition _get_active_zone (s : t) : string := first_flagged (zones s).

(** One pass of the body of [_analytics_loop], after the sleep. *)
Definition analytics_step (s : t) : t :=
  let s1 :=
    if negb (MotionDetector.motion_detected (motion_detector s))
       && (threat_level s >? 0)
    then set_threat_level (Z.max 0 (threat_level s - 1)) s
    else s in
  let history := MotionDetector.detection_history (motion_detector s1) in
  let recent_motion := Z.of_nat (List.length (filter (fun x : bool => x) history)) in
  let motion_rate :=
    match history with
    | [] => 0%Q
    | _ => (inject_Z recent_motion / inject_Z (Z.of_nat (List.length history)))%Q
    end in
  if Py.Qgtb motion_rate (1 # 2) then set_threat_level (Z.min 3 (threat_level s1 + 1)) s1
  else s1.

(** ** Broadcast and the capture loop

    The library calls of the loop that are not part of the repository are
    parameters: the JSON encoder, the LANCZOS resize, the JPEG encoder
    and base64. *)
Section Capture.

Variable json_dumps : Packet.t -> string.
Variable resize : PIL.Image -> Z * Z -> PIL.Image.
Variable jpeg_save : PIL.Image -> Z -> list ascii.
Variable b64encode : list ascii -> string.

(** [f"{len(json_data)}|{json_data}".encode('utf-8')]. *)
Definition frame_message (packet : Packet.t) : list ascii :=
  let json_data := json_dumps packet in
  Py.encode_utf8 (Py.str (Py.len json_data) ++ "|" ++ json_data)%string.

(** The loop over the snapshot [self.clients[:]]: what was delivered to
    which socket, and the [disconnected] list. *)
Fixpoint send_all (send : nat -> SendResult) (message : list ascii)
         (snapshot : list ClientInfo.t)
  : list (nat * list ascii) * list ClientInfo.t :=
  match snapshot with
  | [] => ([], [])
  | client_info :: rest =>
      let '(delivered, disconnected) := send_all send message rest in
      if raises (send (ClientInfo.socket client_info))
      then (delivered, client_info :: disconnected)
      else ((ClientInfo.socket client_info, message) :: delivered, disconnected)
  end.

(** [_broadcast_packet(packet)]. *)
Definition _broadcast_packet (s : t) (packet : Packet.t) (send : nat -> SendResult)
  : t * list (nat * list ascii) :=
  let message := frame_message packet in
  let '(delivered, disconnected) := send_all send message (clients s) in
  (fold_left _remove_client disconnected s, delivered).

(** One iteration of [_capture_loop] in which the grab and the encoders
    succeed: the server afterwards, the packet, and the deliveries. *)
Definition capture_tick (s : t) (screenshot : PIL.Image) (now : Q)
           (send : nat -> SendResult)
  : t * Packet.t * list (nat * list ascii) :=
  let img :=
    if PIL.width screenshot >? ServerConfig.MAX_WIDTH then
      let ratio :=
        Py.fdiv (inject_Z ServerConfig.MAX_WIDTH) (inject_Z (PIL.width screenshot)) in
      resize screenshot
             (ServerConfig.MAX_WIDTH,
              Py.trunc (Py.fmul (inject_Z (PIL.height screenshot)) ratio))
    else screenshot in
  let '(s1, motion_detected, motion_percentage) :=
    if motion_enabled s then
      let '(d, (md, mp)) := MotionDetector.detect_motion (motion_detector s) img in
      let s' := set_motion_detector d s in
      if md then
        (_process_motion_event (set_motion_events (motion_events s' + 1) s') mp, md, mp)
      else (s', md, mp)
    else (s, false, 0%Q) in
  let img_bytes := jpeg_save img (quality s1) in
  let img_base64 := b64encode img_bytes in
  let packet :=
    {| Packet.type := "screen_frame";
       Packet.timestamp := now;
       Packet.width := PIL.width img;
       Packet.height := PIL.height img;
       Packet.data := img_base64;
       Packet.motion_detected := motion_detected;
       Packet.motion_percentage := Py.round2 motion_percentage;
       Packet.threat_level := threat_level s1;
       Packet.zone := _get_active_zone s1 |} in
  let '(s2, delivered) := _broadcast_packet s1 packet send in
  let s3 := set_frames_sent (frames_sent s2 + 1) s2 in
  let s4 := set_total_bytes_sent
              (total_bytes_sent s3 + Z.of_nat (List.length img_bytes)) s3 in
  (s4, packet, delivered).

End Capture.

(** ** Connections *)

Definition set_running (v : bool) (s : t) : t :=
  mk (clients s) v (capture_fps s) (quality s) (screen_monitor s)
     (motion_detector s) (motion_enabled s) (alerts_enabled s) (zones s)
     (threat_level s) (frames_sent s) (total_bytes_sent s) (motion_events s)
     (alerts_sent s) (start_time s).

(** One pass of [_accept_clients_loop] in which [accept] returns the
    socket [sock] for the peer [address] at time [now]: the new client
    dictionary is appended to the registry and handed to its handler. *)
Definition accept_client (s : t) (sock : nat) (address : string * Z) (now : Q)
  : t * ClientInfo.t :=
  let client_info :=
    {| ClientInfo.socket := sock;
       ClientInfo.address := address;
       ClientInfo.connected_at := now;
       ClientInfo.motion_enabled := true;
       ClientInfo.alerts_enabled := true |} in
  (set_clients (clients s ++ [client_info]) s, client_info).

(** What one [client_socket.recv(1024)] of a handler does: it returns
    bytes at some time (no bytes when the peer has closed), it times out,
    or it raises another error. *)
Inductive Recv : Type :=
| Data (data : list ascii) (now : Q)
| Timeout
| Failure.

(** The [while self.running] loop of [_handle_client] over the outcomes of
    its successive [recv] calls.  The loop is left when the peer has
    closed, when [recv] or the decoding raises, and at the end of the
    given outcomes (the server was stopped). *)
Fixpoint handle_loop (s : t) (client_info : ClientInfo.t) (inputs : list Recv)
  : Outcome :=
  if negb (running s) then (s, client_info, [])
  else
    match inputs with
    | [] => (s, client_info, [])
    | Timeout :: rest => handle_loop s client_info rest
    | Failure :: _ => (s, client_info, [])
    | Data [] _ :: _ => (s, client_info, [])
    | Data data now :: rest =>
        match Py.decode_utf8 data with
        | None => (s, client_info, [])
        | Some text =>
            let '(s1, c1, sent1) := _process_command s client_info (Py.strip text) now in
            let '(s2, c2, sent2) := handle_loop s1 c1 rest in
            (s2, c2, sent1 ++ sent2)
        end
    end.

(** [_handle_client(client_info)]: the loop, then the [finally] clause. *)
Definition _handle_client (s : t) (client_info : ClientInfo.t) (inputs : list Recv)
  : t * list (list ascii) :=
  let '(s1, c1, sent) := handle_loop s client_info inputs in
  (_remove_client s1 c1, sent).

(** ** The registry lock

    [clients_lock] is a [threading.Lock]: a thread that acquires it while
    it is held, were it by that thread itself, waits until it is released.
    The server releases the lock only at the end of the [with] block that
    acquired it, so an acquisition nested in such a block never returns. *)
Inductive Run (A : Type) : Type :=
| Returns (a : A)
| Blocks.

Arguments Returns {A} a.
Arguments Blocks {A}.

(** [with self.clients_lock: body], entered while the lock is in the state
    [held]; the body runs with the lock held. *)
Definition with_lock {A : Type} (held : bool) (body : bool -> Run A) : Run A :=
  if held then Blocks else body true.

(** [_remove_client(client_info)], entered while the lock is in the state
    [held]. *)
Definition _remove_client_locking (held : bool) (s : t) (client_info : ClientInfo.t)
  : Run t :=
  with_lock held (fun _ => Returns (_remove_client s client_info)).

(** A [for client_info in ...: self._remove_client(client_info)] loop. *)
Fixpoint remove_each (held : bool) (s : t) (l : list ClientInfo.t) : Run t :=
  match l with
  | [] => Returns s
  | client_info :: rest =>
      match _remove_client_locking held s client_info with
      | Returns s' => remove_each held s' rest
      | Blocks => Blocks
      end
  end.

(** [stop()], entered with the lock free: the removals happen inside the
    [with] block. *)
Definition stop (s : t) : Run t :=
  let s1 := set_running false s in
  with_lock false (fun held => remove_each held s1 (clients s1)).

Section Locking.

Variable json_dumps : Packet.t -> string.

(** [_broadcast_packet(packet)], entered with the lock free: the sends
    happen inside the [with] block, the removals after it. *)
Definition _broadcast_packet_locking (s : t) (packet : Packet.t)
           (send : nat -> SendResult) : Run (t * list (nat * list ascii)) :=
  let message := frame_message json_dumps packet in
  match with_lock false (fun _ => Returns (send_all send message (clients s))) with
  | Returns (delivered, disconnected) =>
      match remove_each false s disconnected with
      | Returns s' => Returns (s', delivered)
      | Blocks => Blocks
      end
  | Blocks => Blocks
  end.

End Locking.

End SecurityRadarServer.

(* ================================================================== *)
(** * server1.py: the command dispatcher over all code points *)
(* ================================================================== *)

(** [data.decode('utf-8')] can yield any code point, so the command that
    reaches [_process_command] is an arbitrary Python [str].  Here a [str]
    is the list of its code points, and the dispatcher is written once
    more over such strings.  What the interpreter looks up in its Unicode
    database, which changes from one release to the next, is a parameter:
    the decimal digits, the white space, [str.lower], and the limit on the
    number of digits that [int] accepts.  On the strings below 256 and
    with the tables of the database this dispatcher is the one above
    (lemma [process_command_of_string]). *)
Module Unicode.

Definition str : Type := list N.

(** A string of code points below 256, as a [str]. *)
Definition of_string (s : string) : str := map N_of_ascii (list_ascii_of_string s).

(** [a == b]. *)
Fixpoint eqb (a b : str) : bool :=
  match a, b with
  | [], [] => true
  | c :: a', d :: b' => (c =? d)%N && eqb a' b'
  | _, _ => false
  end.

(** [s.startswith(p)]. *)
Fixpoint startswith (s p : str) : bool :=
  match p, s with
  | [], _ => true
  | c :: p', d :: s' => (c =? d)%N && startswith s' p'
  | _ :: _, [] => false
  end.

(** [s.split(sep)] for a one-character separator. *)
Fixpoint split_aux (sep : N) (cur : str) (s : str) : list str :=
  match s with
  | [] => [cur]
  | c :: r =>
      if (c =? sep)%N then cur :: split_aux sep [] r
      else split_aux sep (cur ++ [c]) r
  end.

Definition split (sep : N) (s : str) : list str := split_aux sep [] s.

(** [s.isascii()]. *)
Definition isascii (s : str) : bool := forallb (fun c => (c <? 128)%N) s.

Section Database.

(** [Py_UNICODE_TODECIMAL]: the value of a decimal digit, [None] for any
    other code point. *)
Variable todecimal : N -> option N.
(** [Py_UNICODE_ISSPACE]. *)
Variable isspace : N -> bool.
(** [str.lower]. *)
Variable lower : str -> str.
(** [sys.get_int_max_str_digits()]: 4300 unless configured, 0 for no
    limit, which is also what the interpreters before the limit do. *)
Variable max_str_digits : nat.

(** The rewriting of [int] into ASCII, one code point. *)
Definition int_char (c : N) : ascii :=
  if (c <? 127)%N then ascii_of_N c
  else if isspace c then " "%char
  else match todecimal c with
       | Some d => ascii_of_N (48 + d)
       | None => "?"%char
       end.

(** The rewriting stops after the first question mark; the parser rejects
    the text with or without what would follow, so the text is rewritten
    to its end here. *)
Definition int_text (s : str) : string :=
  string_of_list_ascii (if isascii s then map ascii_of_N s else map int_char s).

Definition count_digits (text : string) : nat :=
  List.length (filter Py.is_digit (list_ascii_of_string text)).

(** [int(s)]: more digits than the limit allows is a [ValueError] too. *)
Definition int (s : str) : option Z :=
  let text := int_text s in
  if ((0 <? max_str_digits) && (max_str_digits <? count_digits text))%nat then None
  else Py.int_parse text.

(** [command.split(':')[1]] and [int(command.split(':')[1])]. *)
Definition argument (command : str) : option str :=
  nth_error (split 58 command) 1.

Definition int_argument (command : str) : option Z :=
  match argument command with
  | Some a => int a
  | None => None
  end.

(** [_process_command(client_socket, client_info, command)]. *)
Definition _process_command (s : SecurityRadarServer.t) (client_info : ClientInfo.t)
           (command : str) (now : Q) : SecurityRadarServer.Outcome :=
  if eqb command (of_string "PING") then
    (s, client_info, [Py.encode_utf8 "PONG"])
  else if startswith command (of_string "SET_FPS:") then
    match int_argument command with
    | Some fps =>
        let s' := SecurityRadarServer.set_capture_fps (Z.max 1 (Z.min 30 fps)) s in
        (s', client_info,
         [Py.encode_utf8
            ("FPS_SET:" ++ Py.str (SecurityRadarServer.capture_fps s'))%string])
    | None => (s, client_info, [])
    end
  else if startswith command (of_string "SET_QUALITY:") then
    match int_argument command with
    | Some q =>
        let s' := SecurityRadarServer.set_quality (Z.max 10 (Z.min 100 q)) s in
        (s', client_info,
         [Py.encode_utf8
            ("QUALITY_SET:" ++ Py.str (SecurityRadarServer.quality s'))%string])
    | None => (s, client_info, [])
    end
  else if startswith command (of_string "ENABLE_MOTION:") then
    match argument command with
    | Some a =>
        let enabled := eqb (lower a) (of_string "true") in
        let c' := ClientInfo.set_motion_enabled enabled client_info in
        (SecurityRadarServer.set_clients
           (ClientInfo.write_through c' (SecurityRadarServer.clients s)) s, c', [])
    | None => (s, client_info, [])
    end
  else if startswith command (of_string "ENABLE_ALERTS:") then
    match argument command with
    | Some a =>
        let enabled := eqb (lower a) (of_string "true") in
        let c' := ClientInfo.set_alerts_enabled enabled client_info in
        (SecurityRadarServer.set_clients
           (ClientInfo.write_through c' (SecurityRadarServer.clients s)) s, c', [])
    | None => (s, client_info, [])
    end
  else if eqb command (of_string "MANUAL_ALERT") then
    (SecurityRadarServer.set_alerts_sent (SecurityRadarServer.alerts_sent s + 1) s,
     client_info, [])
  else if startswith command (of_string "SET_SENSITIVITY:") then
    match int_argument command with
    | Some sensitivity =>
        (SecurityRadarServer.set_motion_detector
           (SecurityRadarServer.set_sensitivity
              (Z.max 1 (Z.min 10 sensitivity))
              (SecurityRadarServer.motion_detector s)) s,
         client_info, [])
    | None => (s, client_info, [])
    end
  else if eqb command (of_string "GET_STATS") then
    (s, client_info,
     [Py.encode_utf8
        (SecurityRadarServer.json_dumps_stats
           (SecurityRadarServer._get_statistics s now))])
  else (s, client_info, []).

End Database.

End Unicode.

(* ================================================================== *)
(** * server1.py: class ServerCLI *)
(* ================================================================== *)

Module ServerCLI.

Import SecurityRadarServer.

(** [handle_command(cmd)]: the server afterwards and the returned flag.
    [line] is what [input()] returns in the branches that prompt; the
    branches that only print leave the server as it is. *)
Definition handle_command (s : t) (cmd : string) (line : string) : t * bool :=
  let cmd := Py.lower (Py.strip cmd) in
  if String.eqb cmd "quit" then (s, false)
  else if String.eqb cmd "status" then (s, true)
  else if String.eqb cmd "zones" then (s, true)
  else if String.eqb cmd "motion" then
    (set_motion_enabled (negb (motion_enabled s)) s, true)
  else if String.eqb cmd "sensitivity" then
    match Py.int line with
    | Some sens =>
        (set_motion_detector
           (set_sensitivity (Z.max 1 (Z.min 10 sens)) (motion_detector s)) s, true)
    | None => (s, true)
    end
  else if String.eqb cmd "fps" then
    match Py.int line with
    | Some fps => (set_capture_fps (Z.max 1 (Z.min 30 fps)) s, true)
    | None => (s, true)
    end
  else if String.eqb cmd "quality" then
    match Py.int line with
    | Some q => (set_quality (Z.max 10 (Z.min 100 q)) s, true)
    | None => (s, true)
    end
  else if String.eqb cmd "monitor" then
    match Py.int line with
    | Some monitor => (set_screen_monitor monitor s, true)
    | None => (s, true)
    end
  else if String.eqb cmd "clients" then (s, true)
  else if String.eqb cmd "alerts" then (s, true)
  else if String.eqb cmd "reset" then
    (set_motion_events 0
       (set_threat_level 0
          (set_motion_detector (MotionDetector.reset (motion_detector s)) s)), true)
  else if String.eqb cmd "help" then (s, true)
  else (s, true).

End ServerCLI.

(* ================================================================== *)
(** * server.py: the plain ScreenCaptureServer *)
(* ================================================================== *)

Module ScreenCaptureServer.

(** [ServerConfig] of [server.py]. *)
Module Config.
Definition MAX_CLIENTS : Z := 10.
Definition DEFAULT_FPS : Z := 60.
Definition DEFAULT_QUALITY : Z := 60.
Definition DEFAULT_MONITOR : Z := 1.
Definition MAX_WIDTH : Z := 1280.
End Config.

(** A client record here has a socket, an address and a connection time. *)
Record t : Type := mk {
  clients : list (nat * (string * Z) * Q);
  running : bool;
  capture_fps : Z;
  quality : Z;
  screen_monitor : Z;
  frames_sent : Z;
  total_bytes_sent : Z
}.

(** [__init__]. *)
Definition init : t :=
  {| clients := [];
     running := false;
     capture_fps := Config.DEFAULT_FPS;
     quality := Config.DEFAULT_QUALITY;
     screen_monitor := Config.DEFAULT_MONITOR;
     frames_sent := 0;
     total_bytes_sent := 0 |}.

Definition set_capture_fps (v : Z) (s : t) : t :=
  mk (clients s) (running s) v (quality s) (screen_monitor s)
     (frames_sent s) (total_bytes_sent s).

Definition set_quality (v : Z) (s : t) : t :=
  mk (clients s) (running s) (capture_fps s) v (screen_monitor s)
     (frames_sent s) (total_bytes_sent s).

Definition set_screen_monitor (v : Z) (s : t) : t :=
  mk (clients s) (running s) (capture_fps s) (quality s) v
     (frames_sent s) (total_bytes_sent s).

(** [_process_command(client_socket, command)]: the server afterwards and
    the messages handed to [client_socket.send]. *)
Definition _process_command (s : t) (command : string) : t * list (list ascii) :=
  if String.eqb command "PING" then (s, [Py.encode_utf8 "PONG"])
  else if Py.startswith command "SET_FPS:" then
    match SecurityRadarServer.int_argument command with
    | Some fps =>
        let s' := set_capture_fps (Z.max 1 (Z.min 30 fps)) s in
        (s', [Py.encode_utf8 ("FPS_SET:" ++ Py.str (capture_fps s'))%string])
    | None => (s, [])
    end
  else if Py.startswith command "SET_QUALITY:" then
    match SecurityRadarServer.int_argument command with
    | Some q =>
        let s' := set_quality (Z.max 10 (Z.min 100 q)) s in
        (s', [Py.encode_utf8 ("QUALITY_SET:" ++ Py.str (quality s'))%string])
    | None => (s, [])
    end
  else (s, []).

(** [ServerCLI.handle_command(cmd)] of [server.py]. *)
Definition handle_command (s : t) (cmd : string) (line : string) : t * bool :=
  let cmd := Py.lower (Py.strip cmd) in
  if String.eqb cmd "quit" then (s, false)
  else if String.eqb cmd "status" then (s, true)
  else if String.eqb cmd "fps" then
    match Py.int line with
    | Some fps => (set_capture_fps (Z.max 1 (Z.min 30 fps)) s, true)
    | None => (s, true)
    end
  else if String.eqb cmd "quality" then
    match Py.int line with
    | Some q => (set_quality (Z.max 10 (Z.min 100 q)) s, true)
    | None => (s, true)
    end
  else if String.eqb cmd "monitor" then
    match Py.int line with
    | Some monitor => (set_screen_monitor monitor s, true)
    | None => (s, true)
    end
  else if String.eqb cmd "clients" then (s, true)
  else if String.eqb cmd "help" then (s, true)
  else (s, true).

(** What changes the configuration of this server: a command of a client
    or a command of the operator with the line typed at its prompt. *)
Inductive Event : Type :=
| Command (command : string)
| Operator (cmd line : string).

Definition step (s : t) (e : Event) : t :=
  match e with
  | Command command => fst (_process_command s command)
  | Operator cmd line => fst (handle_command s cmd line)
  end.

Definition run (s : t) (events : list Event) : t := fold_left step events s.

End ScreenCaptureServer.

(* ================================================================== *)
(** * server1.py: the operations of the server as a sequence of events *)
(* ================================================================== *)

Module Runs.

Import SecurityRadarServer.

(** The operations that act on the server object, each taken as a whole:
    a capture tick, a pass of the analytics loop, an accepted connection,
    a command of a client, the end of a handler, a command of the
    operator. *)
Inductive Event : Type :=
| Tick (screenshot : PIL.Image) (now : Q) (send : nat -> SendResult)
| Analytics
| Accept (sock : nat) (address : string * Z) (now : Q)
| Command (client_info : ClientInfo.t) (command : string) (now : Q)
| HandlerEnd (client_info : ClientInfo.t)
| Operator (cmd line : string).

Section Events.

Variable json_dumps : Packet.t -> string.
Variable resize : PIL.Image -> Z * Z -> PIL.Image.
Variable jpeg_save : PIL.Image -> Z -> list ascii.
Variable b64encode : list ascii -> string.

Definition step (s : t) (e : Event) : t :=
  match e with
  | Tick screenshot now send =>
      fst (fst (capture_tick json_dumps resize jpeg_save b64encode s screenshot now send))
  | Analytics => analytics_step s
  | Accept sock address now => fst (accept_client s sock address now)
  | Command client_info command now =>
      fst (fst (_process_command s client_info command now))
  | HandlerEnd client_info => _remove_client s client_info
  | Operator cmd line => fst (ServerCLI.handle_command s cmd line)
  end.

Definition run (s : t) (events : list Event) : t := fold_left step events s.

(** The packets broadcast during a run, oldest first. *)
Fixpoint packets (s : t) (events : list Event) : list Packet.t :=
  match events with
  | [] => []
  | e :: rest =>
      match e with
      | Tick screenshot now send =>
          [snd (fst (capture_tick json_dumps resize jpeg_save b64encode
                                  s screenshot now send))]
      | _ => []
      end ++ packets (step s e) rest
  end.

End Events.

End Runs.

(* ================================================================== *)
(** * main.py / main1.py: the receive loop of a viewer *)
(* ================================================================== *)

Module Viewer.

(** [buffer.find(sep)] for a one-byte separator; [None] is the result -1,
    which is also when [sep in buffer] is false. *)
Fixpoint find (sep : ascii) (buffer : list ascii) : option nat :=
  match buffer with
  | [] => None
  | c :: r => if Ascii.eqb c sep then Some O else option_map S (find sep r)
  end.

(** A slice bound of Python: negative bounds count from the end, and
    bounds are clipped to the sequence. *)
Definition bound (len i : Z) : Z :=
  if i <? 0 then Z.max 0 (i + len) else Z.min i len.

(** [buffer[lo:hi]]. *)
Definition slice (buffer : list ascii) (lo hi : Z) : list ascii :=
  let n := Z.of_nat (List.length buffer) in
  let lo' := bound n lo in
  let hi' := bound n hi in
  firstn (Z.to_nat (hi' - lo')) (skipn (Z.to_nat lo') buffer).

(** [buffer[lo:]]. *)
Definition slice_from (buffer : list ascii) (lo : Z) : list ascii :=
  skipn (Z.to_nat (bound (Z.of_nat (List.length buffer)) lo)) buffer.

(** How the inner [while b'|' in buffer] loop of [receive_data] ends:
    it waits for more data, an exception leaves the receive loop, or the
    given number of iterations did not suffice. *)
Inductive Status : Type := Waiting | Raised | Unfinished.

(** The inner loop: the messages scheduled for [process_frame], the
    buffer that remains, and how the loop ended. *)
Fixpoint process_buffer (fuel : nat) (buffer : list ascii)
  : list string * list ascii * Status :=
  match fuel with
  | O => ([], buffer, Unfinished)
  | S fuel' =>
      match find "|" buffer with
      | None => ([], buffer, Waiting)
      | Some separator_index =>
          let size_str := firstn separator_index buffer in
          let parsed := match Py.decode_utf8 size_str with
                        | Some text => Py.int text
                        | None => None
                        end in
          match parsed with
          | None => process_buffer fuel' (skipn (S separator_index) buffer)
          | Some size =>
              let message_start := Z.of_nat separator_index + 1 in
              let message_end := message_start + size in
              if Z.of_nat (List.length buffer) >=? message_end then
                match Py.decode_utf8 (slice buffer message_start message_end) with
                | None => ([], buffer, Raised)
                | Some message =>
                    let '(messages, rest, status) :=
                      process_buffer fuel' (slice_from buffer message_end) in
                    (message :: messages, rest, status)
                end
              else ([], buffer, Waiting)
          end
      end
  end.

(** [process_frame(message)] up to its first statement,
    [packet = json.loads(message)], for a JSON decoder [json_loads]. *)
Definition process_frame {P : Type} (json_loads : string -> option P)
           (message : string) : option P :=
  json_loads message.

(** The bytes of one frame, as the server builds them for the text of a
    JSON document. *)
Definition frame (text : string) : list ascii :=
  Py.encode_utf8 (Py.str (Py.len text) ++ "|" ++ text)%string.

(** The part of the state of the viewer of [main1.py] that its commands
    depend on. *)
Record t : Type := mk {
  connected : bool;
  is_blocked : bool;
  motion_enabled : bool;
  alerts_enabled : bool
}.

(** [send_command(command)]: the bytes handed to the socket, if any. *)
Definition send_command (v : t) (command : string) : list (list ascii) :=
  if connected v then [Py.encode_utf8 command] else [].

(** [toggle_motion_detection()]: the viewer afterwards and what it sent. *)
Definition toggle_motion_detection (v : t) : t * list (list ascii) :=
  if is_blocked v then (v, [])
  else
    let v' := mk (connected v) (is_blocked v) (negb (motion_enabled v))
                 (alerts_enabled v) in
    (v', send_command v' ("ENABLE_MOTION:" ++ Py.str_bool (motion_enabled v'))%string).

(** [toggle_alerts()]. *)
Definition toggle_alerts (v : t) : t * list (list ascii) :=
  if is_blocked v then (v, [])
  else
    let v' := mk (connected v) (is_blocked v) (motion_enabled v)
                 (negb (alerts_enabled v)) in
    (v', send_command v' ("ENABLE_ALERTS:" ++ Py.str_bool (alerts_enabled v'))%string).

(** The two commands [connect_to_server] sends once the connection is
    made, in order. *)
Definition connect_commands (v : t) : list (list ascii) :=
  if is_blocked v then []
  else
    let v' := mk true (is_blocked v) (motion_enabled v) (alerts_enabled v) in
    send_command v' ("ENABLE_MOTION:" ++ Py.str_bool (motion_enabled v'))%string
    ++ send_command v' ("ENABLE_ALERTS:" ++ Py.str_bool (alerts_enabled v'))%string.

End Viewer.

(* ================================================================== *)
(** * Properties named by the specification *)
(* ================================================================== *)

Module Spec.

(** The effective threshold of the specification:
    [BASE_THRESHOLD * (11 - sensitivity) / 10]. *)
Definition effective_threshold (sensitivity : Z) : Q :=
  (ServerConfig.MOTION_THRESHOLD * inject_Z (11 - sensitivity) / 10)%Q.

(** The zone update the specification describes for a tick: every
    enabled zone evaluates the percentage of the tick. *)
Definition update_zones (percentage : Q) (zs : list (Z * MonitoringZone.t))
  : list (Z * MonitoringZone.t) :=
  map (fun kz : Z * MonitoringZone.t =>
         if MonitoringZone.enabled (snd kz)
         then (fst kz, fst (MonitoringZone.check_motion (snd kz) percentage))
         else kz)
      zs.

(** The fraction of [true] entries of a history, 0 for an empty one. *)
Definition motion_rate (history : list bool) : Q :=
  match history with
  | [] => 0%Q
  | _ => (inject_Z (Z.of_nat (List.length (filter (fun x : bool => x) history)))
          / inject_Z (Z.of_nat (List.length history)))%Q
  end.

(** Rule (a) of the analyzer, then rule (b). *)
Definition decay (motion_flag : bool) (level : Z) : Z :=
  if negb motion_flag && (0 <? level) then level - 1 else level.

Definition escalate (history : list bool) (level : Z) : Z :=
  if Qlt_le_dec (1 # 2) (motion_rate history) then Z.min 3 (level + 1) else level.

(** The invariant the specification states for the capture rate. *)
Definition fps_in_range (fps : Z) : Prop := 1 <= fps <= 30.

(** A text made of decimal digits only. *)
Fixpoint all_digits (s : string) : bool :=
  match s with
  | EmptyString => true
  | String c r => Py.is_digit c && all_digits r
  end.

(** [s.isascii()]. *)
Fixpoint isascii (s : string) : bool :=
  match s with
  | EmptyString => true
  | String c r => (N_of_ascii c <? 128)%N && isascii r
  end.

(** A command none of the branches of the dispatcher accepts. *)
Definition unknown_verb (command : string) : Prop :=
  command <> "PING"%string /\ command <> "MANUAL_ALERT"%string
  /\ command <> "GET_STATS"%string
  /\ Py.startswith command "SET_FPS:" = false
  /\ Py.startswith command "SET_QUALITY:" = false
  /\ Py.startswith command "ENABLE_MOTION:" = false
  /\ Py.startswith command "ENABLE_ALERTS:" = false
  /\ Py.startswith command "SET_SENSITIVITY:" = false.

(** A command with a verb that takes an integer, whose argument is not
    one. *)
Definition malformed_integer (command : string) : Prop :=
  (Py.startswith command "SET_FPS:" = true
   \/ Py.startswith command "SET_QUALITY:" = true
   \/ Py.startswith command "SET_SENSITIVITY:" = true)
  /\ SecurityRadarServer.int_argument command = None.

(** An RGB image whose channels are bytes, and a single-band image whose
    pixels are bytes. *)
Definition byte_range (v : Z) : Prop := 0 <= v <= 255.

Definition rgb_bytes (img : PIL.Image) : Prop :=
  Forall (Forall (fun p : Z * Z * Z =>
                    byte_range (fst (fst p)) /\ byte_range (snd (fst p))
                    /\ byte_range (snd p))) img.

Definition gray_bytes (g : PIL.Gray) : Prop := Forall (Forall byte_range) g.

(** A detector whose stored frame and stored percentage come from images
    of bytes. *)
Definition detector_of_bytes (d : MotionDetector.t) : Prop :=
  (forall previous, MotionDetector.previous_frame d = Some previous ->
                    gray_bytes previous)
  /\ (0 <= MotionDetector.motion_percentage d <= 100)%Q.

(** The text up to the first colon, or all of it. *)
Fixpoint until_colon (t : string) : string :=
  match t with
  | EmptyString => EmptyString
  | String c r => if Ascii.eqb c ":" then EmptyString else String c (until_colon r)
  end.

(** The verbs of the dispatcher that read an argument. *)
Definition argument_verbs : list string :=
  [ "SET_FPS:"; "SET_QUALITY:"; "ENABLE_MOTION:"; "ENABLE_ALERTS:";
    "SET_SENSITIVITY:" ]%string.

(** The registry holds the dictionary [c] of a handler under its socket:
    an entry with the socket of [c] is [c] itself. *)
Definition registered_as (c : ClientInfo.t) (l : list ClientInfo.t) : Prop :=
  forall d : ClientInfo.t,
    In d l -> ClientInfo.socket d = ClientInfo.socket c -> d = c.

(** No two entries of the registry share a socket. *)
Definition distinct_sockets (l : list ClientInfo.t) : Prop :=
  NoDup (map ClientInfo.socket l).

(** The ranges of the settings and of the analysis state of the server
    of [server1.py]. *)
Definition in_ranges (s : SecurityRadarServer.t) : Prop :=
  fps_in_range (SecurityRadarServer.capture_fps s)
  /\ 10 <= SecurityRadarServer.quality s <= 100
  /\ 1 <= MotionDetector.sensitivity (SecurityRadarServer.motion_detector s) <= 10
  /\ 0 <= SecurityRadarServer.threat_level s <= 3
  /\ (List.length (MotionDetector.detection_history
                     (SecurityRadarServer.motion_detector s)) <= 30)%nat.

(** The number of capture ticks among the events of a run. *)
Fixpoint count_ticks (events : list Runs.Event) : Z :=
  match events with
  | [] => 0
  | Runs.Tick _ _ _ :: rest => 1 + count_ticks rest
  | _ :: rest => count_ticks rest
  end.

(** The operator commands that write to the server. *)
Definition writing_commands : list string :=
  [ "motion"; "sensitivity"; "fps"; "quality"; "monitor"; "reset" ]%string.

End Spec.

(* ================================================================== *)
(** * Concrete data: frames, clients and a JSON codec for packets *)
(* ================================================================== *)

Module Demo.

(** Two one-pixel screenshots. *)
Definition black : PIL.Image := [[(0, 0, 0)]].
Definition white : PIL.Image := [[(255, 255, 255)]].

(** Stand-ins for the encoders of the capture loop. *)
Definition resize (img : PIL.Image) (size : Z * Z) : PIL.Image := img.
Definition jpeg_save (img : PIL.Image) (quality : Z) : list ascii :=
  Py.encode_utf8 "JPEG".
Definition b64encode (b : list ascii) : string := "SlBFRw==".

(** ** A JSON encoder for packets, with non-ASCII characters escaped *)

Definition hex_digit (n : N) : ascii :=
  ascii_of_N (if (n <? 10)%N then 48 + n else 87 + n).

Definition escape_char (c : ascii) : string :=
  let n := N_of_ascii c in
  if (n =? 34)%N then String "\" dq
  else if (n =? 92)%N then "\\"
  else if ((n <? 32) || (126 <? n))%N then
    ("\u00" ++ String (hex_digit (n / 16)) (String (hex_digit (n mod 16)) ""))%string
  else String c "".

Fixpoint escape (s : string) : string :=
  match s with
  | EmptyString => EmptyString
  | String c r => (escape_char c ++ escape r)%string
  end.

Definition json_string (s : string) : string := (dq ++ escape s ++ dq)%string.

(** Drops the zeros at the end of a digit string, keeping one digit. *)
Fixpoint trim_zeros (s : string) : string :=
  match s with
  | EmptyString => EmptyString
  | String c r =>
      match trim_zeros r with
      | EmptyString => String c EmptyString
      | String "0" EmptyString => String c EmptyString
      | r' => String c r'
      end
  end.

(** A float with at most six decimals, such as [12.5] or [100.0]. *)
Definition json_float (q : Q) : string :=
  let a := Z.abs (Qnum q) * 1000000 / Z.pos (Qden q) in
  let frac := match Py.str (1000000 + a mod 1000000) with
              | String _ digits => digits
              | EmptyString => "0"%string
              end in
  let sign := if Qnum q <? 0 then "-"%string else EmptyString in
  let whole := Py.str (a / 1000000) in
  (sign ++ whole ++ "." ++ trim_zeros frac)%string.

Definition json_dumps (p : Packet.t) : string :=
  ("{" ++ String.concat ", "
     [ SecurityRadarServer.json_member "type" (json_string (Packet.type p));
       SecurityRadarServer.json_member "timestamp" (json_float (Packet.timestamp p));
       SecurityRadarServer.json_member "width" (Py.str (Packet.width p));
       SecurityRadarServer.json_member "height" (Py.str (Packet.height p));
       SecurityRadarServer.json_member "data" (json_string (Packet.data p));
       SecurityRadarServer.json_member "motion_detected"
         (SecurityRadarServer.json_bool (Packet.motion_detected p));
       SecurityRadarServer.json_member "motion_percentage"
         (json_float (Packet.motion_percentage p));
       SecurityRadarServer.json_member "threat_level" (Py.str (Packet.threat_level p));
       SecurityRadarServer.json_member "zone" (json_string (Packet.zone p)) ]
   ++ "}")%string.

(** ** The matching decoder *)

Inductive JValue : Type :=
| JStr (s : string)
| JBool (b : bool)
| JNum (text : string).

Definition hex_value (c : ascii) : option N :=
  let n := N_of_ascii c in
  if ((48 <=? n) && (n <=? 57))%N then Some (n - 48)%N
  else if ((97 <=? n) && (n <=? 102))%N then Some (n - 87)%N
  else if ((65 <=? n) && (n <=? 70))%N then Some (n - 55)%N
  else None.

(** The text of a string up to its closing quote, and what follows. *)
Fixpoint read_string (s : string) : option (string * string) :=
  match s with
  | EmptyString => None
  | String "\" (String "u" (String "0" (String "0" (String a (String b r))))) =>
      match hex_value a, hex_value b, read_string r with
      | Some h, Some l, Some (text, rest) =>
          Some (String (ascii_of_N (16 * h + l)) text, rest)
      | _, _, _ => None
      end
  | String "\" (String c r) =>
      match read_string r with
      | Some (text, rest) => Some (String c text, rest)
      | None => None
      end
  | String c r =>
      if (N_of_ascii c =? 34)%N then Some (EmptyString, r)
      else match read_string r with
           | Some (text, rest) => Some (String c text, rest)
           | None => None
           end
  end.

(** The text of a number or literal up to the next comma or brace. *)
Fixpoint read_scalar (s : string) : string * string :=
  match s with
  | EmptyString => (EmptyString, EmptyString)
  | String c r =>
      if (Ascii.eqb c "," || Ascii.eqb c "}")%bool then (EmptyString, s)
      else let '(text, rest) := read_scalar r in (String c text, rest)
  end.

Definition read_value (s : string) : option (JValue * string) :=
  match s with
  | String c r =>
      if (N_of_ascii c =? 34)%N then
        match read_string r with
        | Some (text, rest) => Some (JStr text, rest)
        | None => None
        end
      else
        let '(text, rest) := read_scalar s in
        if String.eqb text "true" then Some (JBool true, rest)
        else if String.eqb text "false" then Some (JBool false, rest)
        else Some (JNum text, rest)
  | EmptyString => None
  end.

(** The members of an object after its opening brace. *)
Fixpoint read_members (fuel : nat) (s : string) : option (list (string * JValue)) :=
  match fuel with
  | O => None
  | S fuel' =>
      match Py.lstrip s with
      | String c r =>
          if negb (N_of_ascii c =? 34)%N then None
          else
            match read_string r with
            | Some (key, String ":" rest) =>
                match read_value (Py.lstrip rest) with
                | Some (v, String "," rest') =>
                    option_map (cons (key, v)) (read_members fuel' rest')
                | Some (v, String "}" EmptyString) => Some [(key, v)]
                | _ => None
                end
            | _ => None
            end
      | EmptyString => None
      end
  end.

Definition parse_object (s : string) : option (list (string * JValue)) :=
  match s with
  | String "{" r => read_members (String.length s) r
  | _ => None
  end.

Fixpoint lookup (key : string) (members : list (string * JValue)) : option JValue :=
  match members with
  | [] => None
  | (k, v) :: r => if String.eqb k key then Some v else lookup key r
  end.

(** A decimal number with a fraction, as a reduced rational. *)
Definition parse_float (text : string) : option Q :=
  let '(negative, body) :=
    match text with
    | String "-" r => (true, r)
    | _ => (false, text)
    end in
  match Py.split "." body with
  | [ip; fp] =>
      match Py.int_unsigned ip, Py.int_unsigned fp with
      | Some i, Some f =>
          let scale := 10 ^ Z.of_nat (String.length fp) in
          let n := i * scale + f in
          Some (Qred ((if negative then - n else n) # Z.to_pos scale))
      | _, _ => None
      end
  | _ => None
  end.

Definition get_str (key : string) (m : list (string * JValue)) : option string :=
  match lookup key m with Some (JStr s) => Some s | _ => None end.

Definition get_bool (key : string) (m : list (string * JValue)) : option bool :=
  match lookup key m with Some (JBool b) => Some b | _ => None end.

Definition get_int (key : string) (m : list (string * JValue)) : option Z :=
  match lookup key m with Some (JNum t) => Py.int t | _ => None end.

Definition get_float (key : string) (m : list (string * JValue)) : option Q :=
  match lookup key m with Some (JNum t) => parse_float t | _ => None end.

Definition json_loads (s : string) : option Packet.t :=
  match parse_object s with
  | Some m =>
      match get_str "type" m, get_float "timestamp" m, get_int "width" m,
            get_int "height" m, get_str "data" m, get_bool "motion_detected" m,
            get_float "motion_percentage" m, get_int "threat_level" m,
            get_str "zone" m with
      | Some ty, Some ts, Some w, Some h, Some d, Some md, Some mp, Some tl, Some z =>
          Some (Packet.mk ty ts w h d md mp tl z)
      | _, _, _, _, _, _, _, _, _ => None
      end
  | None => None
  end.

(** ** Concrete packets, clients and servers *)

Definition packet : Packet.t :=
  {| Packet.type := "screen_frame";
     Packet.timestamp := 3400000001 # 2;
     Packet.width := 1280;
     Packet.height := 720;
     Packet.data := "SlBFRw==";
     Packet.motion_detected := true;
     Packet.motion_percentage := 49 # 4;
     Packet.threat_level := 2;
     Packet.zone := "Entry | Point" |}.

Definition healthy : ClientInfo.t :=
  ClientInfo.mk 7 ("10.0.0.7"%string, 40001) 100 true true.

Definition broken : ClientInfo.t :=
  ClientInfo.mk 9 ("10.0.0.9"%string, 40002) 101 true false.

(** The socket of [broken] raises on every send. *)
Definition send (sock : nat) : SendResult :=
  if Nat.eqb sock 9 then BrokenPipeError else Sent.

Definition two_clients : SecurityRadarServer.t :=
  SecurityRadarServer.set_clients [broken; healthy] SecurityRadarServer.init.

(** The server of [server1.py] after a first tick on a black screen. *)
Definition warmed_up : SecurityRadarServer.t :=
  fst (fst (SecurityRadarServer.capture_tick
              json_dumps resize jpeg_save b64encode
              SecurityRadarServer.init black 1000 send)).

(** A detector that holds a previous frame and is flagging motion. *)
Definition busy_detector : MotionDetector.t :=
  {| MotionDetector.previous_frame := Some [[0]];
     MotionDetector.enabled := true;
     MotionDetector.motion_detected := true;
     MotionDetector.motion_percentage := 100;
     MotionDetector.sensitivity := 3;
     MotionDetector.detection_history := [true; true; false] |}.

(** A server at threat level 2 whose detector no longer flags motion
    but has seen motion in two of its last three frames. *)
Definition subsiding : SecurityRadarServer.t :=
  SecurityRadarServer.set_threat_level 2
    (SecurityRadarServer.set_motion_detector
       {| MotionDetector.previous_frame := Some [[0]];
          MotionDetector.enabled := true;
          MotionDetector.motion_detected := false;
          MotionDetector.motion_percentage := 0;
          MotionDetector.sensitivity := 3;
          MotionDetector.detection_history := [true; true; false] |}
       SecurityRadarServer.init).

(** A connected viewer with both features switched on, and a running
    server with two clients. *)
Definition viewer : Viewer.t := Viewer.mk true false true true.

Definition serving : SecurityRadarServer.t :=
  SecurityRadarServer.set_running true two_clients.

(** The warmed-up server with its motion switch off. *)
Definition quiet : SecurityRadarServer.t :=
  SecurityRadarServer.set_motion_enabled false warmed_up.

End Demo.

(* ================================================================== *)
(** * Verified properties *)
(* ================================================================== *)

Example demo_codec_roundtrip :
  Demo.json_loads (Demo.json_dumps Demo.packet) = Some Demo.packet
  /\ Spec.isascii (Demo.json_dumps Demo.packet) = true.
Proof. vm_compute. split; reflexivity. Qed.

(** ** Comparisons and thresholds *)

Lemma Qgtb_true (a b : Q) : Py.Qgtb a b = true <-> (b < a)%Q.
Proof.
  unfold Py.Qgtb. rewrite negb_true_iff. split; intros H.
  - apply Qnot_le_lt. intros Hle. apply Qle_bool_iff in Hle. congruence.
  - destruct (Qle_bool a b) eqn:E; [|reflexivity].
    apply Qle_bool_iff in E. exfalso. apply (Qlt_not_le _ _ H E).
Qed.

Lemma Qgtb_false (a b : Q) : Py.Qgtb a b = false <-> (a <= b)%Q.
Proof.
  unfold Py.Qgtb. rewrite negb_false_iff. apply Qle_bool_iff.
Qed.

Lemma Qgtb_mono_r (a b c : Q) :
  (c <= b)%Q -> Py.Qgtb a b = true -> Py.Qgtb a c = true.
Proof.
  intros Hcb H. apply Qgtb_true in H. apply Qgtb_true.
  eapply Qle_lt_trans; eassumption.
Qed.

(** ** Rounding to binary64 *)

Lemma pow2_pos (k : Z) : (0 < Py.pow2 k)%Q.
Proof.
  unfold Py.pow2. destruct (0 <=? k) eqn:E.
  - apply Z.leb_le in E. unfold Qlt. simpl.
    pose proof (Z.pow_pos_nonneg 2 k ltac:(lia) E). lia.
  - reflexivity.
Qed.

Lemma pow2_nonpos (e : Z) :
  e <= 0 -> Py.pow2 e = (1 # Z.to_pos (2 ^ (- e)))%Q.
Proof.
  intros H. unfold Py.pow2. destruct (0 <=? e) eqn:E.
  - apply Z.leb_le in E. assert (e = 0) by lia. subst e. reflexivity.
  - reflexivity.
Qed.

Lemma pow2_ilog2_le (x : Q) : (0 < x)%Q -> (Py.pow2 (Py.ilog2 x) <= x)%Q.
Proof.
  intros Hx. unfold Py.ilog2.
  set (k := Z.log2 (Qnum x) - Z.log2 (Z.pos (Qden x))).
  destruct (Qle_bool (Py.pow2 k) x) eqn:E.
  - now apply Qle_bool_iff.
  - clear E. assert (Hn : 0 < Qnum x) by (unfold Qlt in Hx; simpl in Hx; lia).
    pose proof (Z.log2_spec (Qnum x) Hn) as [Hn1 _].
    pose proof (Z.log2_spec (Z.pos (Qden x)) ltac:(lia)) as [_ Hd2].
    pose proof (Z.log2_nonneg (Qnum x)) as Ln.
    pose proof (Z.log2_nonneg (Z.pos (Qden x))) as Ld.
    revert Hn1 Hd2 Ln Ld. unfold k.
    generalize (Z.log2 (Qnum x)) (Z.log2 (Z.pos (Qden x))). intros ln ld Hn1 Hd2 Ln Ld.
    unfold Py.pow2. destruct (0 <=? ln - ld - 1) eqn:K.
    + apply Z.leb_le in K. unfold Qle. cbn [Qnum Qden inject_Z].
      assert (ln = (ln - ld - 1) + Z.succ ld) as R by lia.
      rewrite R, Z.pow_add_r in Hn1 by lia.
      pose proof (Z.pow_pos_nonneg 2 (ln - ld - 1) ltac:(lia) K). nia.
    + apply Z.leb_gt in K. unfold Qle. cbn [Qnum Qden].
      assert (Z.succ ld = ln + (- (ln - ld - 1))) as R by lia.
      rewrite R, Z.pow_add_r in Hd2 by lia.
      pose proof (Z.pow_pos_nonneg 2 (- (ln - ld - 1)) ltac:(lia) ltac:(lia)) as P.
      rewrite Z2Pos.id by exact P. nia.
Qed.

Lemma round_half_even_le (y : Q) (m : Z) :
  (y <= inject_Z m)%Q -> Py.round_half_even y <= m.
Proof.
  intros H. unfold Py.round_half_even.
  pose proof (Qfloor_le y) as F.
  assert (Qfloor y <= m) as Fm.
  { rewrite <- (Qfloor_Z m). now apply Qfloor_resp_le. }
  destruct (y - inject_Z (Qfloor y) ?= 1 # 2)%Q eqn:C; [| exact Fm |].
  - apply Qeq_alt in C.
    assert (inject_Z (Qfloor y) < inject_Z m)%Q as L by lra.
    rewrite <- Zlt_Qlt in L. destruct (Z.even (Qfloor y)); lia.
  - apply Qgt_alt in C.
    assert (inject_Z (Qfloor y) < inject_Z m)%Q as L by lra.
    rewrite <- Zlt_Qlt in L. lia.
Qed.

Lemma round_half_even_nonneg (y : Q) : (0 <= y)%Q -> 0 <= Py.round_half_even y.
Proof.
  intros H. unfold Py.round_half_even.
  assert (0 <= Qfloor y) as F.
  { change 0 with (Qfloor 0). now apply Qfloor_resp_le. }
  destruct (y - inject_Z (Qfloor y) ?= 1 # 2)%Q; [destruct (Z.even (Qfloor y)) | |]; lia.
Qed.

Lemma round64_pos_nonneg (x : Q) : (0 < x)%Q -> (0 <= Py.round64_pos x)%Q.
Proof.
  intros Hx. unfold Py.round64_pos.
  set (e := Z.max (Py.ilog2 x - 52) (-1074)).
  pose proof (pow2_pos e) as P.
  apply Qmult_le_0_compat; [| lra].
  change 0%Q with (inject_Z 0). rewrite <- Zle_Qle.
  apply round_half_even_nonneg.
  apply Qle_shift_div_l; [exact P | lra].
Qed.

Lemma round64_pos_le (x : Q) (c : Z) :
  (0 < x)%Q -> (x <= inject_Z c)%Q -> c < 2 ^ 53 -> (Py.round64_pos x <= inject_Z c)%Q.
Proof.
  intros Hx Hc Hr. unfold Py.round64_pos.
  set (e := Z.max (Py.ilog2 x - 52) (-1074)).
  assert (e <= 0) as He.
  { assert (Py.ilog2 x <= 52); [| unfold e; lia].
    destruct (Z_le_gt_dec (Py.ilog2 x) 52) as [L | G]; [exact L | exfalso].
    pose proof (pow2_ilog2_le x Hx) as B. unfold Py.pow2 in B.
    destruct (0 <=? Py.ilog2 x) eqn:E; [| apply Z.leb_gt in E; lia].
    assert (inject_Z (2 ^ Py.ilog2 x) <= inject_Z c)%Q as B' by lra.
    rewrite <- Zle_Qle in B'.
    pose proof (Z.pow_le_mono_r 2 53 (Py.ilog2 x) ltac:(lia) ltac:(lia)). lia. }
  rewrite (pow2_nonpos e He).
  set (p := Z.to_pos (2 ^ (- e))).
  assert (Py.round_half_even (x / (1 # p)) <= c * Z.pos p) as R.
  { apply round_half_even_le.
    apply Qle_shift_div_r; [reflexivity |].
    rewrite inject_Z_mult.
    assert (inject_Z (Z.pos p) * (1 # p) == 1)%Q as U.
    { unfold Qeq. simpl. lia. }
    rewrite <- Qmult_assoc, U. lra. }
  revert R. generalize (Py.round_half_even (x / (1 # p))). intros r R.
  unfold Qle. simpl. nia.
Qed.

Lemma round64_compat (x y : Q) : (x == y)%Q -> Py.round64 x = Py.round64 y.
Proof. intros H. unfold Py.round64. now rewrite (Qred_complete x y H). Qed.

Lemma round64_cases (x : Q) :
  (x == 0 /\ Py.round64 x = 0)%Q
  \/ ((0 < x)%Q /\ exists r, (r == x /\ 0 < r /\ Py.round64 x == Py.round64_pos r)%Q)
  \/ ((x < 0)%Q /\ exists r, (r == - x /\ 0 < r /\ Py.round64 x == - Py.round64_pos r)%Q).
Proof.
  unfold Py.round64. pose proof (Qred_correct x) as E.
  destruct (Qnum (Qred x)) as [| n | n] eqn:N.
  - left. split; [| reflexivity].
    rewrite <- E. unfold Qeq. rewrite N. reflexivity.
  - right; left.
    assert (0 < Qred x)%Q as P by (unfold Qlt; rewrite N; simpl; lia).
    split; [lra |]. exists (Qred x). repeat split; [exact E | exact P | apply Qred_correct].
  - right; right.
    assert (Qred x < 0)%Q as P by (unfold Qlt; rewrite N; simpl; lia).
    split; [lra |]. exists (- Qred x)%Q.
    repeat split; [lra | lra | apply Qred_correct].
Qed.

Lemma round64_nonneg (x : Q) : (0 <= x)%Q -> (0 <= Py.round64 x)%Q.
Proof.
  intros H. destruct (round64_cases x) as [[_ R] | [[_ (r & _ & P & R)] | [N _]]].
  - rewrite R. lra.
  - rewrite R. now apply round64_pos_nonneg.
  - lra.
Qed.

Lemma round64_nonpos (x : Q) : (x <= 0)%Q -> (Py.round64 x <= 0)%Q.
Proof.
  intros H. destruct (round64_cases x) as [[_ R] | [[P _] | [_ (r & _ & P & R)]]].
  - rewrite R. lra.
  - lra.
  - rewrite R. pose proof (round64_pos_nonneg r P). lra.
Qed.

Lemma round64_le (x : Q) (c : Z) :
  (x <= inject_Z c)%Q -> 0 <= c < 2 ^ 53 -> (Py.round64 x <= inject_Z c)%Q.
Proof.
  intros H Hc.
  assert (0 <= inject_Z c)%Q as C0.
  { change 0%Q with (inject_Z 0). rewrite <- Zle_Qle. lia. }
  destruct (round64_cases x) as [[_ R] | [[_ (r & E & P & R)] | [_ (r & _ & P & R)]]].
  - rewrite R. exact C0.
  - rewrite R. apply round64_pos_le; [exact P | lra | lia].
  - rewrite R. pose proof (round64_pos_nonneg r P). lra.
Qed.

Lemma round64_between (x : Q) (c : Z) :
  (0 <= x <= inject_Z c)%Q -> 0 <= c < 2 ^ 53 ->
  (0 <= Py.round64 x <= inject_Z c)%Q.
Proof.
  intros [L U] Hc. split; [apply round64_nonneg, L | apply round64_le; assumption].
Qed.

Lemma round64_zero (x : Q) : (x == 0)%Q -> Py.round64 x = 0%Q.
Proof. intros H. rewrite (round64_compat x 0 H). reflexivity. Qed.

Lemma fdiv_zero (a b : Q) : (a == 0)%Q -> Py.fdiv a b = 0%Q.
Proof.
  intros H. unfold Py.fdiv. apply round64_zero. rewrite H. reflexivity.
Qed.

Lemma fmul_zero (a b : Q) : (a == 0)%Q -> Py.fmul a b = 0%Q.
Proof.
  intros H. unfold Py.fmul. apply round64_zero. rewrite H. ring.
Qed.

Lemma effective_threshold_half (s : Z) :
  (Spec.effective_threshold s == inject_Z (11 - s) * (1 # 2))%Q.
Proof.
  unfold Spec.effective_threshold, ServerConfig.MOTION_THRESHOLD. field.
Qed.

Lemma effective_threshold_antitone (s1 s2 : Z) :
  s1 <= s2 -> (Spec.effective_threshold s2 <= Spec.effective_threshold s1)%Q.
Proof.
  intros H. rewrite !effective_threshold_half.
  assert (Hi : (inject_Z (11 - s2) <= inject_Z (11 - s1))%Q)
    by (rewrite <- Zle_Qle; lia).
  lra.
Qed.

Lemma effective_threshold_nonneg (s : Z) :
  s <= 11 -> (0 <= Spec.effective_threshold s)%Q.
Proof.
  intros H. rewrite effective_threshold_half.
  assert (Hi : (inject_Z 0 <= inject_Z (11 - s))%Q) by (rewrite <- Zle_Qle; lia).
  change (inject_Z 0) with 0%Q in Hi. lra.
Qed.

Lemma check_motion_flag (z : MonitoringZone.t) (p : Q) :
  snd (MonitoringZone.check_motion z p)
  = Py.Qgtb p (Spec.effective_threshold (MonitoringZone.sensitivity z)).
Proof. reflexivity. Qed.

(** What [detect_motion] returns once a previous frame is held and the
    difference has a percentage. *)
Lemma detect_motion_flag (d : MotionDetector.t) (img : PIL.Image)
      (previous : PIL.Gray) (p : Q) :
  MotionDetector.enabled d = true ->
  MotionDetector.previous_frame d = Some previous ->
  MotionDetector.diff_percentage (PIL.convert_L img) previous = Some p ->
  snd (MotionDetector.detect_motion d img)
  = (Py.Qgtb p (Spec.effective_threshold (MotionDetector.sensitivity d)), p).
Proof.
  intros He Hp Hd. unfold MotionDetector.detect_motion.
  rewrite He, Hp, Hd. reflexivity.
Qed.

(** C7. The effective threshold is [BASE_THRESHOLD * (11 - sensitivity) / 10]
    in the zones and in the detector alike, and it is antitone in the
    sensitivity: for sensitivities [s1 < s2] in [1, 10] the threshold at
    [s1] is at least the threshold at [s2], so whatever percentage flags
    motion at [s1] also flags it at [s2], in a zone and in the detector. *)
Theorem effective_threshold_antitone_in_sensitivity :
  forall s1 s2 : Z, 1 <= s1 -> s1 < s2 -> s2 <= 10 ->
    (Spec.effective_threshold s2 <= Spec.effective_threshold s1)%Q
    /\ (forall (z1 z2 : MonitoringZone.t) (p : Q),
           MonitoringZone.sensitivity z1 = s1 ->
           MonitoringZone.sensitivity z2 = s2 ->
           snd (MonitoringZone.check_motion z1 p)
           = Py.Qgtb p (Spec.effective_threshold s1)
           /\ snd (MonitoringZone.check_motion z2 p)
              = Py.Qgtb p (Spec.effective_threshold s2)
           /\ (snd (MonitoringZone.check_motion z1 p) = true ->
               snd (MonitoringZone.check_motion z2 p) = true))
    /\ (forall (d1 d2 : MotionDetector.t) (img : PIL.Image)
               (previous : PIL.Gray) (p : Q),
           MotionDetector.sensitivity d1 = s1 ->
           MotionDetector.sensitivity d2 = s2 ->
           MotionDetector.enabled d1 = true ->
           MotionDetector.enabled d2 = true ->
           MotionDetector.previous_frame d1 = Some previous ->
           MotionDetector.previous_frame d2 = Some previous ->
           MotionDetector.diff_percentage (PIL.convert_L img) previous = Some p ->
           snd (MotionDetector.detect_motion d1 img)
           = (Py.Qgtb p (Spec.effective_threshold s1), p)
           /\ snd (MotionDetector.detect_motion d2 img)
              = (Py.Qgtb p (Spec.effective_threshold s2), p)
           /\ (fst (snd (MotionDetector.detect_motion d1 img)) = true ->
               fst (snd (MotionDetector.detect_motion d2 img)) = true)).
Proof.
  intros s1 s2 H1 H12 H2.
  assert (Hle : (Spec.effective_threshold s2 <= Spec.effective_threshold s1)%Q)
    by (apply effective_threshold_antitone; lia).
  split; [exact Hle|]. split.
  - intros z1 z2 p E1 E2. rewrite !check_motion_flag, E1, E2.
    repeat split. apply Qgtb_mono_r, Hle.
  - intros d1 d2 img previous p E1 E2 En1 En2 P1 P2 Hd.
    rewrite (detect_motion_flag d1 img previous p En1 P1 Hd).
    rewrite (detect_motion_flag d2 img previous p En2 P2 Hd).
    rewrite E1, E2. repeat split. simpl. apply Qgtb_mono_r, Hle.
Qed.

Lemma effective_threshold_antitone_in_sensitivity_witness :
  (Spec.effective_threshold 7 <= Spec.effective_threshold 3)%Q.
Proof.
  apply (effective_threshold_antitone_in_sensitivity 3 7); lia.
Defined.

(** ** Alert cooldown of a zone *)

Lemma fsub_cooldown (a b : Q) :
  (a - b <= ServerConfig.ALERT_COOLDOWN)%Q ->
  (Py.fsub a b <= ServerConfig.ALERT_COOLDOWN)%Q.
Proof.
  intros H. unfold Py.fsub.
  change ServerConfig.ALERT_COOLDOWN with (inject_Z 3) in *.
  apply round64_le; [exact H | lia].
Qed.


Lemma should_alert_true (z : MonitoringZone.t) (t : Q) :
  (ServerConfig.ALERT_COOLDOWN < Py.fsub t (MonitoringZone.last_alert_time z))%Q ->
  MonitoringZone.should_alert z t
  = (MonitoringZone.mk
       (MonitoringZone.zone_id z) (MonitoringZone.name z)
       (MonitoringZone.x z) (MonitoringZone.y z)
       (MonitoringZone.width z) (MonitoringZone.height z)
       (MonitoringZone.sensitivity z) (MonitoringZone.enabled z)
       (MonitoringZone.motion_detected z) t (MonitoringZone.motion_history z),
     true).
Proof.
  intros H. unfold MonitoringZone.should_alert.
  apply Qgtb_true in H. rewrite H. reflexivity.
Qed.

Lemma should_alert_false (z : MonitoringZone.t) (t : Q) :
  (Py.fsub t (MonitoringZone.last_alert_time z) <= ServerConfig.ALERT_COOLDOWN)%Q ->
  MonitoringZone.should_alert z t = (z, false).
Proof.
  intros H. unfold MonitoringZone.should_alert.
  apply Qgtb_false in H. rewrite H. reflexivity.
Qed.

(** The two outcomes of [should_alert].  The float difference exceeds the
    cooldown only if the exact difference does, the cooldown being a
    float itself. *)
Lemma should_alert_cases (z : MonitoringZone.t) (t : Q) :
  ((ServerConfig.ALERT_COOLDOWN < t - MonitoringZone.last_alert_time z)%Q
   /\ snd (MonitoringZone.should_alert z t) = true
   /\ MonitoringZone.last_alert_time (fst (MonitoringZone.should_alert z t)) = t)
  \/ ((Py.fsub t (MonitoringZone.last_alert_time z) <= ServerConfig.ALERT_COOLDOWN)%Q
      /\ MonitoringZone.should_alert z t = (z, false)).
Proof.
  destruct (Qlt_le_dec ServerConfig.ALERT_COOLDOWN
                       (Py.fsub t (MonitoringZone.last_alert_time z))) as [H | H].
  - left. rewrite (should_alert_true z t H). split; [| auto].
    destruct (Qlt_le_dec ServerConfig.ALERT_COOLDOWN
                         (t - MonitoringZone.last_alert_time z)) as [E | E];
      [exact E | exfalso].
    apply (Qlt_not_le _ _ H), fsub_cooldown, E.
  - right. split; [exact H | apply should_alert_false, H].
Qed.

(** C9. [should_alert] returns true, and then sets the zone's last alert
    time to the current time, only if at least [ALERT_COOLDOWN] seconds have
    elapsed since the last alert; otherwise the zone is left as it is.
    Hence of two calls on the same zone whose times lie within
    [ALERT_COOLDOWN] seconds of each other, at most one returns true. *)
Theorem should_alert_debounce :
  forall (z : MonitoringZone.t) (t1 t2 : Q),
    (t2 - t1 <= ServerConfig.ALERT_COOLDOWN)%Q ->
    let first := MonitoringZone.should_alert z t1 in
    let second := MonitoringZone.should_alert (fst first) t2 in
    (snd first = true ->
       (ServerConfig.ALERT_COOLDOWN <= t1 - MonitoringZone.last_alert_time z)%Q
       /\ MonitoringZone.last_alert_time (fst first) = t1)
    /\ (snd first = false -> fst first = z)
    /\ (snd second = true ->
          (ServerConfig.ALERT_COOLDOWN
           <= t2 - MonitoringZone.last_alert_time (fst first))%Q
          /\ MonitoringZone.last_alert_time (fst second) = t2)
    /\ (snd second = false -> fst second = fst first)
    /\ ~ (snd first = true /\ snd second = true).
Proof.
  intros z t1 t2 Hnear first second.
  assert (Honly : forall (u : MonitoringZone.t) (t : Q),
             (snd (MonitoringZone.should_alert u t) = true ->
                (ServerConfig.ALERT_COOLDOWN <= t - MonitoringZone.last_alert_time u)%Q
                /\ MonitoringZone.last_alert_time
                     (fst (MonitoringZone.should_alert u t)) = t)
             /\ (snd (MonitoringZone.should_alert u t) = false ->
                   fst (MonitoringZone.should_alert u t) = u)).
  { intros u t. destruct (should_alert_cases u t) as [(Hlt & Ht & Hl) | (Hle & He)].
    - split; [intros _; split; [apply Qlt_le_weak, Hlt | exact Hl] | congruence].
    - rewrite He. simpl. split; [discriminate | reflexivity]. }
  destruct (Honly z t1) as [A1 B1]. destruct (Honly (fst first) t2) as [A2 B2].
  split; [exact A1|]. split; [exact B1|]. split; [exact A2|]. split; [exact B2|].
  intros [H1 H2].
  destruct (A1 H1) as [_ Hlast]. fold first in Hlast.
  destruct (should_alert_cases (fst first) t2) as [(Hlt & _) | (_ & He)].
  - rewrite Hlast in Hlt.
    apply (Qlt_not_le _ _ Hlt). exact Hnear.
  - fold second in He. rewrite He in H2. discriminate.
Qed.

Lemma should_alert_debounce_witness :
  ~ (snd (MonitoringZone.should_alert
            (MonitoringZone.init 1 "Entry Point" 0 0 640 360 5) 1000) = true
     /\ snd (MonitoringZone.should_alert
               (fst (MonitoringZone.should_alert
                       (MonitoringZone.init 1 "Entry Point" 0 0 640 360 5) 1000))
               1002) = true).
Proof.
  apply (should_alert_debounce
           (MonitoringZone.init 1 "Entry Point" 0 0 640 360 5) 1000 1002).
  vm_compute. discriminate.
Defined.

(** The claim C10 as it is worded, with the elapsed time taken exactly,
    fails where the float subtraction rounds: with the last alert at the
    float [0.1] and the clock at the float [3.1], more than three seconds
    lie between the two, yet the code computes [3.1 - 0.1 = 3.0], which is
    not above the cooldown, and answers false. *)
Lemma should_alert_elapsed_counterexample :
  let z := MonitoringZone.mk 1 "Entry Point" 0 0 640 360 5 true true
             (Py.round64 (1 # 10)) [] in
  let t := Py.round64 (31 # 10) in
  (ServerConfig.ALERT_COOLDOWN < t - MonitoringZone.last_alert_time z)%Q
  /\ MonitoringZone.should_alert z t = (z, false).
Proof. split; vm_compute; reflexivity. Qed.



(** ** Threat level *)

Lemma process_motion_event_level (s : SecurityRadarServer.t) (p : Q) :
  1 <= SecurityRadarServer.threat_level (SecurityRadarServer._process_motion_event s p) <= 3.
Proof.
  unfold SecurityRadarServer._process_motion_event.
  destruct (Py.Qgtb p 20); [simpl; lia|].
  destruct (Py.Qgtb p 10); simpl; lia.
Qed.

Lemma decay_range (flag : bool) (level : Z) :
  0 <= level <= 3 -> 0 <= Spec.decay flag level <= 3.
Proof.
  intros H. unfold Spec.decay.
  destruct (negb flag && (0 <? level)) eqn:E; [|lia].
  apply andb_true_iff in E. destruct E as [_ E]. apply Z.ltb_lt in E. lia.
Qed.

Lemma escalate_range (history : list bool) (level : Z) :
  0 <= level <= 3 -> 0 <= Spec.escalate history level <= 3.
Proof.
  intros H. unfold Spec.escalate.
  destruct (Qlt_le_dec (1 # 2) (Spec.motion_rate history)); lia.
Qed.

Lemma analytics_step_level (s : SecurityRadarServer.t) :
  SecurityRadarServer.analytics_step s
  = SecurityRadarServer.set_threat_level
      (Spec.escalate
         (MotionDetector.detection_history (SecurityRadarServer.motion_detector s))
         (Spec.decay
            (MotionDetector.motion_detected (SecurityRadarServer.motion_detector s))
            (SecurityRadarServer.threat_level s)))
      s.
Proof.
  destruct s as [cl ru fps qu mon det me ae zs lvl fs tb ev al st].
  destruct det as [pf en md mp sens hist].
  unfold SecurityRadarServer.analytics_step, Spec.decay, Spec.escalate,
    SecurityRadarServer.set_threat_level.
  cbn [SecurityRadarServer.motion_detector SecurityRadarServer.threat_level
       MotionDetector.motion_detected MotionDetector.detection_history].
  rewrite Z.gtb_ltb.
  assert (Hmax : (0 <? lvl) = true -> Z.max 0 (lvl - 1) = lvl - 1)
    by (intros H; apply Z.ltb_lt in H; lia).
  destruct (negb md && (0 <? lvl)) eqn:E;
    cbn [SecurityRadarServer.motion_detector SecurityRadarServer.threat_level
         SecurityRadarServer.clients SecurityRadarServer.running
         SecurityRadarServer.capture_fps SecurityRadarServer.quality
         SecurityRadarServer.screen_monitor SecurityRadarServer.motion_enabled
         SecurityRadarServer.alerts_enabled SecurityRadarServer.zones
         SecurityRadarServer.frames_sent SecurityRadarServer.total_bytes_sent
         SecurityRadarServer.motion_events SecurityRadarServer.alerts_sent
         SecurityRadarServer.start_time
         MotionDetector.motion_detected MotionDetector.detection_history];
    change (match hist with
            | [] => 0%Q
            | _ :: _ =>
                (inject_Z (Z.of_nat (List.length (filter (fun x : bool => x) hist)))
                 / inject_Z (Z.of_nat (List.length hist)))%Q
            end) with (Spec.motion_rate hist);
    destruct (Qlt_le_dec (1 # 2) (Spec.motion_rate hist)) as [H | H].
  - apply andb_true_iff in E. destruct E as [_ E].
    apply Qgtb_true in H. rewrite H, (Hmax E). reflexivity.
  - apply andb_true_iff in E. destruct E as [_ E].
    apply Qgtb_false in H. rewrite H, (Hmax E). reflexivity.
  - apply Qgtb_true in H. rewrite H. reflexivity.
  - apply Qgtb_false in H. rewrite H. reflexivity.
Qed.

(** C3. A run of the analytics step keeps the threat level in {0,1,2,3}
    and applies two rules in order.  Decay: when the detector's motion flag
    is false and the level is positive, the level drops by exactly one, and
    otherwise it stays.  Escalation: when more than half of the entries of
    the detection history are true, the decayed level grows by one, capped
    at 3.  Nothing but the threat level changes.  A motion event sets the
    level to 1, 2 or 3. *)
Theorem analytics_step_decays_then_escalates :
  forall s : SecurityRadarServer.t,
    0 <= SecurityRadarServer.threat_level s <= 3 ->
    let level := SecurityRadarServer.threat_level s in
    let flag := MotionDetector.motion_detected (SecurityRadarServer.motion_detector s) in
    let history :=
      MotionDetector.detection_history (SecurityRadarServer.motion_detector s) in
    let decayed := Spec.decay flag level in
    let s' := SecurityRadarServer.analytics_step s in
    0 <= SecurityRadarServer.threat_level s' <= 3
    /\ s' = SecurityRadarServer.set_threat_level (SecurityRadarServer.threat_level s') s
    /\ (flag = false -> 0 < level -> decayed = level - 1)
    /\ (flag = true \/ level = 0 -> decayed = level)
    /\ 0 <= decayed
    /\ ((1 # 2 < Spec.motion_rate history)%Q ->
        SecurityRadarServer.threat_level s' = Z.min 3 (decayed + 1))
    /\ ((Spec.motion_rate history <= 1 # 2)%Q ->
        SecurityRadarServer.threat_level s' = decayed)
    /\ (forall p : Q,
           1 <= SecurityRadarServer.threat_level
                  (SecurityRadarServer._process_motion_event s p) <= 3).
Proof.
  intros s Hrange level flag history decayed s'.
  assert (Hs' : SecurityRadarServer.threat_level s' = Spec.escalate history decayed)
    by (subst s'; rewrite analytics_step_level; reflexivity).
  assert (Hdec : 0 <= decayed <= 3) by (apply decay_range, Hrange).
  split; [rewrite Hs'; apply escalate_range, Hdec|].
  split; [rewrite Hs'; apply analytics_step_level|].
  split.
  { intros Hf Hl. subst decayed. unfold Spec.decay. rewrite Hf.
    apply Z.ltb_lt in Hl. rewrite Hl. reflexivity. }
  split.
  { intros [Hf | Hl]; subst decayed; unfold Spec.decay.
    - rewrite Hf. reflexivity.
    - rewrite Hl. rewrite andb_false_r. reflexivity. }
  split; [lia|].
  split.
  { intros H. rewrite Hs'. unfold Spec.escalate.
    destruct (Qlt_le_dec (1 # 2) (Spec.motion_rate history)) as [_ | H'];
      [reflexivity | exfalso; apply (Qlt_not_le _ _ H H')]. }
  split.
  { intros H. rewrite Hs'. unfold Spec.escalate.
    destruct (Qlt_le_dec (1 # 2) (Spec.motion_rate history)) as [H' | _];
      [exfalso; apply (Qlt_not_le _ _ H' H) | reflexivity]. }
  intros p. apply process_motion_event_level.
Qed.

Lemma analytics_step_decays_then_escalates_witness :
  SecurityRadarServer.threat_level (SecurityRadarServer.analytics_step Demo.subsiding)
  = Z.min 3 (Spec.decay false 2 + 1)
  /\ Spec.decay false 2 = 2 - 1.
Proof.
  assert (Hrange : 0 <= SecurityRadarServer.threat_level Demo.subsiding <= 3)
    by (vm_compute; split; discriminate).
  destruct (analytics_step_decays_then_escalates Demo.subsiding Hrange)
    as (_ & _ & Hdecay & _ & _ & Hup & _).
  split.
  - apply Hup. vm_compute. reflexivity.
  - apply Hdecay; [reflexivity | vm_compute; reflexivity].
Defined.

(** ** Motion detection on identical frames *)

Lemma difference_row_self (row : list Z) :
  fold_right Z.add 0 (map (fun p : Z * Z => Z.abs (fst p - snd p)) (combine row row)) = 0.
Proof.
  induction row as [|v row IH]; simpl; [reflexivity|].
  rewrite IH, Z.sub_diag. reflexivity.
Qed.

Lemma difference_self_sum (g : PIL.Gray) : PIL.pixel_sum (PIL.difference g g) = 0.
Proof.
  unfold PIL.pixel_sum, PIL.difference.
  induction g as [|row g IH]; simpl; [reflexivity|].
  rewrite IH, difference_row_self. reflexivity.
Qed.

(** Either the difference image has no pixels and the statistics raise, or
    the percentage is zero. *)
Lemma diff_percentage_self (g : PIL.Gray) :
  MotionDetector.diff_percentage g g = None
  \/ exists p : Q, MotionDetector.diff_percentage g g = Some p /\ (p == 0)%Q.
Proof.
  unfold MotionDetector.diff_percentage, PIL.stat_mean.
  rewrite difference_self_sum.
  destruct (PIL.pixel_count (PIL.difference g g) =? 0); [left; reflexivity|].
  right. eexists. split; [reflexivity|].
  cbn [fold_right List.length].
  repeat (rewrite fdiv_zero by reflexivity).
  rewrite fmul_zero by reflexivity. reflexivity.
Qed.

Lemma detect_motion_still (d : MotionDetector.t) (img : PIL.Image) :
  MotionDetector.previous_frame d = Some (PIL.convert_L img) ->
  MotionDetector.sensitivity d <= 11 ->
  fst (snd (MotionDetector.detect_motion d img)) = false
  /\ (snd (snd (MotionDetector.detect_motion d img)) == 0)%Q.
Proof.
  intros Hprev Hsens. unfold MotionDetector.detect_motion.
  destruct (negb (MotionDetector.enabled d)); [simpl; split; reflexivity|].
  rewrite Hprev.
  destruct (diff_percentage_self (PIL.convert_L img)) as [E | (p & E & Hp)];
    rewrite E; simpl; [split; reflexivity|].
  split; [|exact Hp].
  apply Qgtb_false. rewrite Hp.
  apply (effective_threshold_nonneg (MotionDetector.sensitivity d) Hsens).
Qed.

(** C6. On an enabled detector with a sensitivity in [1, 10], detecting a
    frame [F2] right after a bit-identical frame [F1] reports no motion and
    a motion percentage of zero. *)
Theorem detect_motion_identical_frames :
  forall (d : MotionDetector.t) (F1 F2 : PIL.Image),
    MotionDetector.enabled d = true ->
    1 <= MotionDetector.sensitivity d <= 10 ->
    F1 = F2 ->
    let d1 := fst (MotionDetector.detect_motion d F1) in
    let result := snd (MotionDetector.detect_motion d1 F2) in
    fst result = false /\ (snd result == 0)%Q.
Proof.
  intros d F1 F2 Hen Hsens HF d1 result. subst F2 result d1.
  unfold MotionDetector.detect_motion at 2 4. rewrite Hen. simpl negb. cbv iota.
  destruct (MotionDetector.previous_frame d) as [previous|] eqn:Hprev.
  - destruct (MotionDetector.diff_percentage (PIL.convert_L F1) previous) as [p|] eqn:Hd.
    + apply detect_motion_still; simpl; [reflexivity | lia].
    + simpl fst. unfold MotionDetector.detect_motion. rewrite Hen, Hprev, Hd.
      simpl. split; reflexivity.
  - apply detect_motion_still; simpl; [reflexivity | lia].
Qed.

Lemma detect_motion_identical_frames_witness :
  fst (snd (MotionDetector.detect_motion
              (fst (MotionDetector.detect_motion Demo.busy_detector Demo.white))
              Demo.white)) = false.
Proof.
  apply (detect_motion_identical_frames Demo.busy_detector Demo.white Demo.white).
  - reflexivity.
  - vm_compute. split; discriminate.
  - reflexivity.
Defined.

(** ** The client registry under a broadcast *)

Section Registry.

Variable send : nat -> SendResult.

Let fails (c : ClientInfo.t) : bool := raises (send (ClientInfo.socket c)).

Lemma client_eqb_refl (c : ClientInfo.t) : ClientInfo.eqb c c = true.
Proof.
  unfold ClientInfo.eqb.
  rewrite Nat.eqb_refl, String.eqb_refl, Z.eqb_refl, !Bool.eqb_reflx.
  assert (Hq : Qeq_bool (ClientInfo.connected_at c) (ClientInfo.connected_at c) = true)
    by (apply Qeq_bool_iff; reflexivity).
  rewrite Hq. reflexivity.
Qed.

Lemma client_eqb_socket (c d : ClientInfo.t) :
  ClientInfo.eqb c d = true -> ClientInfo.socket c = ClientInfo.socket d.
Proof.
  unfold ClientInfo.eqb. intros H.
  repeat (apply andb_true_iff in H; destruct H as [H _]).
  apply Nat.eqb_eq, H.
Qed.

Lemma client_eqb_fails (c d : ClientInfo.t) :
  ClientInfo.eqb c d = true -> fails c = fails d.
Proof.
  intros H. unfold fails. rewrite (client_eqb_socket c d H). reflexivity.
Qed.

Lemma remove_absent (c : ClientInfo.t) (l : list ClientInfo.t) :
  ClientInfo.mem c l = false -> ClientInfo.remove c l = l.
Proof.
  unfold ClientInfo.mem. induction l as [|d l IH]; simpl; [reflexivity|].
  intros H. apply orb_false_iff in H. destruct H as [Hd Hl].
  rewrite Hd, (IH Hl). reflexivity.
Qed.

(** Removing an absent client leaves the server as it is. *)
Lemma remove_client_absent (s : SecurityRadarServer.t) (c : ClientInfo.t) :
  ClientInfo.mem c (SecurityRadarServer.clients s) = false ->
  SecurityRadarServer._remove_client s c = s.
Proof.
  intros H. unfold SecurityRadarServer._remove_client. rewrite H. reflexivity.
Qed.

Lemma remove_client_clients (s : SecurityRadarServer.t) (c : ClientInfo.t) :
  SecurityRadarServer._remove_client s c
  = SecurityRadarServer.set_clients
      (ClientInfo.remove c (SecurityRadarServer.clients s)) s.
Proof.
  unfold SecurityRadarServer._remove_client.
  destruct (ClientInfo.mem c (SecurityRadarServer.clients s)) eqn:E; [reflexivity|].
  rewrite (remove_absent c _ E). destruct s; reflexivity.
Qed.

Lemma fold_remove_client (disconnected : list ClientInfo.t) (s : SecurityRadarServer.t) :
  fold_left SecurityRadarServer._remove_client disconnected s
  = SecurityRadarServer.set_clients
      (fold_left (fun l c => ClientInfo.remove c l) disconnected
                 (SecurityRadarServer.clients s)) s.
Proof.
  revert s. induction disconnected as [|c r IH]; intros s; simpl.
  - destruct s; reflexivity.
  - rewrite IH, remove_client_clients. destruct s; reflexivity.
Qed.

Lemma remove_after_healthy (c : ClientInfo.t) (kept rest : list ClientInfo.t) :
  fails c = true ->
  Forall (fun d => fails d = false) kept ->
  ClientInfo.remove c (kept ++ c :: rest) = kept ++ rest.
Proof.
  intros Hc Hkept. induction Hkept as [|d kept Hd _ IH]; simpl.
  - rewrite client_eqb_refl. reflexivity.
  - destruct (ClientInfo.eqb c d) eqn:E.
    + apply client_eqb_fails in E. congruence.
    + rewrite IH. reflexivity.
Qed.

(** Removing the failed clients one by one, in the order in which they
    failed, leaves exactly the clients whose send returned. *)
Lemma fold_remove_failed (l kept : list ClientInfo.t) :
  Forall (fun d => fails d = false) kept ->
  fold_left (fun acc c => ClientInfo.remove c acc) (filter fails l) (kept ++ l)
  = kept ++ filter (fun c => negb (fails c)) l.
Proof.
  revert kept. induction l as [|c l IH]; intros kept Hkept; simpl; [reflexivity|].
  destruct (fails c) eqn:Hc; simpl.
  - rewrite (remove_after_healthy c kept l Hc Hkept). apply IH, Hkept.
  - change (kept ++ c :: l) with (kept ++ [c] ++ l).
    change (kept ++ c :: filter (fun c0 => negb (fails c0)) l)
      with (kept ++ [c] ++ filter (fun c0 => negb (fails c0)) l).
    rewrite !app_assoc. apply IH.
    apply Forall_app. split; [exact Hkept | constructor; [exact Hc | constructor]].
Qed.

Variable json_dumps : Packet.t -> string.

Lemma send_all_spec (message : list ascii) (l : list ClientInfo.t) :
  SecurityRadarServer.send_all send message l
  = (map (fun c => (ClientInfo.socket c, message)) (filter (fun c => negb (fails c)) l),
     filter fails l).
Proof.
  induction l as [|c l IH]; simpl; [reflexivity|].
  rewrite IH. fold (fails c). destruct (fails c); reflexivity.
Qed.

(** The registry and the deliveries after one broadcast. *)
Lemma broadcast_packet_spec (s : SecurityRadarServer.t) (packet : Packet.t) :
  SecurityRadarServer._broadcast_packet json_dumps s packet send
  = (SecurityRadarServer.set_clients
       (filter (fun c => negb (fails c)) (SecurityRadarServer.clients s)) s,
     map (fun c => (ClientInfo.socket c,
                    SecurityRadarServer.frame_message json_dumps packet))
         (filter (fun c => negb (fails c)) (SecurityRadarServer.clients s))).
Proof.
  unfold SecurityRadarServer._broadcast_packet.
  rewrite send_all_spec, fold_remove_client.
  pose proof (fold_remove_failed (SecurityRadarServer.clients s) [] (Forall_nil _))
    as Hfold.
  simpl app in Hfold. rewrite Hfold. reflexivity.
Qed.

(** C5. In one broadcast, every registered client whose send raises is
    gone from the registry afterwards, and every registered client whose
    send returns is still registered and was sent the whole message in
    that same broadcast, whatever happened to the others; removing a
    client that is not registered changes nothing. *)
Theorem broadcast_isolates_failed_clients :
  forall (s : SecurityRadarServer.t) (packet : Packet.t) (c : ClientInfo.t),
    In c (SecurityRadarServer.clients s) ->
    let after := SecurityRadarServer._broadcast_packet json_dumps s packet send in
    (raises (send (ClientInfo.socket c)) = true ->
       ClientInfo.mem c (SecurityRadarServer.clients (fst after)) = false
       /\ ~ In c (SecurityRadarServer.clients (fst after))
       /\ SecurityRadarServer._remove_client (fst after) c = fst after)
    /\ (raises (send (ClientInfo.socket c)) = false ->
          In c (SecurityRadarServer.clients (fst after))
          /\ In (ClientInfo.socket c,
                 SecurityRadarServer.frame_message json_dumps packet)
                (snd after)).
Proof.
  intros s packet c Hin after. subst after.
  rewrite broadcast_packet_spec. simpl fst. simpl snd.
  change (SecurityRadarServer.clients
            (SecurityRadarServer.set_clients
               (filter (fun c0 => negb (fails c0)) (SecurityRadarServer.clients s)) s))
    with (filter (fun c0 => negb (fails c0)) (SecurityRadarServer.clients s)).
  split.
  - intros Hc.
    assert (Hmem : ClientInfo.mem c
                     (filter (fun c0 => negb (fails c0))
                             (SecurityRadarServer.clients s)) = false).
    { unfold ClientInfo.mem.
      destruct (existsb (ClientInfo.eqb c)
                        (filter (fun c0 => negb (fails c0))
                                (SecurityRadarServer.clients s))) eqn:E;
        [|reflexivity].
      apply existsb_exists in E. destruct E as (d & Hd & Heq).
      apply filter_In in Hd. destruct Hd as [_ Hd].
      apply client_eqb_fails in Heq. unfold fails in Heq at 1.
      rewrite Hc in Heq. rewrite <- Heq in Hd. discriminate. }
    split; [exact Hmem|]. split.
    + intros Hc'. apply filter_In in Hc'. destruct Hc' as [_ Hc'].
      unfold fails in Hc'. rewrite Hc in Hc'. discriminate.
    + apply remove_client_absent. exact Hmem.
  - intros Hc.
    assert (Hkeep : In c (filter (fun c0 => negb (fails c0))
                                 (SecurityRadarServer.clients s))).
    { apply filter_In. split; [exact Hin|]. unfold fails. rewrite Hc. reflexivity. }
    split; [exact Hkeep|].
    apply (in_map (fun c0 => (ClientInfo.socket c0,
                              SecurityRadarServer.frame_message json_dumps packet))
                  _ c Hkeep).
Qed.

End Registry.

Lemma broadcast_isolates_failed_clients_witness :
  ClientInfo.mem Demo.broken
    (SecurityRadarServer.clients
       (fst (SecurityRadarServer._broadcast_packet
               Demo.json_dumps Demo.two_clients Demo.packet Demo.send))) = false.
Proof.
  apply (broadcast_isolates_failed_clients
           Demo.send Demo.json_dumps Demo.two_clients Demo.packet Demo.broken).
  - simpl. left. reflexivity.
  - reflexivity.
Defined.

(** ** Commands that are not understood *)

Lemma startswith_app (s p : string) :
  Py.startswith s p = true -> exists r : string, s = (p ++ r)%string.
Proof.
  unfold Py.startswith. revert s. induction p as [|c p IH]; intros s H.
  - exists s. reflexivity.
  - destruct s as [|d s]; simpl in H; [discriminate|].
    destruct (ascii_dec c d) as [E | _]; [|discriminate].
    destruct (IH s H) as [r Hr]. exists r. subst. reflexivity.
Qed.

Lemma startswith_self (p r : string) : Py.startswith (p ++ r) p = true.
Proof.
  unfold Py.startswith. induction p as [|c p IH]; simpl.
  - destruct r; reflexivity.
  - destruct (ascii_dec c c) as [_ | N]; [exact IH | contradiction].
Qed.

(** Settles a test of the dispatcher that computes to [false]. *)
Ltac settle_test :=
  match goal with
  | |- context [if ?c then _ else _] => change c with false; cbv iota
  end.

(** C8. A command with an unknown verb, and a command whose verb takes an
    integer but whose argument is not one, sends nothing to the client and
    leaves the server and the client record exactly as they were. *)
Theorem process_command_ignores_malformed :
  forall (s : SecurityRadarServer.t) (client_info : ClientInfo.t)
         (command : string) (now : Q),
    Spec.unknown_verb command \/ Spec.malformed_integer command ->
    SecurityRadarServer._process_command s client_info command now
    = (s, client_info, []).
Proof.
  intros s client_info command now [Hunknown | [Hverb Harg]].
  - destruct Hunknown as (N1 & N2 & N3 & P1 & P2 & P3 & P4 & P5).
    unfold SecurityRadarServer._process_command.
    apply String.eqb_neq in N1, N2, N3.
    rewrite N1, P1, P2, P3, P4, N2, P5, N3. reflexivity.
  - destruct Hverb as [H | [H | H]];
      apply startswith_app in H; destruct H as [r ->];
      unfold SecurityRadarServer._process_command;
      repeat settle_test; rewrite startswith_self, Harg; reflexivity.
Qed.

Lemma process_command_ignores_malformed_witness :
  SecurityRadarServer._process_command
    Demo.two_clients Demo.healthy "SET_FPS:fast" 1000
  = (Demo.two_clients, Demo.healthy, [])
  /\ SecurityRadarServer._process_command
       Demo.two_clients Demo.healthy "REBOOT" 1000
     = (Demo.two_clients, Demo.healthy, []).
Proof.
  split.
  - apply (process_command_ignores_malformed
             Demo.two_clients Demo.healthy "SET_FPS:fast" 1000).
    right. split; [left|]; reflexivity.
  - apply (process_command_ignores_malformed
             Demo.two_clients Demo.healthy "REBOOT" 1000).
    left. unfold Spec.unknown_verb.
    repeat split; first [discriminate | reflexivity].
Defined.

(** ** Decimal text of an integer *)

Lemma digit_not_space (c : ascii) : Py.is_digit c = true -> Py.is_space c = false.
Proof.
  destruct c as [[|] [|] [|] [|] [|] [|] [|] [|]]; vm_compute; congruence.
Qed.

Lemma digit_is_ascii (c : ascii) : Py.is_digit c = true -> (N_of_ascii c <? 128)%N = true.
Proof.
  destruct c as [[|] [|] [|] [|] [|] [|] [|] [|]]; vm_compute; congruence.
Qed.

Lemma digit_not_bar (c : ascii) : Py.is_digit c = true -> Ascii.eqb c "|" = false.
Proof.
  destruct c as [[|] [|] [|] [|] [|] [|] [|] [|]]; vm_compute; congruence.
Qed.

Lemma string_of_uint_digits (d : Decimal.uint) :
  Spec.all_digits (NilEmpty.string_of_uint d) = true.
Proof. induction d; simpl; auto. Qed.

Lemma str_digits (n : Z) : 0 <= n -> Spec.all_digits (Py.str n) = true.
Proof.
  intros H. unfold Py.str. destruct n as [|p|p]; [reflexivity| |lia].
  simpl. destruct (Pos.to_uint p); try reflexivity; apply (string_of_uint_digits (_ _)).
Qed.

Lemma rstrip_digits (s : string) : Spec.all_digits s = true -> Py.rstrip s = s.
Proof.
  induction s as [|c r IH]; simpl; [reflexivity|].
  intros H. apply andb_true_iff in H. destruct H as [Hc Hr].
  rewrite (IH Hr). destruct r; [|reflexivity].
  rewrite (digit_not_space c Hc). reflexivity.
Qed.

Lemma strip_digits (s : string) : Spec.all_digits s = true -> Py.strip s = s.
Proof.
  intros H. unfold Py.strip.
  assert (Hl : Py.lstrip s = s).
  { destruct s as [|c r]; [reflexivity|]. simpl in *.
    apply andb_true_iff in H. destruct H as [Hc _].
    rewrite (digit_not_space c Hc). reflexivity. }
  rewrite Hl. apply rstrip_digits, H.
Qed.

(** A decimal numeral passes unchanged through the rewriting and the
    stripping that [int] applies. *)
Lemma digit_not_c_space (c : ascii) : Py.is_digit c = true -> Py.is_c_space c = false.
Proof.
  destruct c as [[|] [|] [|] [|] [|] [|] [|] [|]]; vm_compute; congruence.
Qed.

Lemma digits_py_isascii (s : string) : Spec.all_digits s = true -> Py.isascii s = true.
Proof.
  induction s as [|c r IH]; simpl; [reflexivity|].
  intros H. apply andb_true_iff in H. destruct H as [Hc Hr].
  rewrite (digit_is_ascii c Hc), (IH Hr). reflexivity.
Qed.

Lemma int_text_digits (s : string) : Spec.all_digits s = true -> Py.int_text s = s.
Proof.
  intros H. unfold Py.int_text. rewrite (digits_py_isascii s H). reflexivity.
Qed.

Lemma int_rstrip_digits (s : string) : Spec.all_digits s = true -> Py.int_rstrip s = s.
Proof.
  induction s as [|c r IH]; simpl; [reflexivity|].
  intros H. apply andb_true_iff in H. destruct H as [Hc Hr].
  rewrite (IH Hr). destruct r; [|reflexivity].
  rewrite (digit_not_c_space c Hc). reflexivity.
Qed.

Lemma int_strip_digits (s : string) :
  Spec.all_digits s = true -> Py.int_rstrip (Py.int_lstrip s) = s.
Proof.
  intros H.
  assert (Hl : Py.int_lstrip s = s).
  { destruct s as [|c r]; [reflexivity|]. simpl in *.
    apply andb_true_iff in H. destruct H as [Hc _].
    rewrite (digit_not_c_space c Hc). reflexivity. }
  rewrite Hl. apply int_rstrip_digits, H.
Qed.

Lemma int_digits_step (c : ascii) (r : string) (acc : Z) :
  Py.is_digit c = true ->
  Py.int_digits (String c r) acc false
  = Py.int_digits r (10 * acc + Py.digit_value c) false.
Proof. intros H. simpl. rewrite H. reflexivity. Qed.

(** Reads one more digit in a goal about [Py.int_digits]. *)
Ltac read_digit :=
  cbn [NilEmpty.string_of_uint Pos.of_uint_acc Pos.of_uint];
  rewrite int_digits_step by reflexivity;
  match goal with
  | |- context [Py.digit_value ?c] =>
      let v := eval vm_compute in (Py.digit_value c) in
      change (Py.digit_value c) with v
  end.

Lemma int_digits_acc (d : Decimal.uint) (p : positive) :
  Py.int_digits (NilEmpty.string_of_uint d) (Z.pos p) false
  = Some (Z.pos (Pos.of_uint_acc d p)).
Proof.
  revert p. induction d; intros p; [reflexivity | ..];
    read_digit; rewrite <- IHd; f_equal; lia.
Qed.

Lemma int_digits_zero (d : Decimal.uint) :
  Py.int_digits (NilEmpty.string_of_uint d) 0 false = Some (Z.of_N (Pos.of_uint d)).
Proof.
  induction d; [reflexivity | read_digit; exact IHd | ..];
    read_digit; apply int_digits_acc.
Qed.

Lemma int_unsigned_uint (d : Decimal.uint) :
  Py.int_unsigned (NilZero.string_of_uint d) = Some (Z.of_N (Pos.of_uint d)).
Proof.
  destruct d; [reflexivity | exact (int_digits_zero d) | ..];
    match goal with
    | |- Py.int_unsigned (NilZero.string_of_uint (?D d)) = _ =>
        let v := eval vm_compute in (Pos.of_uint (D Decimal.Nil)) in
        match v with
        | N.pos ?k => exact (int_digits_acc d k)
        end
    end.
Qed.

(** [int(str(n)) == n] for a length. *)
Lemma int_str (n : Z) : 0 <= n -> Py.int (Py.str n) = Some n.
Proof.
  intros H. unfold Py.int, Py.int_parse.
  rewrite (int_text_digits _ (str_digits n H)), (int_strip_digits _ (str_digits n H)).
  unfold Py.str. destruct n as [|p|p]; [reflexivity| |lia].
  assert (Hv : Py.int_unsigned (NilZero.string_of_uint (Pos.to_uint p)) = Some (Z.pos p))
    by (rewrite int_unsigned_uint, DecimalPos.Unsigned.of_to; reflexivity).
  unfold Z.to_int, NilZero.string_of_int.
  destruct (Pos.to_uint p); simpl in *; exact Hv.
Qed.

(** ** UTF-8 on ASCII text *)

Lemma isascii_app (a b : string) :
  Spec.isascii (a ++ b) = Spec.isascii a && Spec.isascii b.
Proof.
  induction a as [|c a IH]; simpl; [reflexivity|].
  rewrite IH, andb_assoc. reflexivity.
Qed.

Lemma digits_isascii (s : string) : Spec.all_digits s = true -> Spec.isascii s = true.
Proof.
  induction s as [|c r IH]; simpl; [reflexivity|].
  intros H. apply andb_true_iff in H. destruct H as [Hc Hr].
  rewrite (digit_is_ascii c Hc), (IH Hr). reflexivity.
Qed.

Lemma encode_ascii (s : string) :
  Spec.isascii s = true -> Py.encode_utf8 s = list_ascii_of_string s.
Proof.
  induction s as [|c r IH]; simpl; [reflexivity|].
  intros H. apply andb_true_iff in H. destruct H as [Hc Hr].
  rewrite Hc, (IH Hr). reflexivity.
Qed.

Lemma decode_ascii (s : string) :
  Spec.isascii s = true -> Py.decode_utf8 (list_ascii_of_string s) = Some s.
Proof.
  induction s as [|c r IH]; simpl; [reflexivity|].
  intros H. apply andb_true_iff in H. destruct H as [Hc Hr].
  rewrite Hc, (IH Hr). reflexivity.
Qed.

Lemma bytes_app (a b : string) :
  list_ascii_of_string (a ++ b) = list_ascii_of_string a ++ list_ascii_of_string b.
Proof.
  induction a as [|c a IH]; simpl; [reflexivity|]. rewrite IH. reflexivity.
Qed.

Lemma bytes_length (s : string) :
  List.length (list_ascii_of_string s) = String.length s.
Proof.
  induction s as [|c r IH]; simpl; [reflexivity|]. rewrite IH. reflexivity.
Qed.

(** On ASCII text the number of bytes is the number of characters. *)
Lemma encode_ascii_length (s : string) :
  Spec.isascii s = true -> Z.of_nat (List.length (Py.encode_utf8 s)) = Py.len s.
Proof.
  intros H. rewrite (encode_ascii s H), bytes_length. reflexivity.
Qed.

(** ** The receive loop on one frame *)

Lemma find_after_digits (digits : string) (rest : list ascii) :
  Spec.all_digits digits = true ->
  Viewer.find "|" (list_ascii_of_string digits ++ "|"%char :: rest)
  = Some (String.length digits).
Proof.
  induction digits as [|c r IH]; simpl; [reflexivity|].
  intros H. apply andb_true_iff in H. destruct H as [Hc Hr].
  rewrite (digit_not_bar c Hc), (IH Hr). reflexivity.
Qed.

Lemma firstn_prefix {A : Type} (a b : list A) : firstn (List.length a) (a ++ b) = a.
Proof.
  induction a as [|x a IH]; simpl; [reflexivity|]. rewrite IH. reflexivity.
Qed.

Lemma skipn_past {A : Type} (a : list A) (x : A) (b : list A) :
  skipn (S (List.length a)) (a ++ x :: b) = b.
Proof.
  induction a as [|y a IH]; simpl; [reflexivity|]. exact IH.
Qed.

Lemma slice_body (head body : list ascii) (sep : ascii) :
  Viewer.slice (head ++ sep :: body)
               (Z.of_nat (List.length head) + 1)
               (Z.of_nat (List.length head) + 1 + Z.of_nat (List.length body))
  = body.
Proof.
  unfold Viewer.slice, Viewer.bound.
  rewrite length_app. cbn [List.length].
  assert (H1 : (Z.of_nat (List.length head) + 1 <? 0) = false)
    by (apply Z.ltb_ge; lia).
  assert (H2 : (Z.of_nat (List.length head) + 1
                + Z.of_nat (List.length body) <? 0) = false)
    by (apply Z.ltb_ge; lia).
  rewrite H1, H2.
  replace (Z.to_nat
             (Z.min (Z.of_nat (List.length head) + 1)
                    (Z.of_nat (List.length head + S (List.length body)))))
    with (S (List.length head)) by lia.
  replace (Z.to_nat
             (Z.min (Z.of_nat (List.length head) + 1 + Z.of_nat (List.length body))
                    (Z.of_nat (List.length head + S (List.length body)))
              - Z.min (Z.of_nat (List.length head) + 1)
                      (Z.of_nat (List.length head + S (List.length body)))))
    with (List.length body) by lia.
  rewrite skipn_past. apply firstn_all.
Qed.

Lemma slice_from_end (head body : list ascii) (sep : ascii) :
  Viewer.slice_from (head ++ sep :: body)
                    (Z.of_nat (List.length head) + 1 + Z.of_nat (List.length body))
  = [].
Proof.
  unfold Viewer.slice_from, Viewer.bound.
  rewrite length_app. cbn [List.length].
  assert (H : (Z.of_nat (List.length head) + 1
               + Z.of_nat (List.length body) <? 0) = false)
    by (apply Z.ltb_ge; lia).
  rewrite H. apply skipn_all2. rewrite length_app. cbn [List.length]. lia.
Qed.

Lemma process_buffer_step (fuel : nat) (buffer : list ascii) :
  Viewer.process_buffer (S fuel) buffer
  = match Viewer.find "|" buffer with
    | None => ([], buffer, Viewer.Waiting)
    | Some separator_index =>
        let size_str := firstn separator_index buffer in
        let parsed := match Py.decode_utf8 size_str with
                      | Some text => Py.int text
                      | None => None
                      end in
        match parsed with
        | None => Viewer.process_buffer fuel (skipn (S separator_index) buffer)
        | Some size =>
            let message_start := Z.of_nat separator_index + 1 in
            let message_end := message_start + size in
            if Z.of_nat (List.length buffer) >=? message_end then
              match Py.decode_utf8 (Viewer.slice buffer message_start message_end) with
              | None => ([], buffer, Viewer.Raised)
              | Some message =>
                  let '(messages, rest, status) :=
                    Viewer.process_buffer fuel (Viewer.slice_from buffer message_end) in
                  (message :: messages, rest, status)
              end
            else ([], buffer, Viewer.Waiting)
        end
    end.
Proof. reflexivity. Qed.

(** A buffer that holds exactly one frame yields its text and is used up. *)
Lemma process_buffer_frame (fuel : nat) (text : string) :
  Spec.isascii text = true ->
  Viewer.process_buffer
    (S (S fuel))
    (list_ascii_of_string (Py.str (Py.len text)) ++ "|"%char :: list_ascii_of_string text)
  = ([text], [], Viewer.Waiting).
Proof.
  intros Hascii.
  assert (Hlen : 0 <= Py.len text) by (unfold Py.len; lia).
  pose proof (str_digits _ Hlen) as Hdigits.
  rewrite process_buffer_step.
  rewrite (find_after_digits _ _ Hdigits).
  cbv zeta.
  rewrite <- (bytes_length (Py.str (Py.len text))) at 1.
  rewrite firstn_prefix.
  rewrite (decode_ascii _ (digits_isascii _ Hdigits)), (int_str _ Hlen).
  rewrite <- (bytes_length (Py.str (Py.len text))).
  assert (Hsize : Py.len text = Z.of_nat (List.length (list_ascii_of_string text)))
    by (rewrite bytes_length; reflexivity).
  set (digits := list_ascii_of_string (Py.str (Py.len text))).
  rewrite Hsize.
  rewrite slice_body, slice_from_end, (decode_ascii text Hascii).
  assert (Hge : (Z.of_nat (List.length (digits ++ "|"%char :: list_ascii_of_string text))
                 >=? Z.of_nat (List.length digits)
                     + 1 + Z.of_nat (List.length (list_ascii_of_string text))) = true).
  { rewrite Z.geb_leb. apply Z.leb_le. rewrite length_app. cbn [List.length]. lia. }
  rewrite Hge. reflexivity.
Qed.

(** ** Framing of a broadcast packet *)

Lemma frame_message_bytes (json_dumps : Packet.t -> string) (packet : Packet.t) :
  Spec.isascii (json_dumps packet) = true ->
  SecurityRadarServer.frame_message json_dumps packet
  = list_ascii_of_string (Py.str (Py.len (json_dumps packet)))
    ++ "|"%char :: list_ascii_of_string (json_dumps packet).
Proof.
  intros Hascii. unfold SecurityRadarServer.frame_message. cbv zeta.
  assert (Hlen : 0 <= Py.len (json_dumps packet)) by (unfold Py.len; lia).
  rewrite encode_ascii.
  - rewrite bytes_app. reflexivity.
  - rewrite isascii_app, (digits_isascii _ (str_digits _ Hlen)). simpl.
    exact Hascii.
Qed.

(** C4. When the JSON document of a packet is ASCII text, as
    [json.dumps] produces it, the wire message is the decimal length of the
    document, the byte '|', and then exactly that many bytes, the bytes of
    the document.  The receive loop of a viewer cuts that message back into
    the text of the document and an empty buffer, and parsing the text with
    a decoder that inverts the encoder on this packet gives the packet
    back. *)
Theorem broadcast_frame_roundtrip :
  forall (json_dumps : Packet.t -> string) (json_loads : string -> option Packet.t)
         (packet : Packet.t) (fuel : nat),
    Spec.isascii (json_dumps packet) = true ->
    json_loads (json_dumps packet) = Some packet ->
    (2 <= fuel)%nat ->
    let json_data := json_dumps packet in
    let body := Py.encode_utf8 json_data in
    let message := SecurityRadarServer.frame_message json_dumps packet in
    message = Py.encode_utf8 (Py.str (Z.of_nat (List.length body))) ++ "|"%char :: body
    /\ Py.decode_utf8 body = Some json_data
    /\ Viewer.process_buffer fuel message = ([json_data], [], Viewer.Waiting)
    /\ map (Viewer.process_frame json_loads)
           (fst (fst (Viewer.process_buffer fuel message)))
       = [Some packet].
Proof.
  intros json_dumps json_loads packet fuel Hascii Hloads Hfuel json_data body message.
  assert (Hlen : 0 <= Py.len json_data) by (unfold Py.len; lia).
  assert (Hbody : body = list_ascii_of_string json_data)
    by (apply encode_ascii, Hascii).
  assert (Hrun : Viewer.process_buffer fuel message = ([json_data], [], Viewer.Waiting)).
  { destruct fuel as [|[|fuel]]; [lia | lia |].
    subst message. rewrite (frame_message_bytes json_dumps packet Hascii).
    apply process_buffer_frame, Hascii. }
  split.
  - subst message. rewrite (frame_message_bytes json_dumps packet Hascii).
    rewrite Hbody, bytes_length.
    change (Z.of_nat (String.length json_data)) with (Py.len json_data).
    rewrite (encode_ascii _ (digits_isascii _ (str_digits _ Hlen))). reflexivity.
  - split; [rewrite Hbody; apply decode_ascii, Hascii|].
    split; [exact Hrun|].
    rewrite Hrun. simpl. unfold Viewer.process_frame. subst json_data.
    rewrite Hloads. reflexivity.
Qed.

Lemma broadcast_frame_roundtrip_witness :
  map (Viewer.process_frame Demo.json_loads)
      (fst (fst (Viewer.process_buffer
                   2 (SecurityRadarServer.frame_message Demo.json_dumps Demo.packet))))
  = [Some Demo.packet].
Proof.
  apply (broadcast_frame_roundtrip Demo.json_dumps Demo.json_loads Demo.packet 2).
  - vm_compute. reflexivity.
  - vm_compute. reflexivity.
  - lia.
Defined.

(** The length in the frame counts characters: a document with a character
    outside ASCII would be announced shorter than its bytes. *)
Example frame_length_counts_characters :
  Py.len (String (ascii_of_N 233) EmptyString) = 1
  /\ List.length (Py.encode_utf8 (String (ascii_of_N 233) EmptyString)) = 2%nat
  /\ Py.decode_utf8 (Py.encode_utf8 (String (ascii_of_N 233) EmptyString))
     = Some (String (ascii_of_N 233) EmptyString).
Proof. vm_compute. repeat split. Qed.

(** ** The capture rate *)

Lemma clamp_fps (fps : Z) : Spec.fps_in_range (Z.max 1 (Z.min 30 fps)).
Proof. unfold Spec.fps_in_range. lia. Qed.

Lemma radar_init_fps : Spec.fps_in_range (SecurityRadarServer.capture_fps SecurityRadarServer.init).
Proof. vm_compute. split; discriminate. Qed.

(** [SET_FPS:<n>] on the server of [server1.py]: the rate is the clamped
    argument and the reply names it. *)
Lemma radar_set_fps (s : SecurityRadarServer.t) (c : ClientInfo.t)
      (command : string) (now : Q) (fps : Z) :
  Py.startswith command "SET_FPS:" = true ->
  SecurityRadarServer.int_argument command = Some fps ->
  SecurityRadarServer._process_command s c command now
  = (SecurityRadarServer.set_capture_fps (Z.max 1 (Z.min 30 fps)) s, c,
     [Py.encode_utf8 ("FPS_SET:" ++ Py.str (Z.max 1 (Z.min 30 fps)))%string]).
Proof.
  intros Hverb Harg. apply startswith_app in Hverb. destruct Hverb as [r ->].
  unfold SecurityRadarServer._process_command.
  settle_test. rewrite startswith_self, Harg. reflexivity.
Qed.

Lemma radar_process_command_fps (s : SecurityRadarServer.t) (c : ClientInfo.t)
      (command : string) (now : Q) :
  Spec.fps_in_range (SecurityRadarServer.capture_fps s) ->
  Spec.fps_in_range (SecurityRadarServer.capture_fps
                  (fst (fst (SecurityRadarServer._process_command s c command now)))).
Proof.
  intros H. unfold SecurityRadarServer._process_command.
  repeat match goal with
         | |- context [if ?b then _ else _] => destruct b
         | |- context [match ?o with Some _ => _ | None => _ end] => destruct o
         end; simpl; try exact H; apply clamp_fps.
Qed.

Lemma radar_cli_fps (s : SecurityRadarServer.t) (cmd line : string) :
  Spec.fps_in_range (SecurityRadarServer.capture_fps s) ->
  Spec.fps_in_range (SecurityRadarServer.capture_fps (fst (ServerCLI.handle_command s cmd line))).
Proof.
  intros H. unfold ServerCLI.handle_command. cbv zeta.
  repeat match goal with
         | |- context [if ?b then _ else _] => destruct b
         | |- context [match ?o with Some _ => _ | None => _ end] => destruct o
         end; simpl; try exact H; apply clamp_fps.
Qed.

Lemma capture_process_command_fps (s : ScreenCaptureServer.t) (command : string) :
  Spec.fps_in_range (ScreenCaptureServer.capture_fps s) ->
  Spec.fps_in_range (ScreenCaptureServer.capture_fps
                  (fst (ScreenCaptureServer._process_command s command))).
Proof.
  intros H. unfold ScreenCaptureServer._process_command.
  repeat match goal with
         | |- context [if ?b then _ else _] => destruct b
         | |- context [match ?o with Some _ => _ | None => _ end] => destruct o
         end; simpl; try exact H; apply clamp_fps.
Qed.

Lemma capture_cli_fps (s : ScreenCaptureServer.t) (cmd line : string) :
  Spec.fps_in_range (ScreenCaptureServer.capture_fps s) ->
  Spec.fps_in_range (ScreenCaptureServer.capture_fps
                  (fst (ScreenCaptureServer.handle_command s cmd line))).
Proof.
  intros H. unfold ScreenCaptureServer.handle_command. cbv zeta.
  repeat match goal with
         | |- context [if ?b then _ else _] => destruct b
         | |- context [match ?o with Some _ => _ | None => _ end] => destruct o
         end; simpl; try exact H; apply clamp_fps.
Qed.

(** The scenario of the specification, on both servers. *)
Example set_fps_100 :
  SecurityRadarServer._process_command
    SecurityRadarServer.init Demo.healthy "SET_FPS:100" 1000
  = (SecurityRadarServer.set_capture_fps 30 SecurityRadarServer.init, Demo.healthy,
     [Py.encode_utf8 "FPS_SET:30"])
  /\ ScreenCaptureServer._process_command ScreenCaptureServer.init "SET_FPS:100"
     = (ScreenCaptureServer.set_capture_fps 30 ScreenCaptureServer.init,
        [Py.encode_utf8 "FPS_SET:30"]).
Proof. split; reflexivity. Qed.

(** C2. The capture rate of the server of [server.py] is 60 when the
    server is created, which is outside [1, 30]; it stays there until the
    first [SET_FPS] or operator [fps] command, neither of which can ever
    store 60 again. *)
Theorem screen_capture_server_starts_above_30 :
  ScreenCaptureServer.capture_fps ScreenCaptureServer.init = 60
  /\ ~ Spec.fps_in_range (ScreenCaptureServer.capture_fps ScreenCaptureServer.init)
  /\ ScreenCaptureServer.capture_fps
       (fst (ScreenCaptureServer._process_command ScreenCaptureServer.init "PING")) = 60
  /\ ScreenCaptureServer.capture_fps
       (fst (ScreenCaptureServer._process_command ScreenCaptureServer.init "SET_FPS:60"))
     = 30.
Proof.
  split; [reflexivity|]. split.
  - intros [_ H]. vm_compute in H. apply H. reflexivity.
  - split; reflexivity.
Qed.

(** ** Zones during a capture tick *)

(** The active zone is the first flagged zone in iteration order. *)
Lemma first_flagged_found (before after : list (Z * MonitoringZone.t))
      (k : Z) (zone : MonitoringZone.t) :
  Forall (fun kz => MonitoringZone.motion_detected (snd kz) = false) before ->
  MonitoringZone.motion_detected zone = true ->
  SecurityRadarServer.first_flagged (before ++ (k, zone) :: after)
  = MonitoringZone.name zone.
Proof.
  intros Hbefore Hzone. induction Hbefore as [|[k' z'] before Hz' _ IH]; simpl.
  - rewrite Hzone. reflexivity.
  - simpl in Hz'. rewrite Hz'. exact IH.
Qed.

Lemma first_flagged_none (zs : list (Z * MonitoringZone.t)) :
  Forall (fun kz => MonitoringZone.motion_detected (snd kz) = false) zs ->
  SecurityRadarServer.first_flagged zs = "Unknown"%string.
Proof.
  intros H. induction H as [|[k z] zs Hz _ IH]; simpl; [reflexivity|].
  simpl in Hz. rewrite Hz. exact IH.
Qed.

Section TickZones.

Variable json_dumps : Packet.t -> string.
Variable resize : PIL.Image -> Z * Z -> PIL.Image.
Variable jpeg_save : PIL.Image -> Z -> list ascii.
Variable b64encode : list ascii -> string.

Lemma process_motion_event_zones (s : SecurityRadarServer.t) (p : Q) :
  SecurityRadarServer.zones (SecurityRadarServer._process_motion_event s p)
  = SecurityRadarServer.zones s.
Proof.
  unfold SecurityRadarServer._process_motion_event.
  destruct (Py.Qgtb p 20); [reflexivity|]. destruct (Py.Qgtb p 10); reflexivity.
Qed.

(** A capture tick never writes to a zone, and the zone it reports is read
    from the flags the zones had before the tick. *)
Lemma capture_tick_zones (s : SecurityRadarServer.t) (screenshot : PIL.Image)
      (now : Q) (send : nat -> SendResult) :
  let result :=
    SecurityRadarServer.capture_tick json_dumps resize jpeg_save b64encode
                                     s screenshot now send in
  SecurityRadarServer.zones (fst (fst result)) = SecurityRadarServer.zones s
  /\ Packet.zone (snd (fst result))
     = SecurityRadarServer.first_flagged (SecurityRadarServer.zones s).
Proof.
  unfold SecurityRadarServer.capture_tick. cbv zeta.
  set (img := if PIL.width screenshot >? ServerConfig.MAX_WIDTH then _ else screenshot).
  destruct (SecurityRadarServer.motion_enabled s).
  - destruct (MotionDetector.detect_motion
                (SecurityRadarServer.motion_detector s) img) as [d [md mp]].
    destruct md; rewrite broadcast_packet_spec; simpl;
      unfold SecurityRadarServer._get_active_zone;
      rewrite ?process_motion_event_zones; split; reflexivity.
  - rewrite broadcast_packet_spec. simpl. split; reflexivity.
Qed.

End TickZones.

(** C1. On the server of [server1.py], warmed up on a black screen, a
    tick on a white screen detects motion with a percentage of 100, far
    above the threshold of every zone; yet after the tick no zone has its
    flag set or an entry in its history, and the packet names the zone
    "Unknown".  Updating every enabled zone from that percentage, as the
    specification describes, would flag all four zones and name "Entry
    Point". *)
Theorem capture_tick_never_flags_a_zone :
  let result :=
    SecurityRadarServer.capture_tick
      Demo.json_dumps Demo.resize Demo.jpeg_save Demo.b64encode
      Demo.warmed_up Demo.white 1001 Demo.send in
  let packet := snd (fst result) in
  Packet.motion_detected packet = true
  /\ (Packet.motion_percentage packet == 100)%Q
  /\ Packet.threat_level packet = 3
  /\ Packet.zone packet = "Unknown"%string
  /\ SecurityRadarServer.zones (fst (fst result)) = SecurityRadarServer.default_zones
  /\ map (fun kz => (MonitoringZone.motion_detected (snd kz),
                     MonitoringZone.motion_history (snd kz)))
         (SecurityRadarServer.zones (fst (fst result)))
     = [(false, []); (false, []); (false, []); (false, [])]
  /\ map (fun kz => (MonitoringZone.motion_detected (snd kz),
                     MonitoringZone.motion_history (snd kz)))
         (Spec.update_zones 100 SecurityRadarServer.default_zones)
     = [(true, [true]); (true, [true]); (true, [true]); (true, [true])]
  /\ SecurityRadarServer.first_flagged
       (Spec.update_zones 100 SecurityRadarServer.default_zones)
     = "Entry Point"%string.
Proof.
  vm_compute. repeat split; reflexivity.
Qed.

(* ================================================================== *)
(** * Further properties of the code *)
(* ================================================================== *)

(** ** Bounded histories *)

Lemma deque_append_length {A : Type} (maxlen : nat) (d : list A) (x : A) :
  List.length (Py.deque_append maxlen d x) = Nat.min (List.length d + 1) maxlen.
Proof.
  unfold Py.deque_append. rewrite length_skipn, length_app. simpl. lia.
Qed.

Lemma deque_append_newest {A : Type} (maxlen : nat) (d : list A) (x : A) :
  (1 <= maxlen)%nat ->
  Py.deque_append maxlen d x = skipn (List.length d + 1 - maxlen) d ++ [x].
Proof.
  intros H. unfold Py.deque_append. rewrite length_app. simpl List.length.
  rewrite skipn_app.
  replace (List.length d + 1 - maxlen - List.length d)%nat with O by lia.
  reflexivity.
Qed.

(** X1. [check_motion] keeps at most the ten newest verdicts of a zone:
    the new history is the old one without what exceeds nine entries,
    followed by the verdict just returned, which is also the zone's flag.
    The verdict compares the percentage with the threshold of the zone and
    does not look at whether the zone is enabled; the cooldown time, the
    sensitivity and the enabled flag are left as they were. *)
Theorem check_motion_keeps_ten_verdicts :
  forall (z : MonitoringZone.t) (p : Q),
    let z' := fst (MonitoringZone.check_motion z p) in
    let flag := snd (MonitoringZone.check_motion z p) in
    MonitoringZone.motion_history z'
    = skipn (List.length (MonitoringZone.motion_history z) + 1 - 10)
            (MonitoringZone.motion_history z) ++ [flag]
    /\ (List.length (MonitoringZone.motion_history z') <= 10)%nat
    /\ MonitoringZone.motion_detected z' = flag
    /\ (flag = true <->
        (Spec.effective_threshold (MonitoringZone.sensitivity z) < p)%Q)
    /\ MonitoringZone.enabled z' = MonitoringZone.enabled z
    /\ MonitoringZone.sensitivity z' = MonitoringZone.sensitivity z
    /\ MonitoringZone.last_alert_time z' = MonitoringZone.last_alert_time z.
Proof.
  intros z p z' flag. subst z' flag. simpl.
  split; [apply deque_append_newest; lia|].
  split; [rewrite deque_append_length; lia|].
  split; [reflexivity|].
  split; [apply Qgtb_true|]. repeat split.
Qed.

Lemma detect_motion_history (d : MotionDetector.t) (img : PIL.Image) :
  let d' := fst (MotionDetector.detect_motion d img) in
  MotionDetector.sensitivity d' = MotionDetector.sensitivity d
  /\ MotionDetector.enabled d' = MotionDetector.enabled d
  /\ (MotionDetector.detection_history d' = MotionDetector.detection_history d
      \/ MotionDetector.detection_history d'
         = Py.deque_append 30 (MotionDetector.detection_history d)
                           (fst (snd (MotionDetector.detect_motion d img)))).
Proof.
  unfold MotionDetector.detect_motion.
  destruct (negb (MotionDetector.enabled d)); [simpl; auto|].
  destruct (MotionDetector.previous_frame d) as [previous|]; [|simpl; auto].
  destruct (MotionDetector.diff_percentage (PIL.convert_L img) previous);
    simpl; auto.
Qed.

(** X2. Over any sequence of frames the detector keeps at most thirty
    verdicts, and neither its sensitivity nor its enabled flag changes. *)
Theorem detector_keeps_thirty_verdicts :
  forall (frames : list PIL.Image) (d : MotionDetector.t),
    (List.length (MotionDetector.detection_history d) <= 30)%nat ->
    let d' := fold_left (fun acc img => fst (MotionDetector.detect_motion acc img))
                        frames d in
    (List.length (MotionDetector.detection_history d') <= 30)%nat
    /\ (List.length (MotionDetector.detection_history d')
        <= List.length (MotionDetector.detection_history d) + List.length frames)%nat
    /\ MotionDetector.sensitivity d' = MotionDetector.sensitivity d
    /\ MotionDetector.enabled d' = MotionDetector.enabled d.
Proof.
  induction frames as [|img frames IH]; intros d Hd; simpl.
  - repeat split; lia.
  - destruct (detect_motion_history d img) as (Hs & He & Hh).
    set (d1 := fst (MotionDetector.detect_motion d img)) in *.
    assert (Hlen : (List.length (MotionDetector.detection_history d1) <= 30
                    /\ List.length (MotionDetector.detection_history d1)
                       <= List.length (MotionDetector.detection_history d) + 1)%nat).
    { destruct Hh as [Hh | Hh]; rewrite Hh; [lia|].
      rewrite deque_append_length. lia. }
    destruct (IH d1 (proj1 Hlen)) as (H1 & H2 & H3 & H4).
    repeat split; [exact H1 | lia | congruence | congruence].
Qed.

Lemma detector_keeps_thirty_verdicts_witness :
  (List.length
     (MotionDetector.detection_history
        (fold_left (fun acc img => fst (MotionDetector.detect_motion acc img))
                   [Demo.white; Demo.black; Demo.white] Demo.busy_detector))
   <= 30)%nat.
Proof.
  apply (detector_keeps_thirty_verdicts
           [Demo.white; Demo.black; Demo.white] Demo.busy_detector).
  simpl. lia.
Defined.

(** ** The motion percentage *)

Lemma difference_row_sym (r1 r2 : list Z) :
  map (fun p : Z * Z => Z.abs (fst p - snd p)) (combine r1 r2)
  = map (fun p : Z * Z => Z.abs (fst p - snd p)) (combine r2 r1).
Proof.
  revert r2. induction r1 as [|v r1 IH]; intros [|w r2]; simpl; try reflexivity.
  rewrite IH. f_equal. lia.
Qed.

Lemma difference_sym (a b : PIL.Gray) : PIL.difference a b = PIL.difference b a.
Proof.
  unfold PIL.difference. revert b.
  induction a as [|r1 a IH]; intros [|r2 b]; simpl; try reflexivity.
  rewrite IH, difference_row_sym. reflexivity.
Qed.

(** X3. The motion percentage does not depend on the order of the two
    frames: a detector that holds frame [A] and is shown [B] returns the
    verdict and the percentage that a detector of the same sensitivity
    holding [B] returns when shown [A]. *)
Theorem motion_percentage_symmetric :
  forall (A B : PIL.Image) (d1 d2 : MotionDetector.t),
    MotionDetector.enabled d1 = true ->
    MotionDetector.enabled d2 = true ->
    MotionDetector.sensitivity d1 = MotionDetector.sensitivity d2 ->
    MotionDetector.previous_frame d1 = Some (PIL.convert_L A) ->
    MotionDetector.previous_frame d2 = Some (PIL.convert_L B) ->
    MotionDetector.diff_percentage (PIL.convert_L B) (PIL.convert_L A)
    = MotionDetector.diff_percentage (PIL.convert_L A) (PIL.convert_L B)
    /\ snd (MotionDetector.detect_motion d1 B) = snd (MotionDetector.detect_motion d2 A).
Proof.
  intros A B d1 d2 E1 E2 Hs P1 P2.
  assert (Hsym : MotionDetector.diff_percentage (PIL.convert_L B) (PIL.convert_L A)
                 = MotionDetector.diff_percentage (PIL.convert_L A) (PIL.convert_L B))
    by (unfold MotionDetector.diff_percentage; rewrite difference_sym; reflexivity).
  split; [exact Hsym|].
  unfold MotionDetector.detect_motion. rewrite E1, E2, P1, P2, Hsym. simpl.
  destruct (MotionDetector.diff_percentage (PIL.convert_L A) (PIL.convert_L B));
    [|reflexivity].
  simpl. rewrite Hs. reflexivity.
Qed.

Lemma motion_percentage_symmetric_witness :
  snd (MotionDetector.detect_motion
         (fst (MotionDetector.detect_motion MotionDetector.init Demo.black)) Demo.white)
  = snd (MotionDetector.detect_motion
           (fst (MotionDetector.detect_motion MotionDetector.init Demo.white)) Demo.black).
Proof.
  apply (motion_percentage_symmetric Demo.black Demo.white
           (fst (MotionDetector.detect_motion MotionDetector.init Demo.black))
           (fst (MotionDetector.detect_motion MotionDetector.init Demo.white)));
    reflexivity.
Defined.

Lemma luma_bytes (p : Z * Z * Z) :
  Spec.byte_range (fst (fst p)) -> Spec.byte_range (snd (fst p)) ->
  Spec.byte_range (snd p) -> Spec.byte_range (PIL.luma p).
Proof.
  destruct p as [[r g] b]. unfold Spec.byte_range, PIL.luma. cbn [fst snd].
  intros Hr Hg Hb. rewrite Z.shiftr_div_pow2 by lia.
  change (2 ^ 16) with 65536. split.
  - apply Z.div_pos; lia.
  - assert (H : (r * 19595 + g * 38470 + b * 7471 + 32768) / 65536 < 256)
      by (apply Z.div_lt_upper_bound; lia).
    lia.
Qed.

Lemma convert_L_bytes (img : PIL.Image) :
  Spec.rgb_bytes img -> Spec.gray_bytes (PIL.convert_L img).
Proof.
  unfold Spec.rgb_bytes, Spec.gray_bytes, PIL.convert_L. intros H.
  induction H as [|row img Hrow _ IH]; simpl; constructor; [|exact IH].
  induction Hrow as [|p row (Hr & Hg & Hb) _ IHrow]; simpl; constructor;
    [apply luma_bytes; assumption | exact IHrow].
Qed.

Lemma difference_row_bounds (r1 r2 : list Z) :
  Forall Spec.byte_range r1 -> Forall Spec.byte_range r2 ->
  0 <= fold_right Z.add 0
         (map (fun p : Z * Z => Z.abs (fst p - snd p)) (combine r1 r2))
    <= 255 * Z.of_nat (List.length
                         (map (fun p : Z * Z => Z.abs (fst p - snd p)) (combine r1 r2))).
Proof.
  intros H1. revert r2. induction H1 as [|v r1 Hv _ IH]; intros r2 H2;
    [cbn; lia|].
  destruct H2 as [|w r2 Hw H2]; [cbn; lia|].
  specialize (IH r2 H2). unfold Spec.byte_range in *.
  cbn [combine map fold_right List.length fst snd]. rewrite Nat2Z.inj_succ. lia.
Qed.

Lemma difference_bounds (a b : PIL.Gray) :
  Spec.gray_bytes a -> Spec.gray_bytes b ->
  0 <= PIL.pixel_sum (PIL.difference a b)
    <= 255 * PIL.pixel_count (PIL.difference a b).
Proof.
  unfold Spec.gray_bytes, PIL.pixel_sum, PIL.pixel_count, PIL.difference.
  intros Ha. revert b. induction Ha as [|r1 a Hr1 _ IH]; intros b Hb;
    [cbn; lia|].
  destruct Hb as [|r2 b Hr2 Hb]; [cbn; lia|].
  specialize (IH b Hb). pose proof (difference_row_bounds r1 r2 Hr1 Hr2).
  cbn [combine map fold_right fst snd]. lia.
Qed.

Lemma diff_percentage_range (a b : PIL.Gray) (p : Q) :
  Spec.gray_bytes a -> Spec.gray_bytes b ->
  MotionDetector.diff_percentage a b = Some p -> (0 <= p <= 100)%Q.
Proof.
  intros Ha Hb. unfold MotionDetector.diff_percentage, PIL.stat_mean.
  pose proof (difference_bounds a b Ha Hb) as Hsum.
  set (total := PIL.pixel_sum (PIL.difference a b)) in *.
  set (count := PIL.pixel_count (PIL.difference a b)) in *.
  destruct (count =? 0) eqn:Hc; [discriminate|].
  apply Z.eqb_neq in Hc. cbn [List.length fold_right Nat.eqb Z.of_nat Pos.of_succ_nat].
  intros H. injection H as <-.
  assert (Hpos : (0 < inject_Z count)%Q).
  { change 0%Q with (inject_Z 0). rewrite <- Zlt_Qlt. lia. }
  assert (Hmean : (0 <= inject_Z total / inject_Z count
                   /\ inject_Z total / inject_Z count <= 255)%Q).
  { split.
    - apply Qle_shift_div_l; [exact Hpos|].
      rewrite Qmult_0_l. change 0%Q with (inject_Z 0). rewrite <- Zle_Qle. lia.
    - apply Qle_shift_div_r; [exact Hpos|].
      change 255%Q with (inject_Z 255). rewrite <- inject_Z_mult, <- Zle_Qle. lia. }
  set (m1 := Py.fdiv (inject_Z total) (inject_Z count)).
  assert (B1 : (0 <= m1 <= inject_Z 255)%Q)
    by (apply round64_between; [exact Hmean | lia]).
  set (m2 := Py.fdiv (m1 + 0) (inject_Z 1)).
  assert (B2 : (0 <= m2 <= inject_Z 255)%Q).
  { apply round64_between; [|lia].
    assert (E : ((m1 + 0) / inject_Z 1 == m1)%Q)
      by (change (inject_Z 1) with 1%Q; field).
    rewrite E. exact B1. }
  set (m3 := Py.fdiv m2 255).
  assert (B3 : (0 <= m3 <= inject_Z 1)%Q).
  { apply round64_between; [|lia].
    destruct B2 as [L U]. change (inject_Z 255) with 255%Q in U.
    change (inject_Z 1) with 1%Q.
    assert (E : (m2 / 255 == m2 * (1 # 255))%Q) by field.
    rewrite E. split; lra. }
  apply (round64_between _ 100); [|lia].
  destruct B3 as [L U]. change (inject_Z 1) with 1%Q in U.
  change (inject_Z 100) with 100%Q. split; lra.
Qed.

(** X4. For screenshots whose colour channels are bytes, the percentage
    that [detect_motion] returns lies between 0 and 100, and so does the
    percentage the detector stores; the stored frame stays an image of
    bytes, so this holds for every later frame as well. *)
Theorem motion_percentage_between_0_and_100 :
  forall (d : MotionDetector.t) (img : PIL.Image),
    Spec.detector_of_bytes d ->
    Spec.rgb_bytes img ->
    let result := MotionDetector.detect_motion d img in
    (0 <= snd (snd result) <= 100)%Q
    /\ Spec.detector_of_bytes (fst result).
Proof.
  intros d img [Hprev Hpct] Himg result. subst result.
  pose proof (convert_L_bytes img Himg) as Hgray.
  unfold MotionDetector.detect_motion.
  destruct (negb (MotionDetector.enabled d)).
  { simpl. split; [split; lra | split; assumption]. }
  destruct (MotionDetector.previous_frame d) as [previous|] eqn:Hp.
  - destruct (MotionDetector.diff_percentage (PIL.convert_L img) previous) as [p|] eqn:Hd.
    + pose proof (diff_percentage_range _ _ p Hgray (Hprev previous eq_refl) Hd) as Hr.
      simpl. split; [exact Hr|]. split; simpl; [|exact Hr].
      intros g Hg. injection Hg as <-. exact Hgray.
    + simpl. split; [split; lra|]. split; [|exact Hpct].
      intros g Hg. rewrite Hp in Hg. apply Hprev. congruence.
  - simpl. split; [split; lra|]. split; simpl; [|exact Hpct].
    intros g Hg. injection Hg as <-. exact Hgray.
Qed.

Lemma motion_percentage_between_0_and_100_witness :
  (0 <= snd (snd (MotionDetector.detect_motion
                    (fst (MotionDetector.detect_motion MotionDetector.init Demo.black))
                    Demo.white)) <= 100)%Q.
Proof.
  apply (motion_percentage_between_0_and_100
           (fst (MotionDetector.detect_motion MotionDetector.init Demo.black))
           Demo.white).
  - split.
    + intros previous H. injection H as <-.
      repeat constructor; vm_compute; discriminate.
    + vm_compute. split; discriminate.
  - repeat constructor; vm_compute; discriminate.
Defined.

(** X5. After [reset] the next frame is a cold start whatever it shows:
    an enabled detector reports no motion and a percentage of zero, stores
    the frame, and records no verdict.  The reset itself clears the stored
    frame, the flag and the percentage, and keeps the sensitivity and the
    history of verdicts. *)
Theorem reset_forces_cold_start :
  forall (d : MotionDetector.t) (img : PIL.Image),
    MotionDetector.enabled d = true ->
    let result := MotionDetector.detect_motion (MotionDetector.reset d) img in
    snd result = (false, 0%Q)
    /\ MotionDetector.previous_frame (fst result) = Some (PIL.convert_L img)
    /\ MotionDetector.motion_detected (fst result) = false
    /\ MotionDetector.detection_history (fst result) = MotionDetector.detection_history d
    /\ MotionDetector.sensitivity (fst result) = MotionDetector.sensitivity d
    /\ MotionDetector.detection_history (MotionDetector.reset d)
       = MotionDetector.detection_history d.
Proof.
  intros d img He result. subst result.
  unfold MotionDetector.detect_motion, MotionDetector.reset. simpl.
  rewrite He. simpl. repeat split.
Qed.

Lemma reset_forces_cold_start_witness :
  snd (MotionDetector.detect_motion (MotionDetector.reset Demo.busy_detector) Demo.white)
  = (false, 0%Q).
Proof.
  apply (reset_forces_cold_start Demo.busy_detector Demo.white). reflexivity.
Defined.

(** ** The threat level of a motion event *)

Lemma process_motion_event_cases (s : SecurityRadarServer.t) (p : Q) :
  ((20 < p)%Q /\ SecurityRadarServer._process_motion_event s p
                 = SecurityRadarServer.set_threat_level 3 s)
  \/ ((10 < p)%Q /\ (p <= 20)%Q
      /\ SecurityRadarServer._process_motion_event s p
         = SecurityRadarServer.set_threat_level 2 s)
  \/ ((p <= 10)%Q /\ SecurityRadarServer._process_motion_event s p
                     = SecurityRadarServer.set_threat_level 1 s).
Proof.
  unfold SecurityRadarServer._process_motion_event.
  destruct (Py.Qgtb p 20) eqn:E20.
  - left. apply Qgtb_true in E20. auto.
  - apply Qgtb_false in E20. destruct (Py.Qgtb p 10) eqn:E10.
    + right. left. apply Qgtb_true in E10. auto.
    + right. right. apply Qgtb_false in E10. auto.
Qed.

(** X6. A motion event overwrites the threat level with a value that
    depends on the percentage alone, 1 up to 10 percent, 2 above 10 and up
    to 20, 3 above 20, so a weak event lowers a high level; the value is
    monotone in the percentage. *)
Theorem motion_event_level_depends_on_percentage :
  forall (s1 s2 : SecurityRadarServer.t) (p q : Q),
    (p <= q)%Q ->
    SecurityRadarServer.threat_level (SecurityRadarServer._process_motion_event s1 p)
    <= SecurityRadarServer.threat_level (SecurityRadarServer._process_motion_event s2 q)
    /\ (SecurityRadarServer.threat_level (SecurityRadarServer._process_motion_event s1 p) = 3
        <-> (20 < p)%Q)
    /\ (SecurityRadarServer.threat_level (SecurityRadarServer._process_motion_event s1 p) = 1
        <-> (p <= 10)%Q).
Proof.
  intros s1 s2 p q Hpq.
  destruct (process_motion_event_cases s1 p) as [(A & ->) | [(A & A' & ->) | (A & ->)]];
    destruct (process_motion_event_cases s2 q) as [(B & ->) | [(B & B' & ->) | (B & ->)]];
    simpl; (split; [try lia; exfalso; lra|]);
    split; split; intros H; try discriminate; try reflexivity; try assumption;
    exfalso; lra.
Qed.

Lemma motion_event_level_depends_on_percentage_witness :
  SecurityRadarServer.threat_level
    (SecurityRadarServer._process_motion_event Demo.subsiding 4)
  <= SecurityRadarServer.threat_level
       (SecurityRadarServer._process_motion_event SecurityRadarServer.init 15).
Proof.
  refine (proj1 (motion_event_level_depends_on_percentage
                   Demo.subsiding SecurityRadarServer.init 4 15 _)).
  vm_compute. discriminate.
Defined.

(** ** Arguments of commands *)

Lemma string_app_nil (a : string) : (a ++ EmptyString)%string = a.
Proof. induction a as [|c a IH]; simpl; [reflexivity|]. rewrite IH. reflexivity. Qed.

Lemma string_app_shift (a : string) (c : ascii) (b : string) :
  ((a ++ String c EmptyString) ++ b)%string = (a ++ String c b)%string.
Proof. induction a as [|d a IH]; simpl; [reflexivity|]. rewrite IH. reflexivity. Qed.

Lemma split_aux_first (cur t : string) :
  exists tail : list string,
    Py.split_aux ":" cur t = (cur ++ Spec.until_colon t)%string :: tail.
Proof.
  revert cur. induction t as [|c r IH]; intros cur; simpl.
  - exists []. rewrite string_app_nil. reflexivity.
  - destruct (Ascii.eqb c ":").
    + exists (Py.split_aux ":" EmptyString r). rewrite string_app_nil. reflexivity.
    + destruct (IH (cur ++ String c EmptyString)%string) as [tail ->].
      exists tail. rewrite string_app_shift. reflexivity.
Qed.

(** The argument of a command is the text between its first colon and
    its second one. *)
Lemma argument_of_verb (verb t : string) :
  In verb Spec.argument_verbs ->
  SecurityRadarServer.argument (verb ++ t) = Some (Spec.until_colon t).
Proof.
  intros Hv. unfold SecurityRadarServer.argument, Py.split.
  simpl in Hv.
  destruct Hv as [<- | [<- | [<- | [<- | [<- | []]]]]]; cbn [append Py.split_aux Ascii.eqb Bool.eqb];
    destruct (split_aux_first EmptyString t) as [tail ->]; reflexivity.
Qed.

Lemma digit_not_colon (c : ascii) : Py.is_digit c = true -> Ascii.eqb c ":" = false.
Proof.
  destruct c as [[|] [|] [|] [|] [|] [|] [|] [|]]; vm_compute; congruence.
Qed.

Lemma until_colon_digits (s : string) :
  Spec.all_digits s = true -> Spec.until_colon s = s.
Proof.
  induction s as [|c r IH]; simpl; [reflexivity|].
  intros H. apply andb_true_iff in H. destruct H as [Hc Hr].
  rewrite (digit_not_colon c Hc), (IH Hr). reflexivity.
Qed.

Lemma uint_digits (d : Decimal.uint) : Spec.all_digits (NilZero.string_of_uint d) = true.
Proof.
  destruct d; try reflexivity; apply (string_of_uint_digits (_ _)).
Qed.

Lemma uint_nonempty (d : Decimal.uint) : NilZero.string_of_uint d <> EmptyString.
Proof. destruct d; discriminate. Qed.

Lemma str_negative (p : positive) :
  Py.str (Z.neg p) = String "-" (NilZero.string_of_uint (Pos.to_uint p)).
Proof. reflexivity. Qed.

Lemma until_colon_str (n : Z) : Spec.until_colon (Py.str n) = Py.str n.
Proof.
  destruct n as [|p|p].
  - reflexivity.
  - apply until_colon_digits, str_digits. lia.
  - rewrite str_negative. simpl. rewrite until_colon_digits by apply uint_digits.
    reflexivity.
Qed.

(** [int(str(n)) == n] for every integer. *)
Lemma int_str_all (n : Z) : Py.int (Py.str n) = Some n.
Proof.
  destruct n as [|p|p]; [reflexivity | apply int_str; lia |].
  rewrite str_negative. unfold Py.int, Py.int_parse.
  set (digits := NilZero.string_of_uint (Pos.to_uint p)).
  assert (Hd : Spec.all_digits digits = true) by apply uint_digits.
  assert (Hne : digits <> EmptyString) by apply uint_nonempty.
  assert (Htext : Py.int_text (String "-" digits) = String "-" digits).
  { unfold Py.int_text. simpl. rewrite (digits_py_isascii digits Hd). reflexivity. }
  assert (Hstrip : Py.int_rstrip (Py.int_lstrip (String "-" digits))
                   = String "-" digits).
  { simpl. rewrite (int_rstrip_digits digits Hd).
    destruct digits; [contradiction | reflexivity]. }
  rewrite Htext, Hstrip. subst digits.
  rewrite int_unsigned_uint, DecimalPos.Unsigned.of_to. reflexivity.
Qed.

Lemma int_argument_str (verb : string) (n : Z) :
  In verb Spec.argument_verbs ->
  SecurityRadarServer.int_argument (verb ++ Py.str n) = Some n.
Proof.
  intros Hv. unfold SecurityRadarServer.int_argument.
  rewrite (argument_of_verb verb _ Hv), until_colon_str. apply int_str_all.
Qed.

(** X7. Every integer whose command fits into one read of 1024 bytes is
    accepted in its decimal form, negative ones included: [SET_FPS:<n>]
    stores [n] clamped into [1, 30] and replies
    [FPS_SET:] with the stored value, [SET_QUALITY:<n>] stores [n] clamped
    into [10, 100] and replies [QUALITY_SET:] with the stored value, and
    [SET_SENSITIVITY:<n>] stores [n] clamped into [1, 10] in the detector
    and replies nothing.  Nothing else changes. *)
Theorem set_commands_accept_every_integer :
  forall (s : SecurityRadarServer.t) (c : ClientInfo.t) (now : Q) (n : Z),
    Py.len ("SET_SENSITIVITY:" ++ Py.str n) <= 1024 ->
    SecurityRadarServer._process_command s c ("SET_FPS:" ++ Py.str n) now
    = (SecurityRadarServer.set_capture_fps (Z.max 1 (Z.min 30 n)) s, c,
       [Py.encode_utf8 ("FPS_SET:" ++ Py.str (Z.max 1 (Z.min 30 n)))%string])
    /\ SecurityRadarServer._process_command s c ("SET_QUALITY:" ++ Py.str n) now
       = (SecurityRadarServer.set_quality (Z.max 10 (Z.min 100 n)) s, c,
          [Py.encode_utf8 ("QUALITY_SET:" ++ Py.str (Z.max 10 (Z.min 100 n)))%string])
    /\ SecurityRadarServer._process_command s c ("SET_SENSITIVITY:" ++ Py.str n) now
       = (SecurityRadarServer.set_motion_detector
            (SecurityRadarServer.set_sensitivity
               (Z.max 1 (Z.min 10 n)) (SecurityRadarServer.motion_detector s)) s,
          c, []).
Proof.
  intros s c now n _.
  assert (Hfps : In "SET_FPS:"%string Spec.argument_verbs) by (simpl; auto).
  assert (Hq : In "SET_QUALITY:"%string Spec.argument_verbs) by (simpl; auto).
  assert (Hs : In "SET_SENSITIVITY:"%string Spec.argument_verbs) by (simpl; auto 6).
  pose proof (int_argument_str _ n Hfps) as A1.
  pose proof (int_argument_str _ n Hq) as A2.
  pose proof (int_argument_str _ n Hs) as A3.
  unfold SecurityRadarServer._process_command.
  repeat split; repeat settle_test; rewrite startswith_self;
    first [rewrite A1 | rewrite A2 | rewrite A3]; reflexivity.
Qed.

Lemma set_commands_accept_every_integer_witness :
  SecurityRadarServer._process_command
    Demo.two_clients Demo.healthy ("SET_FPS:" ++ Py.str (-7)) 1000
  = (SecurityRadarServer.set_capture_fps (Z.max 1 (Z.min 30 (-7))) Demo.two_clients,
     Demo.healthy,
     [Py.encode_utf8 ("FPS_SET:" ++ Py.str (Z.max 1 (Z.min 30 (-7))))%string]).
Proof.
  apply (set_commands_accept_every_integer Demo.two_clients Demo.healthy 1000 (-7)).
  vm_compute. discriminate.
Defined.

(** X8. Only the text between the first and the second colon of a
    command is read: whatever follows a second colon changes neither what
    the command does nor what it replies, for each of the five verbs that
    take an argument. *)
Theorem command_ignores_text_after_second_colon :
  forall (s : SecurityRadarServer.t) (c : ClientInfo.t) (now : Q)
         (verb t : string),
    In verb Spec.argument_verbs ->
    SecurityRadarServer._process_command s c (verb ++ t) now
    = SecurityRadarServer._process_command s c (verb ++ Spec.until_colon t) now.
Proof.
  intros s c now verb t Hv.
  assert (Hidem : Spec.until_colon (Spec.until_colon t) = Spec.until_colon t).
  { clear. induction t as [|a r IH]; simpl; [reflexivity|].
    destruct (Ascii.eqb a ":") eqn:E; simpl; [reflexivity|]. rewrite E, IH.
    reflexivity. }
  pose proof (argument_of_verb verb t Hv) as A1.
  pose proof (argument_of_verb verb (Spec.until_colon t) Hv) as A2.
  rewrite Hidem in A2.
  unfold SecurityRadarServer._process_command, SecurityRadarServer.int_argument.
  simpl in Hv.
  destruct Hv as [<- | [<- | [<- | [<- | [<- | []]]]]];
    repeat settle_test; rewrite !startswith_self, A1, A2; reflexivity.
Qed.

Lemma command_ignores_text_after_second_colon_witness :
  SecurityRadarServer._process_command
    Demo.two_clients Demo.healthy "SET_QUALITY:80:please" 1000
  = SecurityRadarServer._process_command
      Demo.two_clients Demo.healthy "SET_QUALITY:80" 1000.
Proof.
  apply (command_ignores_text_after_second_colon
           Demo.two_clients Demo.healthy 1000 "SET_QUALITY:" "80:please").
  simpl. auto.
Defined.

(** ** The flags of one client *)

Lemma enable_motion_outcome (s : SecurityRadarServer.t) (c : ClientInfo.t)
      (now : Q) (t : string) :
  SecurityRadarServer._process_command s c ("ENABLE_MOTION:" ++ t) now
  = (SecurityRadarServer.set_clients
       (ClientInfo.write_through
          (ClientInfo.set_motion_enabled
             (String.eqb (Py.lower (Spec.until_colon t)) "true") c)
          (SecurityRadarServer.clients s)) s,
     ClientInfo.set_motion_enabled
       (String.eqb (Py.lower (Spec.until_colon t)) "true") c,
     []).
Proof.
  assert (Hv : In "ENABLE_MOTION:"%string Spec.argument_verbs) by (simpl; auto).
  pose proof (argument_of_verb _ t Hv) as A.
  unfold SecurityRadarServer._process_command.
  repeat settle_test. rewrite startswith_self, A. reflexivity.
Qed.

Lemma enable_alerts_outcome (s : SecurityRadarServer.t) (c : ClientInfo.t)
      (now : Q) (t : string) :
  SecurityRadarServer._process_command s c ("ENABLE_ALERTS:" ++ t) now
  = (SecurityRadarServer.set_clients
       (ClientInfo.write_through
          (ClientInfo.set_alerts_enabled
             (String.eqb (Py.lower (Spec.until_colon t)) "true") c)
          (SecurityRadarServer.clients s)) s,
     ClientInfo.set_alerts_enabled
       (String.eqb (Py.lower (Spec.until_colon t)) "true") c,
     []).
Proof.
  assert (Hv : In "ENABLE_ALERTS:"%string Spec.argument_verbs) by (simpl; auto 6).
  pose proof (argument_of_verb _ t Hv) as A.
  unfold SecurityRadarServer._process_command.
  repeat settle_test. rewrite startswith_self, A. reflexivity.
Qed.

Lemma write_through_nth (c : ClientInfo.t) (l : list ClientInfo.t) (i : nat) :
  nth_error (ClientInfo.write_through c l) i
  = option_map (fun d => if Nat.eqb (ClientInfo.socket d) (ClientInfo.socket c)
                         then c else d)
               (nth_error l i).
Proof.
  unfold ClientInfo.write_through. revert i.
  induction l as [|d l IH]; intros [|i]; simpl; try reflexivity. apply IH.
Qed.

(** X9. [ENABLE_MOTION:<text>] sets the motion flag of the client that
    sent it to whether [<text>], up to its first colon and in lower case,
    is [true]; any other text clears the flag.  The registry entry of the
    same connection shows the new flag, every entry of another connection
    is exactly as before, at the same place; the server-wide motion switch,
    the detector and the rest of the server are untouched and nothing is
    replied.  [ENABLE_ALERTS:<text>] does the same for the alerts flag. *)
Theorem enable_commands_touch_one_client :
  forall (s : SecurityRadarServer.t) (c : ClientInfo.t) (now : Q) (t : string),
    let flag := String.eqb (Py.lower (Spec.until_colon t)) "true" in
    let motion := SecurityRadarServer._process_command s c ("ENABLE_MOTION:" ++ t) now in
    let alerts := SecurityRadarServer._process_command s c ("ENABLE_ALERTS:" ++ t) now in
    snd (fst motion) = ClientInfo.set_motion_enabled flag c
    /\ snd (fst alerts) = ClientInfo.set_alerts_enabled flag c
    /\ snd motion = [] /\ snd alerts = []
    /\ fst (fst motion)
       = SecurityRadarServer.set_clients
           (SecurityRadarServer.clients (fst (fst motion))) s
    /\ fst (fst alerts)
       = SecurityRadarServer.set_clients
           (SecurityRadarServer.clients (fst (fst alerts))) s
    /\ (forall (i : nat) (d : ClientInfo.t),
           nth_error (SecurityRadarServer.clients s) i = Some d ->
           nth_error (SecurityRadarServer.clients (fst (fst motion))) i
           = Some (if Nat.eqb (ClientInfo.socket d) (ClientInfo.socket c)
                   then ClientInfo.set_motion_enabled flag c else d)
           /\ nth_error (SecurityRadarServer.clients (fst (fst alerts))) i
              = Some (if Nat.eqb (ClientInfo.socket d) (ClientInfo.socket c)
                      then ClientInfo.set_alerts_enabled flag c else d))
    /\ List.length (SecurityRadarServer.clients (fst (fst motion)))
       = List.length (SecurityRadarServer.clients s).
Proof.
  intros s c now t flag motion alerts. subst motion alerts flag.
  rewrite enable_motion_outcome, enable_alerts_outcome. simpl.
  repeat (split; [reflexivity|]). split.
  - intros i d Hd. rewrite !write_through_nth, Hd. simpl. split; reflexivity.
  - unfold ClientInfo.write_through. apply length_map.
Qed.

Lemma handle_loop_data (s : SecurityRadarServer.t) (c : ClientInfo.t)
      (data : list ascii) (text : string) (now : Q)
      (rest : list SecurityRadarServer.Recv) :
  SecurityRadarServer.running s = true ->
  data <> [] ->
  Py.decode_utf8 data = Some text ->
  SecurityRadarServer.handle_loop s c (SecurityRadarServer.Data data now :: rest)
  = (let '(s1, c1, sent1) :=
       SecurityRadarServer._process_command s c (Py.strip text) now in
     let '(s2, c2, sent2) := SecurityRadarServer.handle_loop s1 c1 rest in
     (s2, c2, sent1 ++ sent2)).
Proof.
  intros Hrun Hdata Hdec. simpl. rewrite Hrun. simpl.
  destruct data as [|b data]; [contradiction|]. rewrite Hdec. reflexivity.
Qed.

Lemma handle_loop_done (s : SecurityRadarServer.t) (c : ClientInfo.t) :
  SecurityRadarServer.handle_loop s c [] = (s, c, []).
Proof. simpl. destruct (negb (SecurityRadarServer.running s)); reflexivity. Qed.

Lemma decode_encode_ascii (text : string) :
  Spec.isascii text = true -> Py.decode_utf8 (Py.encode_utf8 text) = Some text.
Proof. intros H. rewrite (encode_ascii text H). apply decode_ascii, H. Qed.

(** X10. A toggle of a connected viewer reaches the server as intended:
    the command that [toggle_motion_detection] sends, received on its own
    by the handler of a running server, leaves the client's motion flag on
    the server equal to the viewer's new setting and does not touch the
    alerts flag; likewise [toggle_alerts] for the alerts flag.  Neither is
    answered. *)
Theorem viewer_toggle_reaches_server :
  forall (v : Viewer.t) (s : SecurityRadarServer.t) (c : ClientInfo.t) (now : Q),
    Viewer.is_blocked v = false ->
    Viewer.connected v = true ->
    SecurityRadarServer.running s = true ->
    let motion := Viewer.toggle_motion_detection v in
    let alerts := Viewer.toggle_alerts v in
    let after_motion :=
      SecurityRadarServer.handle_loop
        s c (map (fun b => SecurityRadarServer.Data b now) (snd motion)) in
    let after_alerts :=
      SecurityRadarServer.handle_loop
        s c (map (fun b => SecurityRadarServer.Data b now) (snd alerts)) in
    Viewer.motion_enabled (fst motion) = negb (Viewer.motion_enabled v)
    /\ snd (fst after_motion)
       = ClientInfo.set_motion_enabled (Viewer.motion_enabled (fst motion)) c
    /\ snd after_motion = []
    /\ Viewer.alerts_enabled (fst alerts) = negb (Viewer.alerts_enabled v)
    /\ snd (fst after_alerts)
       = ClientInfo.set_alerts_enabled (Viewer.alerts_enabled (fst alerts)) c
    /\ snd after_alerts = [].
Proof.
  intros v s c now Hb Hc Hrun motion alerts after_motion after_alerts.
  subst after_motion after_alerts motion alerts.
  unfold Viewer.toggle_motion_detection, Viewer.toggle_alerts, Viewer.send_command.
  rewrite Hb. cbn [Viewer.connected Viewer.motion_enabled Viewer.alerts_enabled fst snd].
  rewrite Hc. cbn [map fst snd].
  split; [reflexivity|].
  assert (Hm : forall b : bool,
             SecurityRadarServer.handle_loop
               s c [SecurityRadarServer.Data
                      (Py.encode_utf8 ("ENABLE_MOTION:" ++ Py.str_bool b)) now]
             = (SecurityRadarServer.set_clients
                  (ClientInfo.write_through (ClientInfo.set_motion_enabled b c)
                                            (SecurityRadarServer.clients s)) s,
                ClientInfo.set_motion_enabled b c, [])).
  { intros b.
    rewrite (handle_loop_data s c _ ("ENABLE_MOTION:" ++ Py.str_bool b) now [] Hrun);
      [| destruct b; discriminate | apply decode_encode_ascii; destruct b; reflexivity].
    replace (Py.strip ("ENABLE_MOTION:" ++ Py.str_bool b))
      with ("ENABLE_MOTION:" ++ Py.str_bool b)%string by (destruct b; reflexivity).
    rewrite enable_motion_outcome, handle_loop_done.
    destruct b; reflexivity. }
  assert (Ha : forall b : bool,
             SecurityRadarServer.handle_loop
               s c [SecurityRadarServer.Data
                      (Py.encode_utf8 ("ENABLE_ALERTS:" ++ Py.str_bool b)) now]
             = (SecurityRadarServer.set_clients
                  (ClientInfo.write_through (ClientInfo.set_alerts_enabled b c)
                                            (SecurityRadarServer.clients s)) s,
                ClientInfo.set_alerts_enabled b c, [])).
  { intros b.
    rewrite (handle_loop_data s c _ ("ENABLE_ALERTS:" ++ Py.str_bool b) now [] Hrun);
      [| destruct b; discriminate | apply decode_encode_ascii; destruct b; reflexivity].
    replace (Py.strip ("ENABLE_ALERTS:" ++ Py.str_bool b))
      with ("ENABLE_ALERTS:" ++ Py.str_bool b)%string by (destruct b; reflexivity).
    rewrite enable_alerts_outcome, handle_loop_done.
    destruct b; reflexivity. }
  rewrite Hm, Ha. repeat split.
Qed.

Lemma viewer_toggle_reaches_server_witness :
  snd (fst (SecurityRadarServer.handle_loop
              Demo.serving Demo.healthy
              (map (fun b => SecurityRadarServer.Data b 1000)
                   (snd (Viewer.toggle_motion_detection Demo.viewer)))))
  = ClientInfo.set_motion_enabled
      (Viewer.motion_enabled (fst (Viewer.toggle_motion_detection Demo.viewer)))
      Demo.healthy.
Proof.
  apply (viewer_toggle_reaches_server Demo.viewer Demo.serving Demo.healthy 1000);
    reflexivity.
Defined.

Lemma encode_app (a b : string) :
  Py.encode_utf8 (a ++ b) = Py.encode_utf8 a ++ Py.encode_utf8 b.
Proof.
  induction a as [|c a IH]; simpl; [reflexivity|].
  destruct (N_of_ascii c <? 128)%N; simpl; rewrite IH; reflexivity.
Qed.

Lemma encode_nonempty (c : ascii) (r : string) : Py.encode_utf8 (String c r) <> [].
Proof. simpl. destruct (N_of_ascii c <? 128)%N; discriminate. Qed.

(** One read that holds the ASCII text of an [ENABLE_MOTION] command. *)
Lemma recv_enable_motion (s : SecurityRadarServer.t) (c : ClientInfo.t) (now : Q)
      (t : string) (rest : list SecurityRadarServer.Recv) :
  SecurityRadarServer.running s = true ->
  Spec.isascii t = true ->
  Py.strip ("ENABLE_MOTION:" ++ t) = ("ENABLE_MOTION:" ++ t)%string ->
  SecurityRadarServer.handle_loop
    s c (SecurityRadarServer.Data (Py.encode_utf8 ("ENABLE_MOTION:" ++ t)) now :: rest)
  = (let c' := ClientInfo.set_motion_enabled
                 (String.eqb (Py.lower (Spec.until_colon t)) "true") c in
     let '(s2, c2, sent) :=
       SecurityRadarServer.handle_loop
         (SecurityRadarServer.set_clients
            (ClientInfo.write_through c' (SecurityRadarServer.clients s)) s)
         c' rest in
     (s2, c2, sent)).
Proof.
  intros Hrun Hascii Hstrip.
  rewrite (handle_loop_data s c _ ("ENABLE_MOTION:" ++ t) now rest Hrun);
    [| apply encode_nonempty | apply decode_encode_ascii; simpl; exact Hascii].
  rewrite Hstrip, enable_motion_outcome. cbv zeta.
  destruct (SecurityRadarServer.handle_loop _ _ rest) as [[s2 c2] sent]. reflexivity.
Qed.

Lemma recv_enable_alerts (s : SecurityRadarServer.t) (c : ClientInfo.t) (now : Q)
      (t : string) (rest : list SecurityRadarServer.Recv) :
  SecurityRadarServer.running s = true ->
  Spec.isascii t = true ->
  Py.strip ("ENABLE_ALERTS:" ++ t) = ("ENABLE_ALERTS:" ++ t)%string ->
  SecurityRadarServer.handle_loop
    s c (SecurityRadarServer.Data (Py.encode_utf8 ("ENABLE_ALERTS:" ++ t)) now :: rest)
  = (let c' := ClientInfo.set_alerts_enabled
                 (String.eqb (Py.lower (Spec.until_colon t)) "true") c in
     let '(s2, c2, sent) :=
       SecurityRadarServer.handle_loop
         (SecurityRadarServer.set_clients
            (ClientInfo.write_through c' (SecurityRadarServer.clients s)) s)
         c' rest in
     (s2, c2, sent)).
Proof.
  intros Hrun Hascii Hstrip.
  rewrite (handle_loop_data s c _ ("ENABLE_ALERTS:" ++ t) now rest Hrun);
    [| apply encode_nonempty | apply decode_encode_ascii; simpl; exact Hascii].
  rewrite Hstrip, enable_alerts_outcome. cbv zeta.
  destruct (SecurityRadarServer.handle_loop _ _ rest) as [[s2 c2] sent]. reflexivity.
Qed.

(** X11. Commands carry no delimiter.  When the two commands that a
    viewer sends on connecting arrive in two reads, the client's flags on
    the server become the viewer's settings; when they arrive in one read,
    the handler sees one [ENABLE_MOTION] command whose argument is not
    [true], so it clears the motion flag whatever the viewer's setting is,
    and the alerts flag keeps the value it had. *)
Theorem connect_commands_in_one_read :
  forall (v : Viewer.t) (s : SecurityRadarServer.t) (c : ClientInfo.t) (now : Q),
    Viewer.is_blocked v = false ->
    SecurityRadarServer.running s = true ->
    let commands := Viewer.connect_commands v in
    let apart :=
      SecurityRadarServer.handle_loop
        s c (map (fun b => SecurityRadarServer.Data b now) commands) in
    let together :=
      SecurityRadarServer.handle_loop
        s c [SecurityRadarServer.Data (List.concat commands) now] in
    ClientInfo.motion_enabled (snd (fst apart)) = Viewer.motion_enabled v
    /\ ClientInfo.alerts_enabled (snd (fst apart)) = Viewer.alerts_enabled v
    /\ ClientInfo.motion_enabled (snd (fst together)) = false
    /\ ClientInfo.alerts_enabled (snd (fst together)) = ClientInfo.alerts_enabled c
    /\ snd apart = [] /\ snd together = [].
Proof.
  intros v s c now Hb Hrun commands apart together.
  subst apart together commands.
  unfold Viewer.connect_commands, Viewer.send_command. rewrite Hb.
  cbn [Viewer.connected Viewer.motion_enabled Viewer.alerts_enabled app map List.concat].
  rewrite List.app_nil_r, <- encode_app.
  set (m := Viewer.motion_enabled v). set (a := Viewer.alerts_enabled v).
  change (("ENABLE_MOTION:" ++ Py.str_bool m) ++ "ENABLE_ALERTS:" ++ Py.str_bool a)%string
    with ("ENABLE_MOTION:" ++ (Py.str_bool m ++ "ENABLE_ALERTS:" ++ Py.str_bool a))%string.
  rewrite (recv_enable_motion s c now (Py.str_bool m)) by (try exact Hrun; destruct m; reflexivity).
  cbv zeta.
  rewrite (recv_enable_alerts _ _ now (Py.str_bool a)) by (try exact Hrun; destruct a; reflexivity).
  rewrite (recv_enable_motion s c now (Py.str_bool m ++ "ENABLE_ALERTS:" ++ Py.str_bool a))
    by (try exact Hrun; destruct m, a; reflexivity).
  cbv zeta. rewrite !handle_loop_done.
  destruct m, a; repeat split.
Qed.

Lemma connect_commands_in_one_read_witness :
  ClientInfo.motion_enabled
    (snd (fst (SecurityRadarServer.handle_loop
                 Demo.serving Demo.healthy
                 [SecurityRadarServer.Data
                    (List.concat (Viewer.connect_commands Demo.viewer)) 1000])))
  = false.
Proof.
  apply (connect_commands_in_one_read Demo.viewer Demo.serving Demo.healthy 1000);
    reflexivity.
Defined.

(** ** Membership of the registry *)

Lemma remove_first_match (c : ClientInfo.t) (l : list ClientInfo.t) :
  ClientInfo.mem c l = true ->
  exists (before : list ClientInfo.t) (d : ClientInfo.t) (after : list ClientInfo.t),
    l = before ++ d :: after
    /\ ClientInfo.eqb c d = true
    /\ Forall (fun x => ClientInfo.eqb c x = false) before
    /\ ClientInfo.remove c l = before ++ after.
Proof.
  unfold ClientInfo.mem. induction l as [|x l IH]; simpl; [discriminate|].
  destruct (ClientInfo.eqb c x) eqn:E; simpl.
  - intros _. exists [], x, l. repeat split; [exact E | constructor].
  - intros H. destruct (IH H) as (before & d & after & -> & Hd & Hb & Hr).
    exists (x :: before), d, after. rewrite Hr. repeat split; [exact Hd|].
    constructor; assumption.
Qed.

(** X12. [_remove_client] takes out of the registry the first entry
    equal to the given client and nothing else: the entries before it and
    after it stay, in their order, and no other attribute of the server
    changes.  When no entry is equal to the client the server is left as
    it is. *)
Theorem remove_client_takes_one_entry :
  forall (s : SecurityRadarServer.t) (c : ClientInfo.t),
    let s' := SecurityRadarServer._remove_client s c in
    s' = SecurityRadarServer.set_clients (SecurityRadarServer.clients s') s
    /\ (ClientInfo.mem c (SecurityRadarServer.clients s) = false -> s' = s)
    /\ (ClientInfo.mem c (SecurityRadarServer.clients s) = true ->
        exists (before : list ClientInfo.t) (d : ClientInfo.t)
               (after : list ClientInfo.t),
          SecurityRadarServer.clients s = before ++ d :: after
          /\ ClientInfo.eqb c d = true
          /\ Forall (fun x => ClientInfo.eqb c x = false) before
          /\ SecurityRadarServer.clients s' = before ++ after
          /\ S (List.length (SecurityRadarServer.clients s'))
             = List.length (SecurityRadarServer.clients s)).
Proof.
  intros s c s'. subst s'. split; [|split].
  - rewrite remove_client_clients. reflexivity.
  - apply remove_client_absent.
  - intros H. destruct (remove_first_match c _ H) as (before & d & after & E & Hd & Hb & Hr).
    exists before, d, after. rewrite remove_client_clients. simpl.
    rewrite Hr, E. repeat split; try assumption.
    rewrite !length_app. simpl. lia.
Qed.

Lemma remove_appended (c : ClientInfo.t) (l : list ClientInfo.t) :
  Forall (fun d => ClientInfo.socket d <> ClientInfo.socket c) l ->
  ClientInfo.remove c (l ++ [c]) = l.
Proof.
  intros H. induction H as [|d l Hd _ IH]; simpl.
  - rewrite client_eqb_refl. reflexivity.
  - destruct (ClientInfo.eqb c d) eqn:E.
    + apply client_eqb_socket in E. congruence.
    + rewrite IH. reflexivity.
Qed.

(** X13. Accepting a connection on a socket that no registered client
    uses appends one client, with both of its flags set, at the end of the
    registry; the next broadcast hands it the frame if its send returns;
    and removing that client again gives back the server as it was before
    the connection. *)
Theorem accept_then_remove_restores_server :
  forall (json_dumps : Packet.t -> string) (s : SecurityRadarServer.t)
         (sock : nat) (address : string * Z) (now : Q)
         (packet : Packet.t) (send : nat -> SendResult),
    Forall (fun d => ClientInfo.socket d <> sock) (SecurityRadarServer.clients s) ->
    let accepted := SecurityRadarServer.accept_client s sock address now in
    SecurityRadarServer.clients (fst accepted)
    = SecurityRadarServer.clients s ++ [snd accepted]
    /\ ClientInfo.motion_enabled (snd accepted) = true
    /\ ClientInfo.alerts_enabled (snd accepted) = true
    /\ (send sock = Sent ->
        In (sock, SecurityRadarServer.frame_message json_dumps packet)
           (snd (SecurityRadarServer._broadcast_packet
                   json_dumps (fst accepted) packet send)))
    /\ SecurityRadarServer._remove_client (fst accepted) (snd accepted) = s.
Proof.
  intros json_dumps s sock address now packet send Hfresh accepted. subst accepted.
  unfold SecurityRadarServer.accept_client. cbn [fst snd].
  set (c := ClientInfo.mk sock address now true true).
  split; [reflexivity|]. split; [reflexivity|]. split; [reflexivity|]. split.
  - intros Hsend. rewrite broadcast_packet_spec. cbn [snd].
    apply (in_map (fun c0 => (ClientInfo.socket c0,
                              SecurityRadarServer.frame_message json_dumps packet))
                  _ c).
    apply filter_In. split.
    + simpl. apply in_or_app. right. left. reflexivity.
    + simpl. rewrite Hsend. reflexivity.
  - rewrite remove_client_clients. simpl.
    rewrite (remove_appended c (SecurityRadarServer.clients s) Hfresh).
    destruct s; reflexivity.
Qed.

Lemma accept_then_remove_restores_server_witness :
  SecurityRadarServer._remove_client
    (fst (SecurityRadarServer.accept_client
            Demo.two_clients 11 ("10.0.0.11"%string, 40003) 200))
    (snd (SecurityRadarServer.accept_client
            Demo.two_clients 11 ("10.0.0.11"%string, 40003) 200))
  = Demo.two_clients.
Proof.
  apply (accept_then_remove_restores_server
           Demo.json_dumps Demo.two_clients 11 ("10.0.0.11"%string, 40003) 200
           Demo.packet Demo.send).
  repeat constructor; simpl; lia.
Defined.

(** ** The end of a handler *)

Lemma write_through_sockets (c : ClientInfo.t) (l : list ClientInfo.t) :
  map ClientInfo.socket (ClientInfo.write_through c l) = map ClientInfo.socket l.
Proof.
  unfold ClientInfo.write_through. induction l as [|d l IH]; simpl; [reflexivity|].
  rewrite IH. destruct (Nat.eqb (ClientInfo.socket d) (ClientInfo.socket c)) eqn:E;
    [|reflexivity].
  apply Nat.eqb_eq in E. rewrite E. reflexivity.
Qed.

Lemma write_through_registered (c c' : ClientInfo.t) (l : list ClientInfo.t) :
  ClientInfo.socket c' = ClientInfo.socket c ->
  Spec.registered_as c' (ClientInfo.write_through c' l).
Proof.
  intros Hs d Hin Hd. unfold ClientInfo.write_through in Hin.
  apply in_map_iff in Hin. destruct Hin as (x & Hx & _).
  destruct (Nat.eqb (ClientInfo.socket x) (ClientInfo.socket c')) eqn:E;
    [symmetry; exact Hx|].
  apply Nat.eqb_neq in E. subst d. contradiction.
Qed.

(** What a command can do to the registry: the sockets stay, the handler's
    dictionary keeps its socket and stays the registry's entry for it. *)
Lemma process_command_registry (s : SecurityRadarServer.t) (c : ClientInfo.t)
      (command : string) (now : Q) :
  let out := SecurityRadarServer._process_command s c command now in
  ClientInfo.socket (snd (fst out)) = ClientInfo.socket c
  /\ map ClientInfo.socket (SecurityRadarServer.clients (fst (fst out)))
     = map ClientInfo.socket (SecurityRadarServer.clients s)
  /\ SecurityRadarServer.running (fst (fst out)) = SecurityRadarServer.running s
  /\ (Spec.registered_as c (SecurityRadarServer.clients s) ->
      Spec.registered_as (snd (fst out)) (SecurityRadarServer.clients (fst (fst out)))).
Proof.
  unfold SecurityRadarServer._process_command.
  repeat match goal with
         | |- context [if ?b then _ else _] => destruct b
         | |- context [match ?o with Some _ => _ | None => _ end] => destruct o
         end; cbn [fst snd]; simpl;
    rewrite ?write_through_sockets;
    repeat split; try reflexivity; try (intros H; exact H);
    intros _; apply (write_through_registered c); reflexivity.
Qed.

Lemma handle_loop_registry (inputs : list SecurityRadarServer.Recv)
      (s : SecurityRadarServer.t) (c : ClientInfo.t) :
  let out := SecurityRadarServer.handle_loop s c inputs in
  ClientInfo.socket (snd (fst out)) = ClientInfo.socket c
  /\ map ClientInfo.socket (SecurityRadarServer.clients (fst (fst out)))
     = map ClientInfo.socket (SecurityRadarServer.clients s)
  /\ (Spec.registered_as c (SecurityRadarServer.clients s) ->
      Spec.registered_as (snd (fst out)) (SecurityRadarServer.clients (fst (fst out)))).
Proof.
  revert s c. induction inputs as [|input inputs IH]; intros s c; cbn zeta.
  - rewrite handle_loop_done. simpl. auto.
  - simpl. destruct (negb (SecurityRadarServer.running s)); [simpl; auto|].
    destruct input as [data now| |]; [|apply IH | simpl; auto].
    destruct data as [|b data]; [simpl; auto|].
    destruct (Py.decode_utf8 (b :: data)) as [text|]; [|simpl; auto].
    pose proof (process_command_registry s c (Py.strip text) now) as Hp.
    destruct (SecurityRadarServer._process_command s c (Py.strip text) now)
      as [[s1 c1] sent1].
    cbn [fst snd] in Hp. destruct Hp as (P1 & P2 & _ & P4).
    specialize (IH s1 c1).
    destruct (SecurityRadarServer.handle_loop s1 c1 inputs) as [[s2 c2] sent2].
    cbn [fst snd] in *. destruct IH as (I1 & I2 & I3).
    repeat split; [congruence | congruence | auto].
Qed.

Lemma remove_registered (c : ClientInfo.t) (l : list ClientInfo.t) :
  Spec.distinct_sockets l ->
  Spec.registered_as c l ->
  ClientInfo.remove c l
  = filter (fun d => negb (Nat.eqb (ClientInfo.socket d) (ClientInfo.socket c))) l.
Proof.
  unfold Spec.distinct_sockets. induction l as [|d l IH]; simpl; [reflexivity|].
  intros Hnd Hreg. inversion Hnd as [|k ks Hk Hks]; subst.
  assert (Hreg' : Spec.registered_as c l)
    by (intros x Hx; apply Hreg; right; exact Hx).
  destruct (ClientInfo.eqb c d) eqn:E.
  - apply client_eqb_socket in E. rewrite <- E, Nat.eqb_refl. simpl.
    symmetry. apply forallb_filter_id. apply forallb_forall. intros x Hx.
    apply negb_true_iff, Nat.eqb_neq. intros Hsame. apply Hk.
    rewrite <- E, <- Hsame. apply in_map, Hx.
  - destruct (Nat.eqb (ClientInfo.socket d) (ClientInfo.socket c)) eqn:Es.
    + apply Nat.eqb_eq in Es. rewrite (Hreg d (or_introl eq_refl) Es) in E.
      rewrite client_eqb_refl in E. discriminate.
    + simpl. rewrite (IH Hks Hreg'). reflexivity.
Qed.

(** X14. However a handler ends (the peer closes, a read or the decoding
    fails, the server stops), and whatever commands it has processed, its
    connection is no longer in the registry afterwards, and the other
    connections are registered as before, in the same order.  This needs
    that no two registered clients share a socket and that the registry's
    entry for the handler's socket is the handler's dictionary. *)
Theorem handler_end_unregisters_its_client :
  forall (s : SecurityRadarServer.t) (c : ClientInfo.t)
         (inputs : list SecurityRadarServer.Recv),
    Spec.distinct_sockets (SecurityRadarServer.clients s) ->
    Spec.registered_as c (SecurityRadarServer.clients s) ->
    let s' := fst (SecurityRadarServer._handle_client s c inputs) in
    (forall d : ClientInfo.t,
        In d (SecurityRadarServer.clients s') ->
        ClientInfo.socket d <> ClientInfo.socket c)
    /\ map ClientInfo.socket (SecurityRadarServer.clients s')
       = filter (fun k => negb (Nat.eqb k (ClientInfo.socket c)))
                (map ClientInfo.socket (SecurityRadarServer.clients s)).
Proof.
  intros s c inputs Hnd Hreg s'. subst s'.
  unfold SecurityRadarServer._handle_client.
  pose proof (handle_loop_registry inputs s c) as Hl.
  destruct (SecurityRadarServer.handle_loop s c inputs) as [[s1 c1] sent].
  cbn [fst snd] in *. destruct Hl as (L1 & L2 & L3).
  rewrite remove_client_clients. cbn [SecurityRadarServer.clients SecurityRadarServer.set_clients].
  assert (Hnd1 : Spec.distinct_sockets (SecurityRadarServer.clients s1))
    by (unfold Spec.distinct_sockets; rewrite L2; exact Hnd).
  rewrite (remove_registered c1 _ Hnd1 (L3 Hreg)), L1. split.
  - intros d Hd. apply filter_In in Hd. destruct Hd as [_ Hd].
    apply negb_true_iff, Nat.eqb_neq in Hd. exact Hd.
  - rewrite <- L2. clear.
    induction (SecurityRadarServer.clients s1) as [|d l IH]; simpl; [reflexivity|].
    destruct (Nat.eqb (ClientInfo.socket d) (ClientInfo.socket c)); simpl;
      rewrite IH; reflexivity.
Qed.

Lemma handler_end_unregisters_its_client_witness :
  map ClientInfo.socket
      (SecurityRadarServer.clients
         (fst (SecurityRadarServer._handle_client
                 Demo.serving Demo.healthy
                 [SecurityRadarServer.Data (Py.encode_utf8 "ENABLE_ALERTS:false") 1000;
                  SecurityRadarServer.Timeout;
                  SecurityRadarServer.Data [] 1001])))
  = filter (fun k => negb (Nat.eqb k (ClientInfo.socket Demo.healthy)))
           (map ClientInfo.socket (SecurityRadarServer.clients Demo.serving)).
Proof.
  apply (handler_end_unregisters_its_client Demo.serving Demo.healthy).
  - repeat constructor; simpl; intuition discriminate.
  - intros d [<- | [<- | []]]; [discriminate | reflexivity].
Defined.

(** ** The registry lock *)

Lemma remove_each_free (l : list ClientInfo.t) (s : SecurityRadarServer.t) :
  SecurityRadarServer.remove_each false s l
  = SecurityRadarServer.Returns (fold_left SecurityRadarServer._remove_client l s).
Proof.
  revert s. induction l as [|c l IH]; intros s; simpl; [reflexivity|]. apply IH.
Qed.

(** X15. [stop] returns only when no client is registered: it clears the
    running flag and then, with a client registered, waits for ever on the
    registry lock, because it calls [_remove_client] inside the block that
    holds the lock.  A broadcast does not have this problem: it removes
    the failed clients after it has released the lock, and always returns
    what the lock-free reading of the code gives. *)
Theorem stop_waits_for_ever_with_a_client :
  forall s : SecurityRadarServer.t,
    (SecurityRadarServer.clients s = [] ->
     SecurityRadarServer.stop s
     = SecurityRadarServer.Returns (SecurityRadarServer.set_running false s))
    /\ (SecurityRadarServer.clients s <> [] ->
        SecurityRadarServer.stop s = SecurityRadarServer.Blocks)
    /\ (forall (json_dumps : Packet.t -> string) (packet : Packet.t)
               (send : nat -> SendResult),
           SecurityRadarServer._broadcast_packet_locking json_dumps s packet send
           = SecurityRadarServer.Returns
               (SecurityRadarServer._broadcast_packet json_dumps s packet send))
    /\ (forall c : ClientInfo.t,
           SecurityRadarServer._remove_client_locking false s c
           = SecurityRadarServer.Returns (SecurityRadarServer._remove_client s c)).
Proof.
  intros s. unfold SecurityRadarServer.stop, SecurityRadarServer.with_lock.
  cbn [SecurityRadarServer.clients SecurityRadarServer.set_running].
  split; [intros ->; reflexivity|]. split.
  - destruct (SecurityRadarServer.clients s) as [|c l]; [contradiction | reflexivity].
  - split; [|reflexivity].
    intros json_dumps packet send.
    unfold SecurityRadarServer._broadcast_packet_locking,
      SecurityRadarServer._broadcast_packet, SecurityRadarServer.with_lock.
    destruct (SecurityRadarServer.send_all send _ (SecurityRadarServer.clients s))
      as [delivered disconnected].
    rewrite remove_each_free. reflexivity.
Qed.

(** ** Runs of the server *)

Section RunFacts.

Variable json_dumps : Packet.t -> string.
Variable resize : PIL.Image -> Z * Z -> PIL.Image.
Variable jpeg_save : PIL.Image -> Z -> list ascii.
Variable b64encode : list ascii -> string.

(** What one capture tick does to the attributes of the server. *)
Lemma capture_tick_fields (s : SecurityRadarServer.t) (screenshot : PIL.Image)
      (now : Q) (send : nat -> SendResult) :
  let result :=
    SecurityRadarServer.capture_tick json_dumps resize jpeg_save b64encode
                                     s screenshot now send in
  let s' := fst (fst result) in
  let packet := snd (fst result) in
  SecurityRadarServer.capture_fps s' = SecurityRadarServer.capture_fps s
  /\ SecurityRadarServer.quality s' = SecurityRadarServer.quality s
  /\ SecurityRadarServer.alerts_sent s' = SecurityRadarServer.alerts_sent s
  /\ SecurityRadarServer.frames_sent s' = SecurityRadarServer.frames_sent s + 1
  /\ SecurityRadarServer.total_bytes_sent s <= SecurityRadarServer.total_bytes_sent s'
  /\ SecurityRadarServer.motion_events s'
     = SecurityRadarServer.motion_events s
       + (if Packet.motion_detected packet then 1 else 0)
  /\ Packet.threat_level packet = SecurityRadarServer.threat_level s'
  /\ Packet.type packet = "screen_frame"%string
  /\ (if Packet.motion_detected packet
      then 1 <= SecurityRadarServer.threat_level s' <= 3
      else SecurityRadarServer.threat_level s' = SecurityRadarServer.threat_level s)
  /\ MotionDetector.sensitivity (SecurityRadarServer.motion_detector s')
     = MotionDetector.sensitivity (SecurityRadarServer.motion_detector s)
  /\ (List.length (MotionDetector.detection_history
                     (SecurityRadarServer.motion_detector s')) <=
      Nat.max (List.length (MotionDetector.detection_history
                              (SecurityRadarServer.motion_detector s)))
              (Nat.min (List.length (MotionDetector.detection_history
                                       (SecurityRadarServer.motion_detector s)) + 1)
                       30))%nat.
Proof.
  unfold SecurityRadarServer.capture_tick. cbv zeta.
  set (img := if PIL.width screenshot >? ServerConfig.MAX_WIDTH then _ else screenshot).
  destruct (SecurityRadarServer.motion_enabled s).
  - pose proof (detect_motion_history (SecurityRadarServer.motion_detector s) img) as Hd.
    destruct (MotionDetector.detect_motion
                (SecurityRadarServer.motion_detector s) img) as [d [md mp]].
    cbn [fst snd] in Hd. destruct Hd as (Hs & _ & Hh).
    assert (Hlen : (List.length (MotionDetector.detection_history d) <=
                    Nat.max (List.length (MotionDetector.detection_history
                                            (SecurityRadarServer.motion_detector s)))
                            (Nat.min (List.length
                                        (MotionDetector.detection_history
                                           (SecurityRadarServer.motion_detector s)) + 1)
                                     30))%nat).
    { destruct Hh as [-> | ->]; [lia | rewrite deque_append_length; lia]. }
    destruct md; rewrite broadcast_packet_spec; cbn [fst snd].
    + destruct (process_motion_event_cases
                  (SecurityRadarServer.set_motion_events
                     (SecurityRadarServer.motion_events
                        (SecurityRadarServer.set_motion_detector d s) + 1)
                     (SecurityRadarServer.set_motion_detector d s)) mp)
        as [(_ & ->) | [(_ & _ & ->) | (_ & ->)]];
        simpl; repeat split; try reflexivity; try lia; assumption.
    + simpl. repeat split; try reflexivity; try lia; assumption.
  - rewrite broadcast_packet_spec. simpl. repeat split; try reflexivity; lia.
Qed.

Lemma operator_fields (s : SecurityRadarServer.t) (cmd line : string) :
  let s' := fst (ServerCLI.handle_command s cmd line) in
  (SecurityRadarServer.capture_fps s' = SecurityRadarServer.capture_fps s
   \/ Spec.fps_in_range (SecurityRadarServer.capture_fps s'))
  /\ (SecurityRadarServer.quality s' = SecurityRadarServer.quality s
      \/ 10 <= SecurityRadarServer.quality s' <= 100)
  /\ (MotionDetector.sensitivity (SecurityRadarServer.motion_detector s')
      = MotionDetector.sensitivity (SecurityRadarServer.motion_detector s)
      \/ 1 <= MotionDetector.sensitivity (SecurityRadarServer.motion_detector s') <= 10)
  /\ (SecurityRadarServer.threat_level s' = SecurityRadarServer.threat_level s
      \/ SecurityRadarServer.threat_level s' = 0)
  /\ MotionDetector.detection_history (SecurityRadarServer.motion_detector s')
     = MotionDetector.detection_history (SecurityRadarServer.motion_detector s)
  /\ SecurityRadarServer.zones s' = SecurityRadarServer.zones s
  /\ SecurityRadarServer.frames_sent s' = SecurityRadarServer.frames_sent s
  /\ SecurityRadarServer.total_bytes_sent s' = SecurityRadarServer.total_bytes_sent s
  /\ SecurityRadarServer.alerts_sent s' = SecurityRadarServer.alerts_sent s.
Proof.
  unfold ServerCLI.handle_command. cbv zeta.
  repeat match goal with
         | |- context [if ?b then _ else _] => destruct b
         | |- context [match ?o with Some _ => _ | None => _ end] => destruct o
         end; simpl; unfold Spec.fps_in_range;
    repeat split; try reflexivity; try (left; reflexivity); right; lia.
Qed.

Lemma command_fields (s : SecurityRadarServer.t) (c : ClientInfo.t)
      (command : string) (now : Q) :
  let s' := fst (fst (SecurityRadarServer._process_command s c command now)) in
  (SecurityRadarServer.capture_fps s' = SecurityRadarServer.capture_fps s
   \/ Spec.fps_in_range (SecurityRadarServer.capture_fps s'))
  /\ (SecurityRadarServer.quality s' = SecurityRadarServer.quality s
      \/ 10 <= SecurityRadarServer.quality s' <= 100)
  /\ (MotionDetector.sensitivity (SecurityRadarServer.motion_detector s')
      = MotionDetector.sensitivity (SecurityRadarServer.motion_detector s)
      \/ 1 <= MotionDetector.sensitivity (SecurityRadarServer.motion_detector s') <= 10)
  /\ SecurityRadarServer.threat_level s' = SecurityRadarServer.threat_level s
  /\ MotionDetector.detection_history (SecurityRadarServer.motion_detector s')
     = MotionDetector.detection_history (SecurityRadarServer.motion_detector s)
  /\ SecurityRadarServer.zones s' = SecurityRadarServer.zones s
  /\ SecurityRadarServer.frames_sent s' = SecurityRadarServer.frames_sent s
  /\ SecurityRadarServer.total_bytes_sent s' = SecurityRadarServer.total_bytes_sent s
  /\ SecurityRadarServer.alerts_sent s <= SecurityRadarServer.alerts_sent s'.
Proof.
  unfold SecurityRadarServer._process_command.
  repeat match goal with
         | |- context [if ?b then _ else _] => destruct b
         | |- context [match ?o with Some _ => _ | None => _ end] => destruct o
         end; simpl; unfold Spec.fps_in_range;
    repeat split; try reflexivity; try (left; reflexivity); try lia; right; lia.
Qed.

Lemma step_in_ranges (s : SecurityRadarServer.t) (e : Runs.Event) :
  Spec.in_ranges s ->
  Spec.in_ranges (Runs.step json_dumps resize jpeg_save b64encode s e).
Proof.
  unfold Spec.in_ranges, Spec.fps_in_range. intros (Hf & Hq & Hs & Ht & Hh).
  destruct e as [screenshot now send| |sock address now|c command now|c|cmd line];
    cbn [Runs.step].
  - pose proof (capture_tick_fields s screenshot now send) as Hk.
    cbv zeta in Hk.
    destruct Hk as (K1 & K2 & _ & _ & _ & _ & _ & _ & K9 & K10 & K11).
    rewrite K1, K2, K10. repeat split; try tauto; try lia.
    all: destruct (Packet.motion_detected _); lia.
  - rewrite analytics_step_level. simpl.
    repeat split; try tauto; try lia;
      apply escalate_range, decay_range, Ht.
  - simpl. tauto.
  - pose proof (command_fields s c command now) as Hk. cbv zeta in Hk.
    destruct Hk as (K1 & K2 & K3 & K4 & K5 & _).
    rewrite K4, K5. unfold Spec.fps_in_range in *.
    destruct K1 as [-> | K1], K2 as [-> | K2], K3 as [-> | K3]; tauto.
  - rewrite remove_client_clients. simpl. tauto.
  - pose proof (operator_fields s cmd line) as Hk. cbv zeta in Hk.
    destruct Hk as (K1 & K2 & K3 & K4 & K5 & _).
    rewrite K5. unfold Spec.fps_in_range in *.
    destruct K1 as [-> | K1], K2 as [-> | K2], K3 as [-> | K3], K4 as [-> | ->];
      repeat split; try tauto; lia.
Qed.

(** X16. In every state the server of [server1.py] reaches from its
    initial state by capture ticks, analytics passes, connections, client
    commands, handler ends and operator commands, in any order, the capture
    rate is in [1, 30], the quality in [10, 100], the sensitivity of the
    detector in [1, 10], the threat level in [0, 3], and the detector holds
    at most thirty verdicts. *)
Theorem reachable_states_stay_in_range :
  forall events : list Runs.Event,
    Spec.in_ranges
      (Runs.run json_dumps resize jpeg_save b64encode SecurityRadarServer.init events).
Proof.
  intros events. unfold Runs.run.
  assert (Hinit : Spec.in_ranges SecurityRadarServer.init).
  { unfold Spec.in_ranges, Spec.fps_in_range. simpl. repeat split; try lia;
      vm_compute; discriminate. }
  revert Hinit. generalize SecurityRadarServer.init.
  induction events as [|e events IH]; intros s Hs; simpl; [exact Hs|].
  apply IH, step_in_ranges, Hs.
Qed.

End RunFacts.

Section RunPackets.

Variable json_dumps : Packet.t -> string.
Variable resize : PIL.Image -> Z * Z -> PIL.Image.
Variable jpeg_save : PIL.Image -> Z -> list ascii.
Variable b64encode : list ascii -> string.

Lemma step_zones (s : SecurityRadarServer.t) (e : Runs.Event) :
  SecurityRadarServer.zones (Runs.step json_dumps resize jpeg_save b64encode s e)
  = SecurityRadarServer.zones s.
Proof.
  destruct e as [screenshot now send| |sock address now|c command now|c|cmd line];
    cbn [Runs.step].
  - apply (capture_tick_zones json_dumps resize jpeg_save b64encode s screenshot now send).
  - rewrite analytics_step_level. reflexivity.
  - reflexivity.
  - apply (command_fields s c command now).
  - rewrite remove_client_clients. reflexivity.
  - apply (operator_fields s cmd line).
Qed.

Lemma packets_of_run (events : list Runs.Event) (s : SecurityRadarServer.t) :
  Spec.in_ranges s ->
  Forall (fun p => Packet.zone p
                   = SecurityRadarServer.first_flagged (SecurityRadarServer.zones s)
                   /\ 0 <= Packet.threat_level p <= 3
                   /\ Packet.type p = "screen_frame"%string)
         (Runs.packets json_dumps resize jpeg_save b64encode s events).
Proof.
  revert s. induction events as [|e events IH]; intros s Hs; simpl; [constructor|].
  pose proof (step_in_ranges json_dumps resize jpeg_save b64encode s e Hs) as Hs'.
  specialize (IH _ Hs'). rewrite step_zones in IH.
  apply Forall_app. split; [|exact IH].
  destruct e as [screenshot now send| | | | |]; try constructor; [|constructor].
  pose proof (capture_tick_zones json_dumps resize jpeg_save b64encode
                                 s screenshot now send) as Hz.
  pose proof (capture_tick_fields json_dumps resize jpeg_save b64encode
                                  s screenshot now send) as Hk.
  cbv zeta in Hz, Hk. destruct Hz as [_ Hz].
  destruct Hk as (_ & _ & _ & _ & _ & _ & K7 & K8 & _).
  split; [exact Hz|]. split; [|exact K8].
  rewrite K7. cbn [Runs.step] in Hs'. apply Hs'.
Qed.

(** X17. No operation of the server of [server1.py] writes to the zone
    table: in every state reached from the initial one the four default
    zones are exactly as created, and every packet broadcast on the way
    names the zone "Unknown", has the type [screen_frame] and carries a
    threat level in [0, 3]. *)
Theorem every_packet_names_zone_unknown :
  forall events : list Runs.Event,
    SecurityRadarServer.zones
      (Runs.run json_dumps resize jpeg_save b64encode SecurityRadarServer.init events)
    = SecurityRadarServer.default_zones
    /\ Forall (fun p => Packet.zone p = "Unknown"%string
                        /\ 0 <= Packet.threat_level p <= 3
                        /\ Packet.type p = "screen_frame"%string)
              (Runs.packets json_dumps resize jpeg_save b64encode
                            SecurityRadarServer.init events).
Proof.
  intros events. split.
  - unfold Runs.run.
    change SecurityRadarServer.default_zones
      with (SecurityRadarServer.zones SecurityRadarServer.init).
    generalize SecurityRadarServer.init.
    induction events as [|e events IH]; intros s; simpl; [reflexivity|].
    rewrite IH. apply step_zones.
  - apply (packets_of_run events SecurityRadarServer.init).
    unfold Spec.in_ranges, Spec.fps_in_range. simpl.
    repeat split; try lia; vm_compute; discriminate.
Qed.

(** X18. Over any run of the server of [server1.py] from any state, one
    packet is built per capture tick and [frames_sent] grows by exactly the
    number of ticks, while the byte counter and the alert counter never
    decrease. *)
Theorem frames_sent_counts_ticks :
  forall (events : list Runs.Event) (s : SecurityRadarServer.t),
    let s' := Runs.run json_dumps resize jpeg_save b64encode s events in
    SecurityRadarServer.frames_sent s'
    = SecurityRadarServer.frames_sent s + Spec.count_ticks events
    /\ Z.of_nat (List.length
                   (Runs.packets json_dumps resize jpeg_save b64encode s events))
       = Spec.count_ticks events
    /\ SecurityRadarServer.total_bytes_sent s <= SecurityRadarServer.total_bytes_sent s'
    /\ SecurityRadarServer.alerts_sent s <= SecurityRadarServer.alerts_sent s'.
Proof.
  unfold Runs.run.
  induction events as [|e events IH]; intros s; cbn zeta;
    [simpl; repeat split; lia|].
  cbn [fold_left Runs.packets]. specialize (IH (Runs.step json_dumps resize jpeg_save
                                                          b64encode s e)).
  cbv zeta in IH. destruct IH as (I1 & I2 & I3 & I4).
  rewrite I1, length_app, Nat2Z.inj_add, I2.
  assert (Hstep :
            SecurityRadarServer.frames_sent
              (Runs.step json_dumps resize jpeg_save b64encode s e)
            = SecurityRadarServer.frames_sent s
              + (Spec.count_ticks (e :: events) - Spec.count_ticks events)
            /\ Z.of_nat (List.length
                           match e with
                           | Runs.Tick screenshot now send =>
                               [snd (fst (SecurityRadarServer.capture_tick
                                            json_dumps resize jpeg_save b64encode
                                            s screenshot now send))]
                           | _ => []
                           end)
               = Spec.count_ticks (e :: events) - Spec.count_ticks events
            /\ SecurityRadarServer.total_bytes_sent s
               <= SecurityRadarServer.total_bytes_sent
                    (Runs.step json_dumps resize jpeg_save b64encode s e)
            /\ SecurityRadarServer.alerts_sent s
               <= SecurityRadarServer.alerts_sent
                    (Runs.step json_dumps resize jpeg_save b64encode s e)).
  { destruct e as [screenshot now send| |sock address now|c command now|c|cmd line];
      cbn [Runs.step Spec.count_ticks List.length].
    - pose proof (capture_tick_fields json_dumps resize jpeg_save b64encode
                                      s screenshot now send) as Hk.
      cbv zeta in Hk. destruct Hk as (_ & _ & K3 & K4 & K5 & _).
      rewrite K3, K4. repeat split; lia.
    - rewrite analytics_step_level. simpl. repeat split; lia.
    - simpl. repeat split; lia.
    - pose proof (command_fields s c command now) as Hk. cbv zeta in Hk.
      destruct Hk as (_ & _ & _ & _ & _ & _ & K7 & K8 & K9).
      rewrite K7, K8. repeat split; lia.
    - rewrite remove_client_clients. simpl. repeat split; lia.
    - pose proof (operator_fields s cmd line) as Hk. cbv zeta in Hk.
      destruct Hk as (_ & _ & _ & _ & _ & _ & K7 & K8 & K9).
      rewrite K7, K8, K9. repeat split; lia. }
  destruct Hstep as (S1 & S2 & S3 & S4). rewrite S1, S2.
  repeat split; lia.
Qed.

End RunPackets.

(** ** The operator console *)

Lemma string_eqb_false_of_not_in (a : string) (l : list string) (b : string) :
  ~ In a l -> In b l -> String.eqb a b = false.
Proof.
  intros Hn Hb. apply String.eqb_neq. intros ->. contradiction.
Qed.

(** X19. The operator loop ends only on [quit], written in any letter
    case and with any white space around it; every other input keeps the
    loop going.  Apart from [motion], [sensitivity], [fps], [quality],
    [monitor] and [reset], no input changes the server, and this includes
    [quit] and every unknown word. *)
Theorem operator_quit_and_read_only_commands :
  forall (s : SecurityRadarServer.t) (cmd line : string),
    (snd (ServerCLI.handle_command s cmd line) = false
     <-> Py.lower (Py.strip cmd) = "quit"%string)
    /\ (~ In (Py.lower (Py.strip cmd)) Spec.writing_commands ->
        fst (ServerCLI.handle_command s cmd line) = s).
Proof.
  intros s cmd line. unfold ServerCLI.handle_command. cbv zeta.
  set (word := Py.lower (Py.strip cmd)).
  split.
  - destruct (String.eqb word "quit") eqn:E.
    + apply String.eqb_eq in E. simpl. split; auto.
    + apply String.eqb_neq in E.
      repeat match goal with
             | |- context [if ?b then _ else _] => destruct b
             | |- context [match ?o with Some _ => _ | None => _ end] => destruct o
             end; simpl; split; intros H; try discriminate; contradiction.
  - intros Hn.
    rewrite (string_eqb_false_of_not_in word Spec.writing_commands "motion" Hn)
      by (simpl; auto).
    rewrite (string_eqb_false_of_not_in word Spec.writing_commands "sensitivity" Hn)
      by (simpl; auto).
    rewrite (string_eqb_false_of_not_in word Spec.writing_commands "fps" Hn)
      by (simpl; auto).
    rewrite (string_eqb_false_of_not_in word Spec.writing_commands "quality" Hn)
      by (simpl; auto 6).
    rewrite (string_eqb_false_of_not_in word Spec.writing_commands "monitor" Hn)
      by (simpl; auto 7).
    rewrite (string_eqb_false_of_not_in word Spec.writing_commands "reset" Hn)
      by (simpl; auto 8).
    repeat match goal with
           | |- context [if ?b then _ else _] => destruct b
           end; reflexivity.
Qed.

Section OperatorAndTick.

Variable json_dumps : Packet.t -> string.
Variable resize : PIL.Image -> Z * Z -> PIL.Image.
Variable jpeg_save : PIL.Image -> Z -> list ascii.
Variable b64encode : list ascii -> string.

Lemma round2_zero : (Py.round2 0 == 0)%Q.
Proof. vm_compute. reflexivity. Qed.

(** X20. After the operator's [reset] the next capture tick reports no
    motion, a percentage of zero and the threat level 0, whatever the
    screen shows and whatever the level was, and the count of motion events
    restarts at zero. *)
Theorem operator_reset_then_tick :
  forall (s : SecurityRadarServer.t) (line : string) (screenshot : PIL.Image)
         (now : Q) (send : nat -> SendResult),
    let s0 := fst (ServerCLI.handle_command s "reset" line) in
    let result :=
      SecurityRadarServer.capture_tick json_dumps resize jpeg_save b64encode
                                       s0 screenshot now send in
    MotionDetector.previous_frame (SecurityRadarServer.motion_detector s0) = None
    /\ SecurityRadarServer.threat_level s0 = 0
    /\ Packet.motion_detected (snd (fst result)) = false
    /\ (Packet.motion_percentage (snd (fst result)) == 0)%Q
    /\ Packet.threat_level (snd (fst result)) = 0
    /\ SecurityRadarServer.motion_events (fst (fst result)) = 0.
Proof.
  intros s line screenshot now send s0 result. subst result s0.
  change (fst (ServerCLI.handle_command s "reset" line))
    with (SecurityRadarServer.set_motion_events 0
            (SecurityRadarServer.set_threat_level 0
               (SecurityRadarServer.set_motion_detector
                  (MotionDetector.reset (SecurityRadarServer.motion_detector s)) s))).
  split; [reflexivity|]. split; [reflexivity|].
  unfold SecurityRadarServer.capture_tick. cbv zeta.
  set (img := if PIL.width screenshot >? ServerConfig.MAX_WIDTH then _ else screenshot).
  cbn [SecurityRadarServer.motion_enabled SecurityRadarServer.set_motion_events
       SecurityRadarServer.set_threat_level SecurityRadarServer.set_motion_detector
       SecurityRadarServer.motion_detector].
  destruct (SecurityRadarServer.motion_enabled s).
  - unfold MotionDetector.detect_motion, MotionDetector.reset.
    cbn [MotionDetector.enabled MotionDetector.previous_frame].
    destruct (negb (MotionDetector.enabled (SecurityRadarServer.motion_detector s)));
      rewrite broadcast_packet_spec; cbn;
      repeat split; try reflexivity; apply round2_zero.
  - rewrite broadcast_packet_spec. cbn.
    repeat split; try reflexivity; apply round2_zero.
Qed.

(** X21. While the server-wide motion switch is off, a capture tick
    does not consult the detector: the packet reports no motion and a
    percentage of zero, and the detector (with the frame it holds), the
    threat level and the count of motion events are left as they are.  Two
    [motion] commands of the operator restore the switch and the server. *)
Theorem tick_with_motion_switched_off :
  forall (s : SecurityRadarServer.t) (screenshot : PIL.Image)
         (now : Q) (send : nat -> SendResult) (line1 line2 : string),
    SecurityRadarServer.motion_enabled s = false ->
    let result :=
      SecurityRadarServer.capture_tick json_dumps resize jpeg_save b64encode
                                       s screenshot now send in
    Packet.motion_detected (snd (fst result)) = false
    /\ (Packet.motion_percentage (snd (fst result)) == 0)%Q
    /\ SecurityRadarServer.motion_detector (fst (fst result))
       = SecurityRadarServer.motion_detector s
    /\ SecurityRadarServer.threat_level (fst (fst result))
       = SecurityRadarServer.threat_level s
    /\ SecurityRadarServer.motion_events (fst (fst result))
       = SecurityRadarServer.motion_events s
    /\ SecurityRadarServer.motion_enabled
         (fst (ServerCLI.handle_command s "motion" line1)) = true
    /\ fst (ServerCLI.handle_command
              (fst (ServerCLI.handle_command s "motion" line1)) "motion" line2) = s.
Proof.
  intros s screenshot now send line1 line2 Hoff result. subst result.
  unfold SecurityRadarServer.capture_tick. cbv zeta. rewrite Hoff.
  rewrite broadcast_packet_spec. cbn [fst snd].
  split; [reflexivity|]. split; [apply round2_zero|].
  split; [reflexivity|]. split; [reflexivity|]. split; [reflexivity|].
  change (fst (ServerCLI.handle_command s "motion" line1))
    with (SecurityRadarServer.set_motion_enabled
            (negb (SecurityRadarServer.motion_enabled s)) s).
  split; [simpl; rewrite Hoff; reflexivity|].
  change (fst (ServerCLI.handle_command
                 (SecurityRadarServer.set_motion_enabled
                    (negb (SecurityRadarServer.motion_enabled s)) s) "motion" line2))
    with (SecurityRadarServer.set_motion_enabled
            (negb (SecurityRadarServer.motion_enabled
                     (SecurityRadarServer.set_motion_enabled
                        (negb (SecurityRadarServer.motion_enabled s)) s)))
            (SecurityRadarServer.set_motion_enabled
               (negb (SecurityRadarServer.motion_enabled s)) s)).
  destruct s. simpl. rewrite negb_involutive. reflexivity.
Qed.

End OperatorAndTick.

Lemma tick_with_motion_switched_off_witness :
  SecurityRadarServer.motion_detector
    (fst (fst (SecurityRadarServer.capture_tick
                 Demo.json_dumps Demo.resize Demo.jpeg_save Demo.b64encode
                 Demo.quiet Demo.white 1002 Demo.send)))
  = SecurityRadarServer.motion_detector Demo.quiet.
Proof.
  apply (tick_with_motion_switched_off
           Demo.json_dumps Demo.resize Demo.jpeg_save Demo.b64encode
           Demo.quiet Demo.white 1002 Demo.send EmptyString EmptyString).
  reflexivity.
Defined.

(** ** The configuration of the server of server.py *)

Lemma capture_step_fields (s : ScreenCaptureServer.t) (e : ScreenCaptureServer.Event) :
  let s' := ScreenCaptureServer.step s e in
  (ScreenCaptureServer.capture_fps s' = ScreenCaptureServer.capture_fps s
   \/ Spec.fps_in_range (ScreenCaptureServer.capture_fps s'))
  /\ (ScreenCaptureServer.quality s' = ScreenCaptureServer.quality s
      \/ 10 <= ScreenCaptureServer.quality s' <= 100).
Proof.
  destruct e as [command | cmd line]; cbn [ScreenCaptureServer.step];
    [unfold ScreenCaptureServer._process_command
    | unfold ScreenCaptureServer.handle_command; cbv zeta];
    repeat match goal with
           | |- context [if ?b then _ else _] => destruct b
           | |- context [match ?o with Some _ => _ | None => _ end] => destruct o
           end; simpl; unfold Spec.fps_in_range;
    split; try (left; reflexivity); right; lia.
Qed.

(** X22. On the server of [server.py], in every state reached from the
    initial one by client commands and operator commands, the quality is in
    [10, 100] and the capture rate is either the initial 60 or a value in
    [1, 30]; from a state whose rate is in [1, 30] the rate stays in
    [1, 30], so the initial 60 cannot be restored. *)
Theorem capture_server_rate_is_60_or_in_range :
  forall events : list ScreenCaptureServer.Event,
    let s := ScreenCaptureServer.run ScreenCaptureServer.init events in
    10 <= ScreenCaptureServer.quality s <= 100
    /\ (ScreenCaptureServer.capture_fps s = 60
        \/ Spec.fps_in_range (ScreenCaptureServer.capture_fps s))
    /\ (forall (s0 : ScreenCaptureServer.t) (more : list ScreenCaptureServer.Event),
           Spec.fps_in_range (ScreenCaptureServer.capture_fps s0) ->
           Spec.fps_in_range
             (ScreenCaptureServer.capture_fps (ScreenCaptureServer.run s0 more))).
Proof.
  intros events s. subst s. unfold ScreenCaptureServer.run.
  assert (Hkeep : forall (more : list ScreenCaptureServer.Event)
                         (s0 : ScreenCaptureServer.t),
             Spec.fps_in_range (ScreenCaptureServer.capture_fps s0) ->
             Spec.fps_in_range
               (ScreenCaptureServer.capture_fps
                  (fold_left ScreenCaptureServer.step more s0))).
  { induction more as [|e more IH]; intros s0 H0; simpl; [exact H0|].
    apply IH. destruct (capture_step_fields s0 e) as [[-> | Hf] _]; assumption. }
  assert (Hinv : forall (evs : list ScreenCaptureServer.Event)
                        (s0 : ScreenCaptureServer.t),
             10 <= ScreenCaptureServer.quality s0 <= 100 ->
             ScreenCaptureServer.capture_fps s0 = 60
             \/ Spec.fps_in_range (ScreenCaptureServer.capture_fps s0) ->
             10 <= ScreenCaptureServer.quality
                     (fold_left ScreenCaptureServer.step evs s0) <= 100
             /\ (ScreenCaptureServer.capture_fps
                   (fold_left ScreenCaptureServer.step evs s0) = 60
                 \/ Spec.fps_in_range
                      (ScreenCaptureServer.capture_fps
                         (fold_left ScreenCaptureServer.step evs s0)))).
  { induction evs as [|e evs IH]; intros s0 Hq Hf; simpl; [auto|].
    destruct (capture_step_fields s0 e) as [Kf Kq]. cbv zeta in Kf, Kq.
    apply IH.
    - destruct Kq as [-> | Kq]; assumption.
    - destruct Kf as [-> | Kf]; [exact Hf | right; exact Kf]. }
  destruct (Hinv events ScreenCaptureServer.init) as [Hq Hf].
  - vm_compute. split; discriminate.
  - left. reflexivity.
  - split; [exact Hq|]. split; [exact Hf|].
    intros s0 more. apply Hkeep.
Qed.

(** ** The receive loop on a stream *)

Lemma frame_bytes (text : string) :
  Spec.isascii text = true ->
  Viewer.frame text
  = list_ascii_of_string (Py.str (Py.len text)) ++ "|"%char :: list_ascii_of_string text.
Proof.
  intros Hascii. unfold Viewer.frame.
  assert (Hlen : 0 <= Py.len text) by (unfold Py.len; lia).
  rewrite encode_ascii.
  - rewrite bytes_app. reflexivity.
  - rewrite isascii_app, (digits_isascii _ (str_digits _ Hlen)). simpl. exact Hascii.
Qed.

Lemma slice_body_then (head body rest : list ascii) (sep : ascii) :
  Viewer.slice (head ++ sep :: body ++ rest)
               (Z.of_nat (List.length head) + 1)
               (Z.of_nat (List.length head) + 1 + Z.of_nat (List.length body))
  = body.
Proof.
  unfold Viewer.slice, Viewer.bound.
  rewrite length_app. cbn [List.length]. rewrite length_app.
  assert (H1 : (Z.of_nat (List.length head) + 1 <? 0) = false)
    by (apply Z.ltb_ge; lia).
  assert (H2 : (Z.of_nat (List.length head) + 1
                + Z.of_nat (List.length body) <? 0) = false)
    by (apply Z.ltb_ge; lia).
  rewrite H1, H2.
  set (total := (List.length head + S (List.length body + List.length rest))%nat).
  replace (Z.to_nat (Z.min (Z.of_nat (List.length head) + 1) (Z.of_nat total)))
    with (S (List.length head)) by lia.
  replace (Z.to_nat
             (Z.min (Z.of_nat (List.length head) + 1 + Z.of_nat (List.length body))
                    (Z.of_nat total)
              - Z.min (Z.of_nat (List.length head) + 1) (Z.of_nat total)))
    with (List.length body) by lia.
  rewrite skipn_past. apply firstn_prefix.
Qed.

Lemma slice_from_then (head body rest : list ascii) (sep : ascii) :
  Viewer.slice_from (head ++ sep :: body ++ rest)
                    (Z.of_nat (List.length head) + 1 + Z.of_nat (List.length body))
  = rest.
Proof.
  unfold Viewer.slice_from, Viewer.bound.
  rewrite length_app. cbn [List.length]. rewrite length_app.
  assert (H : (Z.of_nat (List.length head) + 1
               + Z.of_nat (List.length body) <? 0) = false)
    by (apply Z.ltb_ge; lia).
  rewrite H.
  replace (Z.to_nat
             (Z.min (Z.of_nat (List.length head) + 1 + Z.of_nat (List.length body))
                    (Z.of_nat (List.length head
                               + S (List.length body + List.length rest)))))
    with (List.length body + S (List.length head))%nat by lia.
  rewrite <- skipn_skipn, skipn_past.
  rewrite skipn_app, skipn_all, Nat.sub_diag. reflexivity.
Qed.

(** A buffer that starts with a whole frame yields its text first. *)
Lemma process_buffer_frame_then (fuel : nat) (text : string) (rest : list ascii) :
  Spec.isascii text = true ->
  Viewer.process_buffer (S fuel) (Viewer.frame text ++ rest)
  = (let '(messages, remaining, status) := Viewer.process_buffer fuel rest in
     (text :: messages, remaining, status)).
Proof.
  intros Hascii. rewrite (frame_bytes text Hascii).
  assert (Hlen : 0 <= Py.len text) by (unfold Py.len; lia).
  pose proof (str_digits _ Hlen) as Hdigits.
  rewrite <- app_assoc. cbn [app].
  rewrite process_buffer_step.
  rewrite (find_after_digits _ _ Hdigits).
  cbv zeta.
  rewrite <- (bytes_length (Py.str (Py.len text))) at 1.
  rewrite firstn_prefix.
  rewrite (decode_ascii _ (digits_isascii _ Hdigits)), (int_str _ Hlen).
  rewrite <- (bytes_length (Py.str (Py.len text))).
  assert (Hsize : Py.len text = Z.of_nat (List.length (list_ascii_of_string text)))
    by (rewrite bytes_length; reflexivity).
  set (digits := list_ascii_of_string (Py.str (Py.len text))).
  rewrite Hsize.
  rewrite slice_body_then, slice_from_then, (decode_ascii text Hascii).
  assert (Hge : (Z.of_nat (List.length
                             (digits ++ "|"%char :: list_ascii_of_string text ++ rest))
                 >=? Z.of_nat (List.length digits)
                     + 1 + Z.of_nat (List.length (list_ascii_of_string text))) = true).
  { rewrite Z.geb_leb. apply Z.leb_le. rewrite length_app. cbn [List.length].
    rewrite length_app. lia. }
  rewrite Hge. reflexivity.
Qed.

(** X23. Frames that arrive back to back are all delivered, in order:
    on the bytes of any number of frames of ASCII documents, the receive
    loop schedules exactly their texts, uses the buffer up and then waits
    for more data. *)
Theorem receive_loop_delivers_every_frame :
  forall (texts : list string) (fuel : nat),
    Forall (fun text => Spec.isascii text = true) texts ->
    (List.length texts < fuel)%nat ->
    Viewer.process_buffer fuel (List.concat (map Viewer.frame texts))
    = (texts, [], Viewer.Waiting).
Proof.
  intros texts fuel Hascii. revert fuel.
  induction Hascii as [|text texts Ht _ IH]; intros fuel Hfuel; simpl in *.
  - destruct fuel; [lia | reflexivity].
  - destruct fuel as [|fuel]; [lia|].
    rewrite (process_buffer_frame_then fuel text _ Ht), IH by lia. reflexivity.
Qed.

Lemma receive_loop_delivers_every_frame_witness :
  Viewer.process_buffer
    3 (List.concat (map Viewer.frame
                        [Demo.json_dumps Demo.packet; "{}"%string]))
  = ([Demo.json_dumps Demo.packet; "{}"%string], [], Viewer.Waiting).
Proof.
  apply (receive_loop_delivers_every_frame
           [Demo.json_dumps Demo.packet; "{}"%string] 3).
  - repeat constructor.
  - simpl. lia.
Defined.

Lemma find_none (l : list ascii) :
  Forall (fun c => Ascii.eqb c "|" = false) l -> Viewer.find "|" l = None.
Proof.
  intros H. induction H as [|c l Hc _ IH]; simpl; [reflexivity|].
  rewrite Hc, IH. reflexivity.
Qed.

Lemma find_at_separator (head rest : list ascii) :
  Viewer.find "|" head = None ->
  Viewer.find "|" (head ++ "|"%char :: rest) = Some (List.length head).
Proof.
  induction head as [|c head IH]; simpl; [reflexivity|].
  destruct (Ascii.eqb c "|"); [discriminate|].
  destruct (Viewer.find "|" head); [discriminate|].
  intros _. rewrite (IH eq_refl). reflexivity.
Qed.

Lemma digits_without_bar (s : string) :
  Spec.all_digits s = true ->
  Forall (fun c => Ascii.eqb c "|" = false) (list_ascii_of_string s).
Proof.
  induction s as [|c r IH]; simpl; [constructor|].
  intros H. apply andb_true_iff in H. destruct H as [Hc Hr].
  constructor; [apply digit_not_bar, Hc | apply IH, Hr].
Qed.

Lemma forall_firstn {A : Type} (P : A -> Prop) (k : nat) (l : list A) :
  Forall P l -> Forall P (firstn k l).
Proof.
  intros H. revert k. induction H as [|x l Hx _ IH]; intros [|k]; simpl;
    constructor; auto.
Qed.

(** X24. A frame that arrives in two pieces is delivered once, when the
    second piece is there: on any proper prefix of the bytes of a frame the
    receive loop schedules nothing, keeps the prefix in the buffer and waits
    for more data; on the prefix followed by the remaining bytes it
    schedules the text of the frame. *)
Theorem receive_loop_waits_for_the_whole_frame :
  forall (text : string) (k fuel : nat),
    Spec.isascii text = true ->
    (k < List.length (Viewer.frame text))%nat ->
    (2 <= fuel)%nat ->
    Viewer.process_buffer fuel (firstn k (Viewer.frame text))
    = ([], firstn k (Viewer.frame text), Viewer.Waiting)
    /\ Viewer.process_buffer
         fuel (firstn k (Viewer.frame text) ++ skipn k (Viewer.frame text))
       = ([text], [], Viewer.Waiting).
Proof.
  intros text k fuel Hascii Hk Hfuel.
  destruct fuel as [|fuel]; [lia|]. split.
  - rewrite (frame_bytes text Hascii) in *.
    assert (Hlen : 0 <= Py.len text) by (unfold Py.len; lia).
    pose proof (str_digits _ Hlen) as Hdigits.
    set (digits := list_ascii_of_string (Py.str (Py.len text))) in *.
    set (body := list_ascii_of_string text) in *.
    rewrite length_app in Hk. cbn [List.length] in Hk.
    rewrite firstn_app, process_buffer_step.
    destruct (Nat.le_gt_cases k (List.length digits)) as [Hle | Hgt].
    + replace (k - List.length digits)%nat with O by lia. cbn [firstn].
      rewrite List.app_nil_r.
      rewrite find_none; [reflexivity|].
      apply forall_firstn, digits_without_bar, Hdigits.
    + rewrite firstn_all2 by lia.
      destruct (k - List.length digits)%nat as [|j] eqn:Hj; [lia|].
      cbn [firstn].
      rewrite (find_at_separator digits (firstn j body)
                 (find_none digits (digits_without_bar _ Hdigits))).
      cbv zeta. rewrite firstn_prefix.
      unfold digits at 1.
      rewrite (decode_ascii _ (digits_isascii _ Hdigits)), (int_str _ Hlen).
      assert (Hshort : (Z.of_nat (List.length (digits ++ "|"%char :: firstn j body))
                        >=? Z.of_nat (List.length digits) + 1 + Py.len text) = false).
      { rewrite Z.geb_leb. apply Z.leb_gt.
        rewrite length_app. cbn [List.length]. rewrite length_firstn.
        unfold Py.len. fold body. rewrite <- (bytes_length text). fold body. lia. }
      rewrite Hshort. reflexivity.
  - rewrite firstn_skipn.
    rewrite <- (List.app_nil_r (Viewer.frame text)).
    rewrite (process_buffer_frame_then fuel text [] Hascii).
    destruct fuel; [lia | reflexivity].
Qed.

Lemma receive_loop_waits_for_the_whole_frame_witness :
  Viewer.process_buffer 2 (firstn 3 (Viewer.frame "{}"))
  = ([], firstn 3 (Viewer.frame "{}"), Viewer.Waiting)
  /\ Viewer.process_buffer
       2 (firstn 2 (Viewer.frame "{}") ++ skipn 2 (Viewer.frame "{}"))
     = (["{}"%string], [], Viewer.Waiting).
Proof.
  split.
  - apply (receive_loop_waits_for_the_whole_frame "{}" 3 2);
      [reflexivity | vm_compute; lia | lia].
  - apply (receive_loop_waits_for_the_whole_frame "{}" 2 2);
      [reflexivity | vm_compute; lia | lia].
Defined.



(** ** The zone a packet names *)

(** X26. [_get_active_zone] returns the name of the first zone, in the
    order in which the zones were inserted, whose flag is set, and
    "Unknown" when no flag is set.  Hence once [check_motion] has been
    called with a percentage on every zone, it returns the first zone whose
    effective threshold is below that percentage, however many later zones
    are flagged as well. *)
Theorem active_zone_is_first_flagged :
  forall (s : SecurityRadarServer.t) (before after : list (Z * MonitoringZone.t))
         (k : Z) (zone : MonitoringZone.t) (p : Q),
    SecurityRadarServer.zones s = before ++ (k, zone) :: after ->
    (Forall (fun kz => MonitoringZone.motion_detected (snd kz) = false) before ->
     MonitoringZone.motion_detected zone = true ->
     SecurityRadarServer._get_active_zone s = MonitoringZone.name zone)
    /\ (Forall (fun kz => MonitoringZone.motion_detected (snd kz) = false)
               (SecurityRadarServer.zones s) ->
        SecurityRadarServer._get_active_zone s = "Unknown"%string)
    /\ (Forall (fun kz => (p <= Spec.effective_threshold
                                  (MonitoringZone.sensitivity (snd kz)))%Q) before ->
        (Spec.effective_threshold (MonitoringZone.sensitivity zone) < p)%Q ->
        SecurityRadarServer.first_flagged
          (map (fun kz => (fst kz, fst (MonitoringZone.check_motion (snd kz) p)))
               (SecurityRadarServer.zones s))
        = MonitoringZone.name zone).
Proof.
  intros s before after k zone p Hz. unfold SecurityRadarServer._get_active_zone.
  split; [|split].
  - intros Hb Hf. rewrite Hz. apply first_flagged_found; assumption.
  - apply first_flagged_none.
  - intros Hb Hp. rewrite Hz, map_app. cbn [map fst snd].
    apply (first_flagged_found
             (map (fun kz => (fst kz, fst (MonitoringZone.check_motion (snd kz) p)))
                  before)
             (map (fun kz => (fst kz, fst (MonitoringZone.check_motion (snd kz) p)))
                  after)
             k (fst (MonitoringZone.check_motion zone p))).
    + apply Forall_map. apply (Forall_impl _ (P := fun kz => (p <= Spec.effective_threshold
                                  (MonitoringZone.sensitivity (snd kz)))%Q)); [|exact Hb].
      intros kz Hkz. simpl. apply Qgtb_false. exact Hkz.
    + simpl. apply Qgtb_true. exact Hp.
Qed.

Lemma active_zone_is_first_flagged_witness :
  SecurityRadarServer.first_flagged
    (map (fun kz => (fst kz, fst (MonitoringZone.check_motion (snd kz) (5 # 2))))
         (SecurityRadarServer.zones SecurityRadarServer.init))
  = "Restricted Area"%string.
Proof.
  refine (proj2 (proj2 (active_zone_is_first_flagged
                          SecurityRadarServer.init
                          [(1, MonitoringZone.init 1 "Entry Point" 0 0 640 360 5);
                           (2, MonitoringZone.init 2 "Perimeter" 640 0 640 360 4)]
                          [(4, MonitoringZone.init 4 "Parking" 640 360 640 360 3)]
                          3 (MonitoringZone.init 3 "Restricted Area" 0 360 640 360 7)
                          (5 # 2) _)) _ _).
  - reflexivity.
  - repeat constructor; vm_compute; discriminate.
  - vm_compute. reflexivity.
Defined.
